(** * Secure code review action: a shallow embedding of [review_pr.js]

    The development follows the layout of the script:
    - [Unicode]   UTF-8 and the case tables the host language reads;
    - [Js]        the string and array primitives of the host language the
                  script relies on ([split], [join], [startsWith], [trim],
                  [toLowerCase], [includes], [slice]);
    - [Json]      parsed JSON values, property access, truthiness and string
                  conversion;
    - the data model ([ChangedFile], [CollectedFile], [PRComment], [Error]);
    - the effect model: a state-and-exception monad over a [World] holding the
      clock, the hosting platform, the completion endpoint and the log of the
      external calls issued;
    - the functions of the script, in source order;
    - the properties.

    Character model: a string is the UTF-8 encoding of its text, so that
    searching, splitting and joining are those of the text.  [trim] removes
    the white space and line terminators of the language, [toLowerCase]
    applies the case mappings of the Unicode Character Database; a text with
    an unpaired surrogate has no UTF-8 encoding and is outside the model.
    Numbers are integers ([Z]); [NaN] and fractional values are outside the
    model. *)

From Stdlib Require Import ZArith NArith List String Ascii Bool Lia Arith.
From Stdlib Require Import DecimalString.
Import ListNotations.

Local Open Scope string_scope.
Local Open Scope Z_scope.

(* ------------------------------------------------------------------ *)
(** ** Text: UTF-8 and the Unicode case tables *)
(* ------------------------------------------------------------------ *)

Module Unicode.

Definition code (a : ascii) : N := Ascii.N_of_ascii a.

(** A continuation byte. *)
Definition cont (b : N) : bool := ((0x80 <=? b) && (b <=? 0xBF))%N.

(** A byte that is not part of a well-formed sequence is carried through
    decoding as a value above the code space. *)
Definition stray (b : N) : N := (0x110000 + b)%N.

(** The code points of a UTF-8 text. *)
Fixpoint decode (s : string) : list N :=
  match s with
  | EmptyString => []
  | String a0 s1 =>
      let b0 := code a0 in
      if (b0 <? 0x80)%N then b0 :: decode s1
      else
        match s1 with
        | EmptyString => [stray b0]
        | String a1 s2 =>
            let b1 := code a1 in
            if ((0xC2 <=? b0) && (b0 <=? 0xDF))%N && cont b1
            then ((b0 - 0xC0) * 64 + (b1 - 0x80))%N :: decode s2
            else
              match s2 with
              | EmptyString => stray b0 :: decode s1
              | String a2 s3 =>
                  let b2 := code a2 in
                  let c3 := ((b0 - 0xE0) * 4096 + (b1 - 0x80) * 64 + (b2 - 0x80))%N in
                  if ((0xE0 <=? b0) && (b0 <=? 0xEF))%N && cont b1 && cont b2
                     && (0x800 <=? c3)%N
                  then c3 :: decode s3
                  else
                    match s3 with
                    | EmptyString => stray b0 :: decode s1
                    | String a3 s4 =>
                        let b3 := code a3 in
                        let c4 := ((b0 - 0xF0) * 262144 + (b1 - 0x80) * 4096
                                   + (b2 - 0x80) * 64 + (b3 - 0x80))%N in
                        if ((0xF0 <=? b0) && (b0 <=? 0xF4))%N && cont b1 && cont b2
                           && cont b3 && (0x10000 <=? c4)%N && (c4 <? 0x110000)%N
                        then c4 :: decode s4
                        else stray b0 :: decode s1
                    end
              end
        end
  end.

Definition bytes (l : list N) : string :=
  fold_right (fun b rest => String (Ascii.ascii_of_N b) rest) EmptyString l.

(** The UTF-8 sequence of a code point. *)
Definition encode1 (c : N) : string :=
  (if c <? 0x80 then bytes [c]
   else if c <? 0x800 then bytes [0xC0 + c / 64; 0x80 + c mod 64]
   else if c <? 0x10000
   then bytes [0xE0 + c / 4096; 0x80 + (c / 64) mod 64; 0x80 + c mod 64]
   else if c <? 0x110000
   then bytes [0xF0 + c / 262144; 0x80 + (c / 4096) mod 64;
               0x80 + (c / 64) mod 64; 0x80 + c mod 64]
   else bytes [c - 0x110000])%N.

Fixpoint encode (l : list N) : string :=
  match l with
  | [] => EmptyString
  | c :: rest => encode1 c ++ encode rest
  end.

Definition in_ranges (ranges : list (N * N)) (c : N) : bool :=
  existsb (fun r => (fst r <=? c) && (c <=? snd r))%N ranges.

(** Simple lower-case mappings of the Unicode Character Database (version
    14.0).  A rule [(lo, hi, step, to)] maps the code points [lo], [lo + step],
    ..., up to [hi], to [to], [to + step], ...; a code point no rule covers is
    its own lower case. *)
Definition lower_rules : list (N * N * N * N) :=
  [
   (0x41, 0x5A, 1, 0x61); (0xC0, 0xD6, 1, 0xE0); (0xD8, 0xDE, 1, 0xF8);
   (0x100, 0x12E, 2, 0x101); (0x132, 0x136, 2, 0x133); (0x139, 0x147, 2, 0x13A);
   (0x14A, 0x176, 2, 0x14B); (0x178, 0x178, 1, 0xFF); (0x179, 0x17D, 2, 0x17A);
   (0x181, 0x181, 1, 0x253); (0x182, 0x184, 2, 0x183); (0x186, 0x186, 1, 0x254);
   (0x187, 0x187, 1, 0x188); (0x189, 0x18A, 1, 0x256); (0x18B, 0x18B, 1, 0x18C);
   (0x18E, 0x18E, 1, 0x1DD); (0x18F, 0x18F, 1, 0x259); (0x190, 0x190, 1, 0x25B);
   (0x191, 0x191, 1, 0x192); (0x193, 0x193, 1, 0x260); (0x194, 0x194, 1, 0x263);
   (0x196, 0x196, 1, 0x269); (0x197, 0x197, 1, 0x268); (0x198, 0x198, 1, 0x199);
   (0x19C, 0x19C, 1, 0x26F); (0x19D, 0x19D, 1, 0x272); (0x19F, 0x19F, 1, 0x275);
   (0x1A0, 0x1A4, 2, 0x1A1); (0x1A6, 0x1A6, 1, 0x280); (0x1A7, 0x1A7, 1, 0x1A8);
   (0x1A9, 0x1A9, 1, 0x283); (0x1AC, 0x1AC, 1, 0x1AD); (0x1AE, 0x1AE, 1, 0x288);
   (0x1AF, 0x1AF, 1, 0x1B0); (0x1B1, 0x1B2, 1, 0x28A); (0x1B3, 0x1B5, 2, 0x1B4);
   (0x1B7, 0x1B7, 1, 0x292); (0x1B8, 0x1B8, 1, 0x1B9); (0x1BC, 0x1BC, 1, 0x1BD);
   (0x1C4, 0x1C4, 1, 0x1C6); (0x1C5, 0x1C5, 1, 0x1C6); (0x1C7, 0x1C7, 1, 0x1C9);
   (0x1C8, 0x1C8, 1, 0x1C9); (0x1CA, 0x1CA, 1, 0x1CC); (0x1CB, 0x1DB, 2, 0x1CC);
   (0x1DE, 0x1EE, 2, 0x1DF); (0x1F1, 0x1F1, 1, 0x1F3); (0x1F2, 0x1F4, 2, 0x1F3);
   (0x1F6, 0x1F6, 1, 0x195); (0x1F7, 0x1F7, 1, 0x1BF); (0x1F8, 0x21E, 2, 0x1F9);
   (0x220, 0x220, 1, 0x19E); (0x222, 0x232, 2, 0x223); (0x23A, 0x23A, 1, 0x2C65);
   (0x23B, 0x23B, 1, 0x23C); (0x23D, 0x23D, 1, 0x19A); (0x23E, 0x23E, 1, 0x2C66);
   (0x241, 0x241, 1, 0x242); (0x243, 0x243, 1, 0x180); (0x244, 0x244, 1, 0x289);
   (0x245, 0x245, 1, 0x28C); (0x246, 0x24E, 2, 0x247); (0x370, 0x372, 2, 0x371);
   (0x376, 0x376, 1, 0x377); (0x37F, 0x37F, 1, 0x3F3); (0x386, 0x386, 1, 0x3AC);
   (0x388, 0x38A, 1, 0x3AD); (0x38C, 0x38C, 1, 0x3CC); (0x38E, 0x38F, 1, 0x3CD);
   (0x391, 0x3A1, 1, 0x3B1); (0x3A3, 0x3AB, 1, 0x3C3); (0x3CF, 0x3CF, 1, 0x3D7);
   (0x3D8, 0x3EE, 2, 0x3D9); (0x3F4, 0x3F4, 1, 0x3B8); (0x3F7, 0x3F7, 1, 0x3F8);
   (0x3F9, 0x3F9, 1, 0x3F2); (0x3FA, 0x3FA, 1, 0x3FB); (0x3FD, 0x3FF, 1, 0x37B);
   (0x400, 0x40F, 1, 0x450); (0x410, 0x42F, 1, 0x430); (0x460, 0x480, 2, 0x461);
   (0x48A, 0x4BE, 2, 0x48B); (0x4C0, 0x4C0, 1, 0x4CF); (0x4C1, 0x4CD, 2, 0x4C2);
   (0x4D0, 0x52E, 2, 0x4D1); (0x531, 0x556, 1, 0x561); (0x10A0, 0x10C5, 1, 0x2D00);
   (0x10C7, 0x10C7, 1, 0x2D27); (0x10CD, 0x10CD, 1, 0x2D2D); (0x13A0, 0x13EF, 1, 0xAB70);
   (0x13F0, 0x13F5, 1, 0x13F8); (0x1C90, 0x1CBA, 1, 0x10D0); (0x1CBD, 0x1CBF, 1, 0x10FD);
   (0x1E00, 0x1E94, 2, 0x1E01); (0x1E9E, 0x1E9E, 1, 0xDF); (0x1EA0, 0x1EFE, 2, 0x1EA1);
   (0x1F08, 0x1F0F, 1, 0x1F00); (0x1F18, 0x1F1D, 1, 0x1F10); (0x1F28, 0x1F2F, 1, 0x1F20);
   (0x1F38, 0x1F3F, 1, 0x1F30); (0x1F48, 0x1F4D, 1, 0x1F40); (0x1F59, 0x1F5F, 2, 0x1F51);
   (0x1F68, 0x1F6F, 1, 0x1F60); (0x1F88, 0x1F8F, 1, 0x1F80); (0x1F98, 0x1F9F, 1, 0x1F90);
   (0x1FA8, 0x1FAF, 1, 0x1FA0); (0x1FB8, 0x1FB9, 1, 0x1FB0); (0x1FBA, 0x1FBB, 1, 0x1F70);
   (0x1FBC, 0x1FBC, 1, 0x1FB3); (0x1FC8, 0x1FCB, 1, 0x1F72); (0x1FCC, 0x1FCC, 1, 0x1FC3);
   (0x1FD8, 0x1FD9, 1, 0x1FD0); (0x1FDA, 0x1FDB, 1, 0x1F76); (0x1FE8, 0x1FE9, 1, 0x1FE0);
   (0x1FEA, 0x1FEB, 1, 0x1F7A); (0x1FEC, 0x1FEC, 1, 0x1FE5); (0x1FF8, 0x1FF9, 1, 0x1F78);
   (0x1FFA, 0x1FFB, 1, 0x1F7C); (0x1FFC, 0x1FFC, 1, 0x1FF3); (0x2126, 0x2126, 1, 0x3C9);
   (0x212A, 0x212A, 1, 0x6B); (0x212B, 0x212B, 1, 0xE5); (0x2132, 0x2132, 1, 0x214E);
   (0x2160, 0x216F, 1, 0x2170); (0x2183, 0x2183, 1, 0x2184); (0x24B6, 0x24CF, 1, 0x24D0);
   (0x2C00, 0x2C2F, 1, 0x2C30); (0x2C60, 0x2C60, 1, 0x2C61); (0x2C62, 0x2C62, 1, 0x26B);
   (0x2C63, 0x2C63, 1, 0x1D7D); (0x2C64, 0x2C64, 1, 0x27D); (0x2C67, 0x2C6B, 2, 0x2C68);
   (0x2C6D, 0x2C6D, 1, 0x251); (0x2C6E, 0x2C6E, 1, 0x271); (0x2C6F, 0x2C6F, 1, 0x250);
   (0x2C70, 0x2C70, 1, 0x252); (0x2C72, 0x2C72, 1, 0x2C73); (0x2C75, 0x2C75, 1, 0x2C76);
   (0x2C7E, 0x2C7F, 1, 0x23F); (0x2C80, 0x2CE2, 2, 0x2C81); (0x2CEB, 0x2CED, 2, 0x2CEC);
   (0x2CF2, 0x2CF2, 1, 0x2CF3); (0xA640, 0xA66C, 2, 0xA641); (0xA680, 0xA69A, 2, 0xA681);
   (0xA722, 0xA72E, 2, 0xA723); (0xA732, 0xA76E, 2, 0xA733); (0xA779, 0xA77B, 2, 0xA77A);
   (0xA77D, 0xA77D, 1, 0x1D79); (0xA77E, 0xA786, 2, 0xA77F); (0xA78B, 0xA78B, 1, 0xA78C);
   (0xA78D, 0xA78D, 1, 0x265); (0xA790, 0xA792, 2, 0xA791); (0xA796, 0xA7A8, 2, 0xA797);
   (0xA7AA, 0xA7AA, 1, 0x266); (0xA7AB, 0xA7AB, 1, 0x25C); (0xA7AC, 0xA7AC, 1, 0x261);
   (0xA7AD, 0xA7AD, 1, 0x26C); (0xA7AE, 0xA7AE, 1, 0x26A); (0xA7B0, 0xA7B0, 1, 0x29E);
   (0xA7B1, 0xA7B1, 1, 0x287); (0xA7B2, 0xA7B2, 1, 0x29D); (0xA7B3, 0xA7B3, 1, 0xAB53);
   (0xA7B4, 0xA7C2, 2, 0xA7B5); (0xA7C4, 0xA7C4, 1, 0xA794); (0xA7C5, 0xA7C5, 1, 0x282);
   (0xA7C6, 0xA7C6, 1, 0x1D8E); (0xA7C7, 0xA7C9, 2, 0xA7C8); (0xA7D0, 0xA7D0, 1, 0xA7D1);
   (0xA7D6, 0xA7D8, 2, 0xA7D7); (0xA7F5, 0xA7F5, 1, 0xA7F6); (0xFF21, 0xFF3A, 1, 0xFF41);
   (0x10400, 0x10427, 1, 0x10428); (0x104B0, 0x104D3, 1, 0x104D8); (0x10570, 0x1057A, 1, 0x10597);
   (0x1057C, 0x1058A, 1, 0x105A3); (0x1058C, 0x10592, 1, 0x105B3); (0x10594, 0x10595, 1, 0x105BB);
   (0x10C80, 0x10CB2, 1, 0x10CC0); (0x118A0, 0x118BF, 1, 0x118C0); (0x16E40, 0x16E5F, 1, 0x16E60);
   (0x1E900, 0x1E921, 1, 0x1E922)
  ]%N.

(** The code points with the property Case_Ignorable, as ranges. *)
Definition case_ignorable_ranges : list (N * N) :=
  [
   (0x27, 0x27); (0x2E, 0x2E); (0x3A, 0x3A); (0x5E, 0x5E); (0x60, 0x60);
   (0xA8, 0xA8); (0xAD, 0xAD); (0xAF, 0xAF); (0xB4, 0xB4); (0xB7, 0xB8);
   (0x2B0, 0x36F); (0x374, 0x375); (0x37A, 0x37A); (0x384, 0x385); (0x387, 0x387);
   (0x483, 0x489); (0x559, 0x559); (0x55F, 0x55F); (0x591, 0x5BD); (0x5BF, 0x5BF);
   (0x5C1, 0x5C2); (0x5C4, 0x5C5); (0x5C7, 0x5C7); (0x5F4, 0x5F4); (0x600, 0x605);
   (0x610, 0x61A); (0x61C, 0x61C); (0x640, 0x640); (0x64B, 0x65F); (0x670, 0x670);
   (0x6D6, 0x6DD); (0x6DF, 0x6E8); (0x6EA, 0x6ED); (0x70F, 0x70F); (0x711, 0x711);
   (0x730, 0x74A); (0x7A6, 0x7B0); (0x7EB, 0x7F5); (0x7FA, 0x7FA); (0x7FD, 0x7FD);
   (0x816, 0x82D); (0x859, 0x85B); (0x888, 0x888); (0x890, 0x891); (0x898, 0x89F);
   (0x8C9, 0x902); (0x93A, 0x93A); (0x93C, 0x93C); (0x941, 0x948); (0x94D, 0x94D);
   (0x951, 0x957); (0x962, 0x963); (0x971, 0x971); (0x981, 0x981); (0x9BC, 0x9BC);
   (0x9C1, 0x9C4); (0x9CD, 0x9CD); (0x9E2, 0x9E3); (0x9FE, 0x9FE); (0xA01, 0xA02);
   (0xA3C, 0xA3C); (0xA41, 0xA42); (0xA47, 0xA48); (0xA4B, 0xA4D); (0xA51, 0xA51);
   (0xA70, 0xA71); (0xA75, 0xA75); (0xA81, 0xA82); (0xABC, 0xABC); (0xAC1, 0xAC5);
   (0xAC7, 0xAC8); (0xACD, 0xACD); (0xAE2, 0xAE3); (0xAFA, 0xAFF); (0xB01, 0xB01);
   (0xB3C, 0xB3C); (0xB3F, 0xB3F); (0xB41, 0xB44); (0xB4D, 0xB4D); (0xB55, 0xB56);
   (0xB62, 0xB63); (0xB82, 0xB82); (0xBC0, 0xBC0); (0xBCD, 0xBCD); (0xC00, 0xC00);
   (0xC04, 0xC04); (0xC3C, 0xC3C); (0xC3E, 0xC40); (0xC46, 0xC48); (0xC4A, 0xC4D);
   (0xC55, 0xC56); (0xC62, 0xC63); (0xC81, 0xC81); (0xCBC, 0xCBC); (0xCBF, 0xCBF);
   (0xCC6, 0xCC6); (0xCCC, 0xCCD); (0xCE2, 0xCE3); (0xD00, 0xD01); (0xD3B, 0xD3C);
   (0xD41, 0xD44); (0xD4D, 0xD4D); (0xD62, 0xD63); (0xD81, 0xD81); (0xDCA, 0xDCA);
   (0xDD2, 0xDD4); (0xDD6, 0xDD6); (0xE31, 0xE31); (0xE34, 0xE3A); (0xE46, 0xE4E);
   (0xEB1, 0xEB1); (0xEB4, 0xEBC); (0xEC6, 0xEC6); (0xEC8, 0xECD); (0xF18, 0xF19);
   (0xF35, 0xF35); (0xF37, 0xF37); (0xF39, 0xF39); (0xF71, 0xF7E); (0xF80, 0xF84);
   (0xF86, 0xF87); (0xF8D, 0xF97); (0xF99, 0xFBC); (0xFC6, 0xFC6); (0x102D, 0x1030);
   (0x1032, 0x1037); (0x1039, 0x103A); (0x103D, 0x103E); (0x1058, 0x1059); (0x105E, 0x1060);
   (0x1071, 0x1074); (0x1082, 0x1082); (0x1085, 0x1086); (0x108D, 0x108D); (0x109D, 0x109D);
   (0x10FC, 0x10FC); (0x135D, 0x135F); (0x1712, 0x1714); (0x1732, 0x1733); (0x1752, 0x1753);
   (0x1772, 0x1773); (0x17B4, 0x17B5); (0x17B7, 0x17BD); (0x17C6, 0x17C6); (0x17C9, 0x17D3);
   (0x17D7, 0x17D7); (0x17DD, 0x17DD); (0x180B, 0x180F); (0x1843, 0x1843); (0x1885, 0x1886);
   (0x18A9, 0x18A9); (0x1920, 0x1922); (0x1927, 0x1928); (0x1932, 0x1932); (0x1939, 0x193B);
   (0x1A17, 0x1A18); (0x1A1B, 0x1A1B); (0x1A56, 0x1A56); (0x1A58, 0x1A5E); (0x1A60, 0x1A60);
   (0x1A62, 0x1A62); (0x1A65, 0x1A6C); (0x1A73, 0x1A7C); (0x1A7F, 0x1A7F); (0x1AA7, 0x1AA7);
   (0x1AB0, 0x1ACE); (0x1B00, 0x1B03); (0x1B34, 0x1B34); (0x1B36, 0x1B3A); (0x1B3C, 0x1B3C);
   (0x1B42, 0x1B42); (0x1B6B, 0x1B73); (0x1B80, 0x1B81); (0x1BA2, 0x1BA5); (0x1BA8, 0x1BA9);
   (0x1BAB, 0x1BAD); (0x1BE6, 0x1BE6); (0x1BE8, 0x1BE9); (0x1BED, 0x1BED); (0x1BEF, 0x1BF1);
   (0x1C2C, 0x1C33); (0x1C36, 0x1C37); (0x1C78, 0x1C7D); (0x1CD0, 0x1CD2); (0x1CD4, 0x1CE0);
   (0x1CE2, 0x1CE8); (0x1CED, 0x1CED); (0x1CF4, 0x1CF4); (0x1CF8, 0x1CF9); (0x1D2C, 0x1D6A);
   (0x1D78, 0x1D78); (0x1D9B, 0x1DFF); (0x1FBD, 0x1FBD); (0x1FBF, 0x1FC1); (0x1FCD, 0x1FCF);
   (0x1FDD, 0x1FDF); (0x1FED, 0x1FEF); (0x1FFD, 0x1FFE); (0x200B, 0x200F); (0x2018, 0x2019);
   (0x2024, 0x2024); (0x2027, 0x2027); (0x202A, 0x202E); (0x2060, 0x2064); (0x2066, 0x206F);
   (0x2071, 0x2071); (0x207F, 0x207F); (0x2090, 0x209C); (0x20D0, 0x20F0); (0x2C7C, 0x2C7D);
   (0x2CEF, 0x2CF1); (0x2D6F, 0x2D6F); (0x2D7F, 0x2D7F); (0x2DE0, 0x2DFF); (0x2E2F, 0x2E2F);
   (0x3005, 0x3005); (0x302A, 0x302D); (0x3031, 0x3035); (0x303B, 0x303B); (0x3099, 0x309E);
   (0x30FC, 0x30FE); (0xA015, 0xA015); (0xA4F8, 0xA4FD); (0xA60C, 0xA60C); (0xA66F, 0xA672);
   (0xA674, 0xA67D); (0xA67F, 0xA67F); (0xA69C, 0xA69F); (0xA6F0, 0xA6F1); (0xA700, 0xA721);
   (0xA770, 0xA770); (0xA788, 0xA78A); (0xA7F2, 0xA7F4); (0xA7F8, 0xA7F9); (0xA802, 0xA802);
   (0xA806, 0xA806); (0xA80B, 0xA80B); (0xA825, 0xA826); (0xA82C, 0xA82C); (0xA8C4, 0xA8C5);
   (0xA8E0, 0xA8F1); (0xA8FF, 0xA8FF); (0xA926, 0xA92D); (0xA947, 0xA951); (0xA980, 0xA982);
   (0xA9B3, 0xA9B3); (0xA9B6, 0xA9B9); (0xA9BC, 0xA9BD); (0xA9CF, 0xA9CF); (0xA9E5, 0xA9E6);
   (0xAA29, 0xAA2E); (0xAA31, 0xAA32); (0xAA35, 0xAA36); (0xAA43, 0xAA43); (0xAA4C, 0xAA4C);
   (0xAA70, 0xAA70); (0xAA7C, 0xAA7C); (0xAAB0, 0xAAB0); (0xAAB2, 0xAAB4); (0xAAB7, 0xAAB8);
   (0xAABE, 0xAABF); (0xAAC1, 0xAAC1); (0xAADD, 0xAADD); (0xAAEC, 0xAAED); (0xAAF3, 0xAAF4);
   (0xAAF6, 0xAAF6); (0xAB5B, 0xAB5F); (0xAB69, 0xAB6B); (0xABE5, 0xABE5); (0xABE8, 0xABE8);
   (0xABED, 0xABED); (0xFB1E, 0xFB1E); (0xFBB2, 0xFBC2); (0xFE00, 0xFE0F); (0xFE13, 0xFE13);
   (0xFE20, 0xFE2F); (0xFE52, 0xFE52); (0xFE55, 0xFE55); (0xFEFF, 0xFEFF); (0xFF07, 0xFF07);
   (0xFF0E, 0xFF0E); (0xFF1A, 0xFF1A); (0xFF3E, 0xFF3E); (0xFF40, 0xFF40); (0xFF70, 0xFF70);
   (0xFF9E, 0xFF9F); (0xFFE3, 0xFFE3); (0xFFF9, 0xFFFB); (0x101FD, 0x101FD); (0x102E0, 0x102E0);
   (0x10376, 0x1037A); (0x10780, 0x10785); (0x10787, 0x107B0); (0x107B2, 0x107BA); (0x10A01, 0x10A03);
   (0x10A05, 0x10A06); (0x10A0C, 0x10A0F); (0x10A38, 0x10A3A); (0x10A3F, 0x10A3F); (0x10AE5, 0x10AE6);
   (0x10D24, 0x10D27); (0x10EAB, 0x10EAC); (0x10F46, 0x10F50); (0x10F82, 0x10F85); (0x11001, 0x11001);
   (0x11038, 0x11046); (0x11070, 0x11070); (0x11073, 0x11074); (0x1107F, 0x11081); (0x110B3, 0x110B6);
   (0x110B9, 0x110BA); (0x110BD, 0x110BD); (0x110C2, 0x110C2); (0x110CD, 0x110CD); (0x11100, 0x11102);
   (0x11127, 0x1112B); (0x1112D, 0x11134); (0x11173, 0x11173); (0x11180, 0x11181); (0x111B6, 0x111BE);
   (0x111C9, 0x111CC); (0x111CF, 0x111CF); (0x1122F, 0x11231); (0x11234, 0x11234); (0x11236, 0x11237);
   (0x1123E, 0x1123E); (0x112DF, 0x112DF); (0x112E3, 0x112EA); (0x11300, 0x11301); (0x1133B, 0x1133C);
   (0x11340, 0x11340); (0x11366, 0x1136C); (0x11370, 0x11374); (0x11438, 0x1143F); (0x11442, 0x11444);
   (0x11446, 0x11446); (0x1145E, 0x1145E); (0x114B3, 0x114B8); (0x114BA, 0x114BA); (0x114BF, 0x114C0);
   (0x114C2, 0x114C3); (0x115B2, 0x115B5); (0x115BC, 0x115BD); (0x115BF, 0x115C0); (0x115DC, 0x115DD);
   (0x11633, 0x1163A); (0x1163D, 0x1163D); (0x1163F, 0x11640); (0x116AB, 0x116AB); (0x116AD, 0x116AD);
   (0x116B0, 0x116B5); (0x116B7, 0x116B7); (0x1171D, 0x1171F); (0x11722, 0x11725); (0x11727, 0x1172B);
   (0x1182F, 0x11837); (0x11839, 0x1183A); (0x1193B, 0x1193C); (0x1193E, 0x1193E); (0x11943, 0x11943);
   (0x119D4, 0x119D7); (0x119DA, 0x119DB); (0x119E0, 0x119E0); (0x11A01, 0x11A0A); (0x11A33, 0x11A38);
   (0x11A3B, 0x11A3E); (0x11A47, 0x11A47); (0x11A51, 0x11A56); (0x11A59, 0x11A5B); (0x11A8A, 0x11A96);
   (0x11A98, 0x11A99); (0x11C30, 0x11C36); (0x11C38, 0x11C3D); (0x11C3F, 0x11C3F); (0x11C92, 0x11CA7);
   (0x11CAA, 0x11CB0); (0x11CB2, 0x11CB3); (0x11CB5, 0x11CB6); (0x11D31, 0x11D36); (0x11D3A, 0x11D3A);
   (0x11D3C, 0x11D3D); (0x11D3F, 0x11D45); (0x11D47, 0x11D47); (0x11D90, 0x11D91); (0x11D95, 0x11D95);
   (0x11D97, 0x11D97); (0x11EF3, 0x11EF4); (0x13430, 0x13438); (0x16AF0, 0x16AF4); (0x16B30, 0x16B36);
   (0x16B40, 0x16B43); (0x16F4F, 0x16F4F); (0x16F8F, 0x16F9F); (0x16FE0, 0x16FE1); (0x16FE3, 0x16FE4);
   (0x1AFF0, 0x1AFF3); (0x1AFF5, 0x1AFFB); (0x1AFFD, 0x1AFFE); (0x1BC9D, 0x1BC9E); (0x1BCA0, 0x1BCA3);
   (0x1CF00, 0x1CF2D); (0x1CF30, 0x1CF46); (0x1D167, 0x1D169); (0x1D173, 0x1D182); (0x1D185, 0x1D18B);
   (0x1D1AA, 0x1D1AD); (0x1D242, 0x1D244); (0x1DA00, 0x1DA36); (0x1DA3B, 0x1DA6C); (0x1DA75, 0x1DA75);
   (0x1DA84, 0x1DA84); (0x1DA9B, 0x1DA9F); (0x1DAA1, 0x1DAAF); (0x1E000, 0x1E006); (0x1E008, 0x1E018);
   (0x1E01B, 0x1E021); (0x1E023, 0x1E024); (0x1E026, 0x1E02A); (0x1E130, 0x1E13D); (0x1E2AE, 0x1E2AE);
   (0x1E2EC, 0x1E2EF); (0x1E8D0, 0x1E8D6); (0x1E944, 0x1E94B); (0x1F3FB, 0x1F3FF); (0xE0001, 0xE0001);
   (0xE0020, 0xE007F); (0xE0100, 0xE01EF)
  ]%N.

(** The code points with the property Cased that are not Case_Ignorable, as
    ranges. *)
Definition cased_ranges : list (N * N) :=
  [
   (0x41, 0x5A); (0x61, 0x7A); (0xAA, 0xAA); (0xB5, 0xB5); (0xBA, 0xBA);
   (0xC0, 0xD6); (0xD8, 0xF6); (0xF8, 0x1BA); (0x1BC, 0x1BF); (0x1C4, 0x293);
   (0x295, 0x2AF); (0x370, 0x373); (0x376, 0x377); (0x37B, 0x37D); (0x37F, 0x37F);
   (0x386, 0x386); (0x388, 0x38A); (0x38C, 0x38C); (0x38E, 0x3A1); (0x3A3, 0x3F5);
   (0x3F7, 0x481); (0x48A, 0x52F); (0x531, 0x556); (0x560, 0x588); (0x10A0, 0x10C5);
   (0x10C7, 0x10C7); (0x10CD, 0x10CD); (0x10D0, 0x10FA); (0x10FD, 0x10FF); (0x13A0, 0x13F5);
   (0x13F8, 0x13FD); (0x1C80, 0x1C88); (0x1C90, 0x1CBA); (0x1CBD, 0x1CBF); (0x1D00, 0x1D2B);
   (0x1D6B, 0x1D77); (0x1D79, 0x1D9A); (0x1E00, 0x1F15); (0x1F18, 0x1F1D); (0x1F20, 0x1F45);
   (0x1F48, 0x1F4D); (0x1F50, 0x1F57); (0x1F59, 0x1F59); (0x1F5B, 0x1F5B); (0x1F5D, 0x1F5D);
   (0x1F5F, 0x1F7D); (0x1F80, 0x1FB4); (0x1FB6, 0x1FBC); (0x1FBE, 0x1FBE); (0x1FC2, 0x1FC4);
   (0x1FC6, 0x1FCC); (0x1FD0, 0x1FD3); (0x1FD6, 0x1FDB); (0x1FE0, 0x1FEC); (0x1FF2, 0x1FF4);
   (0x1FF6, 0x1FFC); (0x2102, 0x2102); (0x2107, 0x2107); (0x210A, 0x2113); (0x2115, 0x2115);
   (0x2119, 0x211D); (0x2124, 0x2124); (0x2126, 0x2126); (0x2128, 0x2128); (0x212A, 0x212D);
   (0x212F, 0x2134); (0x2139, 0x2139); (0x213C, 0x213F); (0x2145, 0x2149); (0x214E, 0x214E);
   (0x2160, 0x217F); (0x2183, 0x2184); (0x24B6, 0x24E9); (0x2C00, 0x2C7B); (0x2C7E, 0x2CE4);
   (0x2CEB, 0x2CEE); (0x2CF2, 0x2CF3); (0x2D00, 0x2D25); (0x2D27, 0x2D27); (0x2D2D, 0x2D2D);
   (0xA640, 0xA66D); (0xA680, 0xA69B); (0xA722, 0xA76F); (0xA771, 0xA787); (0xA78B, 0xA78E);
   (0xA790, 0xA7CA); (0xA7D0, 0xA7D1); (0xA7D3, 0xA7D3); (0xA7D5, 0xA7D9); (0xA7F5, 0xA7F6);
   (0xA7FA, 0xA7FA); (0xAB30, 0xAB5A); (0xAB60, 0xAB68); (0xAB70, 0xABBF); (0xFB00, 0xFB06);
   (0xFB13, 0xFB17); (0xFF21, 0xFF3A); (0xFF41, 0xFF5A); (0x10400, 0x1044F); (0x104B0, 0x104D3);
   (0x104D8, 0x104FB); (0x10570, 0x1057A); (0x1057C, 0x1058A); (0x1058C, 0x10592); (0x10594, 0x10595);
   (0x10597, 0x105A1); (0x105A3, 0x105B1); (0x105B3, 0x105B9); (0x105BB, 0x105BC); (0x10C80, 0x10CB2);
   (0x10CC0, 0x10CF2); (0x118A0, 0x118DF); (0x16E40, 0x16E7F); (0x1D400, 0x1D454); (0x1D456, 0x1D49C);
   (0x1D49E, 0x1D49F); (0x1D4A2, 0x1D4A2); (0x1D4A5, 0x1D4A6); (0x1D4A9, 0x1D4AC); (0x1D4AE, 0x1D4B9);
   (0x1D4BB, 0x1D4BB); (0x1D4BD, 0x1D4C3); (0x1D4C5, 0x1D505); (0x1D507, 0x1D50A); (0x1D50D, 0x1D514);
   (0x1D516, 0x1D51C); (0x1D51E, 0x1D539); (0x1D53B, 0x1D53E); (0x1D540, 0x1D544); (0x1D546, 0x1D546);
   (0x1D54A, 0x1D550); (0x1D552, 0x1D6A5); (0x1D6A8, 0x1D6C0); (0x1D6C2, 0x1D6DA); (0x1D6DC, 0x1D6FA);
   (0x1D6FC, 0x1D714); (0x1D716, 0x1D734); (0x1D736, 0x1D74E); (0x1D750, 0x1D76E); (0x1D770, 0x1D788);
   (0x1D78A, 0x1D7A8); (0x1D7AA, 0x1D7C2); (0x1D7C4, 0x1D7CB); (0x1DF00, 0x1DF09); (0x1DF0B, 0x1DF1E);
   (0x1E900, 0x1E943); (0x1F130, 0x1F149); (0x1F150, 0x1F169); (0x1F170, 0x1F189)
  ]%N.

Definition case_ignorable (c : N) : bool := in_ranges case_ignorable_ranges c.

(** Cased, for a code point that is not case-ignorable. *)
Definition cased (c : N) : bool := in_ranges cased_ranges c.

Fixpoint apply_rules (rules : list (N * N * N * N)) (c : N) : N :=
  match rules with
  | [] => c
  | (lo, hi, step, to) :: rest =>
      if ((lo <=? c) && (c <=? hi) && ((c - lo) mod step =? 0))%N
      then (to + (c - lo))%N
      else apply_rules rest c
  end.

(** The context-free lower case of a code point: the simple mapping, and the
    one unconditional special casing, of U+0130. *)
Definition lower1 (c : N) : list N :=
  if (c =? 0x130)%N then [0x69; 0x307]%N else [apply_rules lower_rules c].

(** The next code point that is not case-ignorable is cased. *)
Fixpoint meets_cased (l : list N) : bool :=
  match l with
  | [] => false
  | c :: rest => if case_ignorable c then meets_cased rest else cased c
  end.

(** Lower-casing with the one context rule, Final_Sigma: a capital sigma that
    follows a cased letter and is not followed by one, case-ignorable code
    points skipped on both sides, becomes the final small sigma.  [before]
    holds the code points already passed, the nearest first. *)
Fixpoint lower_from (before l : list N) : list N :=
  match l with
  | [] => []
  | c :: rest =>
      (if (c =? 0x3A3)%N
       then if meets_cased before && negb (meets_cased rest)
            then [0x3C2%N] else [0x3C3%N]
       else lower1 c)
      ++ lower_from (c :: before) rest
  end.

Definition lower (l : list N) : list N := lower_from [] l.

(** WhiteSpace and LineTerminator of the language: what [trim] removes. *)
Definition white_space (c : N) : bool :=
  in_ranges [(0x9, 0xD); (0x20, 0x20); (0xA0, 0xA0); (0x1680, 0x1680);
             (0x2000, 0x200A); (0x2028, 0x2029); (0x202F, 0x202F);
             (0x205F, 0x205F); (0x3000, 0x3000); (0xFEFF, 0xFEFF)]%N c.

End Unicode.

(* ------------------------------------------------------------------ *)
(** ** Numbers as text *)
(* ------------------------------------------------------------------ *)

(** A number of the host language is a double.  An integer stands for the
    double nearest to it, which is the integer itself below [2^53]; its text
    is the shortest decimal that is read back as that double, in exponent
    form from [10^21] on. *)

Module Number.

(** The decimal numeral of an integer. *)
Definition decimal (n : Z) : string := NilZero.string_of_int (Z.to_int n).

(** The binary exponent of the unit in the last place of a double of
    magnitude [a]: a double has 53 significant bits. *)
Definition ulp_exp (a : Z) : Z := Z.max 0 (Z.log2 a - 52).

(** The double nearest to the integer [a >= 0], ties to the even
    significand. *)
Definition nearest (a : Z) : Z :=
  let e := ulp_exp a in
  let q := Z.shiftr a e in
  let r := a - Z.shiftl q e in
  let up := (Z.shiftl 1 e <? 2 * r) || ((Z.shiftl 1 e =? 2 * r) && Z.odd q) in
  Z.shiftl (if up then q + 1 else q) e.

(** The largest double is below [2^1024]; what rounds beyond is [Infinity]. *)
Definition overflows (d : Z) : bool := 2 ^ 1024 <=? d.

(** Whether the integer [c] is read back as the double [d > 0]: it lies
    within half a unit in the last place, the bounds included when the
    significand of [d] is even. *)
Definition reads_as (d c : Z) : bool :=
  let e := ulp_exp d in
  let m := Z.shiftr d e in
  let above := Z.shiftl 1 e in
  let below := if (m =? 2 ^ 52) && (0 <? e) then Z.shiftl 1 (e - 1) else above in
  let lo := 2 * d - below in
  let hi := 2 * d + above in
  ((lo <? 2 * c) && (2 * c <? hi))
  || (Z.even m && ((2 * c =? lo) || (2 * c =? hi))).

(** The digits [s] and the power [p] of the shortest decimal [s * 10^p] that
    is read back as [d], the nearest to [d] when there are two. *)
Fixpoint shortest (p : nat) (d : Z) : Z * Z :=
  let t := 10 ^ Z.of_nat p in
  let s := d / t in
  let below := reads_as d (s * t) in
  let above := reads_as d ((s + 1) * t) in
  let pick :=
    if below && above then
      if (d - s * t <? (s + 1) * t - d) then Some s
      else if ((s + 1) * t - d <? d - s * t) then Some (s + 1)
      else Some (if Z.even s then s else s + 1)
    else if below then Some s
    else if above then Some (s + 1)
    else None in
  match pick, p with
  | Some s', _ => (s', Z.of_nat p)
  | None, O => (d, 0)
  | None, S p' => shortest p' d
  end.

Fixpoint zeros (n : nat) : string :=
  match n with O => EmptyString | S n' => String "0" (zeros n') end.

(** [Number.prototype.toString] on a double [d > 0] that is an integer. *)
Definition print (d : Z) : string :=
  let '(s, p) := shortest (String.length (decimal d)) d in
  let digits := decimal s in
  let k := Z.of_nat (String.length digits) in
  let n := k + p in
  if n <=? 21 then digits ++ zeros (Z.to_nat p)
  else
    match digits with
    | String a EmptyString => String a EmptyString ++ "e+" ++ decimal (n - 1)
    | String a rest => String a EmptyString ++ "." ++ rest ++ "e+" ++ decimal (n - 1)
    | EmptyString => EmptyString
    end.

(** [String(n)] for the number that the integer [n] denotes. *)
Definition to_string (n : Z) : string :=
  if n =? 0 then "0"
  else
    let d := nearest (Z.abs n) in
    let sign := if n <? 0 then "-" else EmptyString in
    if overflows d then sign ++ "Infinity" else sign ++ print d.

End Number.

(* ------------------------------------------------------------------ *)
(** ** Host-language primitives *)
(* ------------------------------------------------------------------ *)

Module Js.

(** ["\n"] *)
Definition nl : ascii := Ascii.ascii_of_nat 10.
Definition NL : string := String nl EmptyString.

(** [s.split(c)] for a one-character separator: never the empty array. *)
Fixpoint split (c : ascii) (s : string) : list string :=
  match s with
  | EmptyString => [EmptyString]
  | String a s' =>
      if Ascii.eqb a c then EmptyString :: split c s'
      else match split c s' with
           | [] => [String a EmptyString]
           | x :: xs => String a x :: xs
           end
  end.

(** [xs.join(sep)] *)
Fixpoint join (sep : string) (xs : list string) : string :=
  match xs with
  | [] => EmptyString
  | [x] => x
  | x :: rest => x ++ sep ++ join sep rest
  end.

(** [s.startsWith(p)] *)
Fixpoint startsWith (s p : string) {struct p} : bool :=
  match p, s with
  | EmptyString, _ => true
  | String _ _, EmptyString => false
  | String b p', String a s' => Ascii.eqb a b && startsWith s' p'
  end.

(** [s.includes(t)] *)
Fixpoint includes (s t : string) : bool :=
  startsWith s t ||
  match s with
  | EmptyString => false
  | String _ s' => includes s' t
  end.

(** White space and line terminators of the ASCII range: U+0009 to U+000D
    and U+0020. *)
Definition is_space (a : ascii) : bool :=
  let n := Ascii.nat_of_ascii a in
  ((9 <=? n) && (n <=? 13))%nat || (n =? 32)%nat.

(** The two bytes of U+00A0. *)
Definition is_space2 (a b : ascii) : bool :=
  (Unicode.code a =? 0xC2)%N && (Unicode.code b =? 0xA0)%N.

(** The three bytes of U+1680, of U+2000 to U+200A, of U+2028, U+2029 and
    U+202F, of U+205F, of U+3000, or of U+FEFF. *)
Definition is_space3 (a b c : ascii) : bool :=
  let x := Unicode.code a in
  let y := Unicode.code b in
  let z := Unicode.code c in
  ((x =? 0xE1) && (y =? 0x9A) && (z =? 0x80)
   || (x =? 0xE2) && (y =? 0x80)
      && ((0x80 <=? z) && (z <=? 0x8A) || (z =? 0xA8) || (z =? 0xA9) || (z =? 0xAF))
   || (x =? 0xE2) && (y =? 0x81) && (z =? 0x9F)
   || (x =? 0xE3) && (y =? 0x80) && (z =? 0x80)
   || (x =? 0xEF) && (y =? 0xBB) && (z =? 0xBF))%N.

(** [s.trimStart()] *)
Fixpoint trimStart (s : string) : string :=
  match s with
  | EmptyString => EmptyString
  | String a s1 =>
      if is_space a then trimStart s1
      else
        match s1 with
        | EmptyString => s
        | String b s2 =>
            if is_space2 a b then trimStart s2
            else
              match s2 with
              | EmptyString => s
              | String c s3 => if is_space3 a b c then trimStart s3 else s
              end
        end
  end.

(** Nothing but white space. *)
Definition blank (s : string) : bool :=
  match trimStart s with EmptyString => true | _ => false end.

(** [s.trimEnd()]: the text is cut where what is left is blank. *)
Fixpoint trimEnd (s : string) : string :=
  match s with
  | EmptyString => EmptyString
  | String a s' => if blank s then EmptyString else String a (trimEnd s')
  end.

(** [s.trim()] *)
Definition trim (s : string) : string := trimEnd (trimStart s).

(** [s.toLowerCase()] *)
Definition toLowerCase (s : string) : string :=
  Unicode.encode (Unicode.lower (Unicode.decode s)).

(** A string used as a condition: only the empty string is falsy. *)
Definition truthy_string (s : string) : bool :=
  match s with EmptyString => false | _ => true end.

(** [xs.length] *)
Definition len {A} (xs : list A) : Z := Z.of_nat (List.length xs).

(** [xs.slice(0, limit)]: a negative end counts from the end of the array. *)
Definition slice0 {A} (xs : list A) (limit : Z) : list A :=
  if limit <? 0 then firstn (Z.to_nat (Z.max 0 (len xs + limit))) xs
  else firstn (Z.to_nat limit) xs.

(** [xs.pop()] on a fresh array: the last element, if any. *)
Definition pop {A} (xs : list A) : option A := List.last (map Some xs) None.

(** [String(n)] for an integer. *)
Definition string_of_Z (n : Z) : string := Number.to_string n.

End Js.

(* ------------------------------------------------------------------ *)
(** ** Data model *)
(* ------------------------------------------------------------------ *)

(** A row of the platform's pull-request file listing. [patch = None] is the
    absent patch of a binary or oversized file. *)
Record ChangedFile := mkChangedFile {
  cf_filename : string;
  cf_status : string;
  cf_additions : Z;
  cf_deletions : Z;
  cf_patch : option string
}.

(** The object pushed on [files] by [listChangedFiles]. *)
Record CollectedFile := mkCollectedFile {
  filename : string;
  status : string;
  additions : Z;
  deletions : Z;
  patch : string
}.

(** The environment-derived configuration of one run. *)
Record Config := mkConfig {
  MAX_FILES : Z;            (* Number(MAX_FILES) *)
  MAX_LINES : Z;            (* Number(MAX_LINES) *)
  LINE_TRIM_PER_FILE : Z;   (* Number(LINE_TRIM_PER_FILE) *)
  RISKY_EXTS : string;
  deadline : Z;             (* started + Number(TIME_BUDGET_SECONDS) * 1000 *)
  pull_request_number : option Z   (* context.payload.pull_request?.number *)
}.

Definition default_RISKY_EXTS : string :=
  "js,ts,tsx,jsx,py,go,rb,php,java,kt,cs,rs,swift,c,cc,cpp,h,sql,sh,ps1,yml,yaml,json,html,htm,css,scss,vue,mdx".

(** [new Set(RISKY_EXTS.split(",").map(s => s.trim().toLowerCase()))] *)
Definition riskySet (cfg : Config) : list string :=
  map (fun s => Js.toLowerCase (Js.trim s)) (Js.split "," (RISKY_EXTS cfg)).

Definition set_has (s : list string) (x : string) : bool :=
  existsb (String.eqb x) s.

(* ------------------------------------------------------------------ *)
(** ** Diff collection: the pure helpers *)
(* ------------------------------------------------------------------ *)

Definition isBinaryOrLarge (f : ChangedFile) : bool :=
  String.eqb (cf_status f) "removed" ||
  match cf_patch f with None => true | Some _ => false end.

(** [filename.toLowerCase().split(".").pop()] *)
Definition file_ext (name : string) : string :=
  match Js.pop (Js.split "." (Js.toLowerCase name)) with
  | Some e => e
  | None => EmptyString
  end.

Definition hasRiskyExt (cfg : Config) (name : string) : bool :=
  set_has (riskySet cfg) (file_ext name).

Definition patch_lines (p : string) : list string := Js.split Js.nl p.

(** [patch.split("\n").length] *)
Definition line_count (p : string) : Z := Js.len (patch_lines p).

Definition trimPatchLines (p : string) (limit : Z) : string :=
  let lines := patch_lines p in
  if Js.len lines <=? limit then p
  else
    let first := match lines with l0 :: _ => l0 | [] => EmptyString end in
    let header := if Js.startsWith first "@@" then first else EmptyString in
    Js.join Js.NL (header :: Js.slice0 lines limit).

(** The predicate of the [filter] call. *)
Definition is_hunk_line (l : string) : bool :=
  Js.startsWith l "@@" || Js.startsWith l "+" || Js.startsWith l "-".

(** [(f.patch || "").split("\n").filter(...).join("\n")] *)
Definition reduce_patch (raw : option string) : string :=
  let p := match raw with Some s => s | None => EmptyString end in
  Js.join Js.NL (filter is_hunk_line (patch_lines p)).

(* ------------------------------------------------------------------ *)
(** ** Parsed JSON *)
(* ------------------------------------------------------------------ *)

Module Json.

(** The result of [JSON.parse]. An object is its list of own properties. *)
#[warnings="-register-all"] Inductive t :=
| JNull
| JBool (b : bool)
| JNum (n : Z)
| JStr (s : string)
| JArr (l : list t)
| JObj (l : list (string * t)).

Fixpoint assoc (k : string) (l : list (string * t)) : option t :=
  match l with
  | [] => None
  | (k', v) :: rest => if String.eqb k k' then Some v else assoc k rest
  end.

(** The value of an expression that may be [undefined]. *)
Definition value := option t.

Definition nullish (v : value) : bool :=
  match v with None | Some JNull => true | _ => false end.

(** [v.k] for a value that is neither [null] nor [undefined], and a property
    name [k] that no prototype defines: only objects carry it. *)
Definition prop (v : t) (k : string) : value :=
  match v with
  | JObj l => assoc k l
  | _ => None
  end.

(** The first UTF-16 unit of a code point: the code point itself, or its
    high surrogate, which [encode1] writes the way it writes any code point
    of three bytes. *)
Definition first_unit (c : N) : N :=
  if (c <? 0x10000)%N || (0x110000 <=? c)%N then c
  else (0xD800 + (c - 0x10000) / 0x400)%N.

(** [v[0]] for a value that is neither [null] nor [undefined]. *)
Definition index0 (v : t) : value :=
  match v with
  | JArr l => nth_error l 0
  | JObj l => assoc "0" l
  | JStr s =>
      match Unicode.decode s with
      | [] => None
      | c :: _ => Some (JStr (Unicode.encode1 (first_unit c)))
      end
  | _ => None
  end.

(** Truthiness of a value used as a condition or as an operand of [||]. *)
Definition truthy (v : value) : bool :=
  match v with
  | None | Some JNull => false
  | Some (JBool b) => b
  | Some (JNum n) => negb (n =? 0)
  | Some (JStr s) => Js.truthy_string s
  | Some (JArr _) | Some (JObj _) => true
  end.

(** The texts of the elements of an array, as [join] takes them: [null] is
    the empty text. *)
Definition element_text (to_string : t -> option string) (x : t) : option string :=
  match x with
  | JNull => Some EmptyString
  | _ => to_string x
  end.

(** [String(v)], as a template literal applies it; [None] is the TypeError
    "Cannot convert object to primitive value".  An array is joined with
    commas.  An object without a property [toString] of its own inherits the
    one that answers "[object Object]"; the property of its own, which no
    JSON text makes callable, leaves it without a conversion. *)
Fixpoint to_string (v : t) : option string :=
  match v with
  | JNull => Some "null"
  | JBool true => Some "true"
  | JBool false => Some "false"
  | JNum n => Some (Js.string_of_Z n)
  | JStr s => Some s
  | JArr l =>
      match
        (fix texts (l : list t) : option (list string) :=
           match l with
           | [] => Some []
           | x :: rest =>
               match element_text to_string x, texts rest with
               | Some y, Some ys => Some (y :: ys)
               | _, _ => None
               end
           end) l
      with
      | Some ys => Some (Js.join "," ys)
      | None => None
      end
  | JObj l =>
      match assoc "toString" l with
      | Some _ => None
      | None => Some "[object Object]"
      end
  end.

(** [a || b || c || dflt] followed by the string conversion of the result. *)
Fixpoint first_truthy (candidates : list value) (dflt : string) : option string :=
  match candidates with
  | [] => Some dflt
  | c :: rest =>
      if truthy c then match c with Some v => to_string v | None => Some dflt end
      else first_truthy rest dflt
  end.

End Json.

(* ------------------------------------------------------------------ *)
(** ** Exceptions *)
(* ------------------------------------------------------------------ *)

Record Error := mkError { err_name : string; err_message : string }.

(** [new Error(msg)] *)
Definition new_Error (msg : string) : Error := mkError "Error" msg.
Definition TypeError (msg : string) : Error := mkError "TypeError" msg.
Definition SyntaxError (msg : string) : Error := mkError "SyntaxError" msg.

(** [String(err)], that is [Error.prototype.toString]. *)
Definition String_of_error (e : Error) : string :=
  match err_name e, err_message e with
  | EmptyString, m => m
  | n, EmptyString => n
  | n, m => n ++ ": " ++ m
  end.

Inductive Outcome (A : Type) :=
| Returned (a : A)
| Thrown (e : Error).
Arguments Returned {A} a.
Arguments Thrown {A} e.

(* ------------------------------------------------------------------ *)
(** ** GitLeaks summary *)
(* ------------------------------------------------------------------ *)

Definition ELLIPSIS : string := "…".

(** [f.File || f.file || f.Path || "unknown"] and its two siblings, as the
    template literal prints them. *)
Definition finding_file (f : Json.t) : option string :=
  Json.first_truthy [Json.prop f "File"; Json.prop f "file"; Json.prop f "Path"] "unknown".
Definition finding_rule (f : Json.t) : option string :=
  Json.first_truthy [Json.prop f "RuleID"; Json.prop f "ruleID"; Json.prop f "Rule"] "rule".
Definition finding_line (f : Json.t) : option string :=
  Json.first_truthy [Json.prop f "StartLine"; Json.prop f "startLine"; Json.prop f "Line"] "?".

Definition NO_PRIMITIVE : Error := TypeError "Cannot convert object to primitive value".

(** The body of the [map] callback: reading a property of [null] throws, and
    so does the template literal on a value without a string conversion. *)
Definition render_finding (f : Json.t) : Outcome string :=
  match f with
  | Json.JNull => Thrown (TypeError "Cannot read properties of null (reading 'File')")
  | _ =>
      match finding_file f, finding_line f, finding_rule f with
      | Some file, Some line, Some rule =>
          Returned ("- `" ++ file ++ "` line " ++ line ++ ": **" ++ rule ++ "**")
      | _, _, _ => Thrown NO_PRIMITIVE
      end
  end.

(** [xs.map(f)] for a callback that may throw. *)
Fixpoint map_throwing {A B} (f : A -> Outcome B) (xs : list A) : Outcome (list B) :=
  match xs with
  | [] => Returned []
  | x :: rest =>
      match f x with
      | Thrown e => Thrown e
      | Returned y =>
          match map_throwing f rest with
          | Thrown e => Thrown e
          | Returned ys => Returned (y :: ys)
          end
      end
  end.

Definition GITLEAKS_HEADING : string := "### 🔑 GitLeaks Findings".

Definition summarizeGitLeaks (findings : list Json.t) (limit : Z) : Outcome string :=
  if Js.len findings =? 0 then Returned EmptyString
  else
    match map_throwing render_finding (Js.slice0 findings limit) with
    | Thrown e => Thrown e
    | Returned lines =>
        let more :=
          if Js.len findings >? limit
          then Js.NL ++ ELLIPSIS ++ "and " ++ Js.string_of_Z (Js.len findings - limit) ++ " more."
          else EmptyString in
        Returned (GITLEAKS_HEADING ++ Js.NL ++ Js.join Js.NL lines ++ more)
    end.

(** The default value of the [limit] parameter. *)
Definition summarizeGitLeaks_default (findings : list Json.t) : Outcome string :=
  summarizeGitLeaks findings 10.

(* ------------------------------------------------------------------ *)
(** ** The world outside the script *)
(* ------------------------------------------------------------------ *)

(** A comment of the pull request, as the platform stores it. *)
Record PRComment := mkComment { id : Z; body : option string }.

(** What the completion endpoint answers.  [resp_json] is the parse of the
    body ([None] when the body is not JSON and [resp.json()] throws). *)
Record Response := mkResponse {
  resp_status : Z;
  resp_text : string;
  resp_json : option Json.t
}.

(** [resp.ok]: the status is in the range 200-299. *)
Definition resp_ok (r : Response) : bool :=
  (200 <=? resp_status r) && (resp_status r <=? 299).

(** The file [gitleaks-report.json]. *)
Inductive ReportFile :=
| ReportMissing
| ReportUnreadable
| ReportParsed (data : Json.t).

(** The external calls of the script. *)
Inductive Event :=
| ListFiles (pull_number per_page page : Z)
| ChatCompletion (systemPrompt userContent : string)
| ListComments (issue_number per_page : Z)
| UpdateComment (comment_id : Z) (new_body : string)
| CreateComment (issue_number : Z) (new_body : string).

(** The state the script runs against.  Time passes only while an external
    call is in flight: the [k]-th call takes [latency k] milliseconds and
    fails with [fault k] when that is an error.  [log] records each external
    call with the time at which it was issued; [failed] records the messages
    given to [core.setFailed]. *)
Record World := mkWorld {
  now : Z;
  calls : nat;
  latency : nat -> Z;
  fault : nat -> option Error;
  pr_files : list ChangedFile;
  comments : list PRComment;
  completion : Response;
  prompt_file : Outcome string;
  report_file : ReportFile;
  log : list (Z * Event);
  failed : list string
}.

Definition M (A : Type) : Type := World -> Outcome A * World.

Definition ret {A} (a : A) : M A := fun w => (Returned a, w).
Definition throw {A} (e : Error) : M A := fun w => (Thrown e, w).
Definition bind {A B} (m : M A) (k : A -> M B) : M B := fun w =>
  match m w with
  | (Returned a, w') => k a w'
  | (Thrown e, w') => (Thrown e, w')
  end.
Definition lift {A} (o : Outcome A) : M A := fun w => (o, w).

(** [try { body } catch (err) { handler }] *)
Definition try_catch {A} (body : M A) (handler : Error -> M A) : M A := fun w =>
  match body w with
  | (Returned a, w') => (Returned a, w')
  | (Thrown e, w') => handler e w'
  end.

Declare Scope js_scope.
Delimit Scope js_scope with js.
Notation "x <- m ;; k" := (bind m (fun x => k))
  (at level 61, m at next level, right associativity) : js_scope.
Notation "m ;;; k" := (bind m (fun _ => k))
  (at level 61, right associativity) : js_scope.
Local Open Scope js_scope.

(** Issue an external call: log it with the time of issue and let its latency
    pass; then it either fails with the injected fault or the collaborator
    serves it. *)
Definition issued (ev : Event) (w : World) : World :=
  mkWorld (now w + latency w (calls w)) (S (calls w)) (latency w) (fault w)
          (pr_files w) (comments w) (completion w) (prompt_file w)
          (report_file w) (log w ++ [(now w, ev)]) (failed w).

Definition issue {A} (ev : Event) (serve : World -> Outcome A * World) : M A := fun w =>
  match fault w (calls w) with
  | Some e => (Thrown e, issued ev w)
  | None => serve (issued ev w)
  end.

Definition set_comments (w : World) (cs : list PRComment) : World :=
  mkWorld (now w) (calls w) (latency w) (fault w) (pr_files w) cs
          (completion w) (prompt_file w) (report_file w) (log w) (failed w).

(** [core.setFailed(msg)] *)
Definition setFailed (msg : string) : M unit := fun w =>
  (Returned tt,
   mkWorld (now w) (calls w) (latency w) (fault w) (pr_files w) (comments w)
           (completion w) (prompt_file w) (report_file w) (log w)
           (failed w ++ [msg])).

(** *** The hosting platform *)

(** One page of a listing: pages are numbered from 1. *)
Definition page_of {A} (all : list A) (per_page page : Z) : list A :=
  firstn (Z.to_nat per_page) (skipn (Z.to_nat (per_page * (page - 1))) all).

(** [octokit.rest.pulls.listFiles] *)
Definition pulls_listFiles (pull_number per_page page : Z) : M (list ChangedFile) :=
  issue (ListFiles pull_number per_page page)
        (fun w => (Returned (page_of (pr_files w) per_page page), w)).

(** [octokit.rest.issues.listComments]: the first page of the comments, which
    the platform lists oldest first. *)
Definition issues_listComments (issue_number per_page : Z) : M (list PRComment) :=
  issue (ListComments issue_number per_page)
        (fun w => (Returned (page_of (comments w) per_page 1), w)).

Definition has_id (i : Z) (c : PRComment) : bool := id c =? i.

Definition replace_body (i : Z) (new_body : string) (c : PRComment) : PRComment :=
  if has_id i c then mkComment (id c) (Some new_body) else c.

(** [octokit.rest.issues.updateComment]: the comment keeps its place and its
    id; an unknown id is answered 404. *)
Definition issues_updateComment (comment_id : Z) (new_body : string) : M unit :=
  issue (UpdateComment comment_id new_body)
        (fun w =>
           if existsb (has_id comment_id) (comments w)
           then (Returned tt,
                 set_comments w (map (replace_body comment_id new_body) (comments w)))
           else (Thrown (mkError "HttpError" "Not Found"), w)).

Definition fresh_id (cs : list PRComment) : Z :=
  1 + fold_right (fun c m => Z.max (id c) m) 0 cs.

(** [octokit.rest.issues.createComment]: the new comment comes last, under an
    id no comment has. *)
Definition issues_createComment (issue_number : Z) (new_body : string) : M unit :=
  issue (CreateComment issue_number new_body)
        (fun w =>
           (Returned tt,
            set_comments w
              (comments w ++ [mkComment (fresh_id (comments w)) (Some new_body)]))).

(** [fetch(`${base}/chat/completions`, ...)] *)
Definition fetch_chat_completions (systemPrompt userContent : string) : M Response :=
  issue (ChatCompletion systemPrompt userContent)
        (fun w => (Returned (completion w), w)).

(* ------------------------------------------------------------------ *)
(** ** The script *)
(* ------------------------------------------------------------------ *)

Definition COMMENT_TAG : string := "<!-- secure-code-review-bot -->".

Definition TIME_BUDGET_EXCEEDED : Error := new_Error "TIME_BUDGET_EXCEEDED".

(** [if (Date.now() > deadline) throw ...] *)
Definition abortIfTimeUp (cfg : Config) : M unit := fun w =>
  if now w >? deadline cfg then (Thrown TIME_BUDGET_EXCEEDED, w)
  else (Returned tt, w).

(** *** GitLeaks report *)

(** [data?.findings] *)
Definition findings_field (data : Json.t) : Json.value :=
  match data with
  | Json.JNull => None
  | _ => Json.prop data "findings"
  end.

(** The whole body sits in a [try] whose [catch] returns the empty array. *)
Definition loadGitLeaksFindings : M (list Json.t) := fun w =>
  (Returned
     match report_file w with
     | ReportMissing => []
     | ReportUnreadable => []
     | ReportParsed (Json.JArr l) => l
     | ReportParsed data =>
         match findings_field data with
         | Some (Json.JArr l) => l
         | _ => []
         end
     end, w).

(** *** Pull-request context *)

Definition NOT_A_PULL_REQUEST : Error :=
  new_Error "This action must run on pull_request events.".

(** A number used as a condition: absent and zero are falsy. *)
Definition truthy_number (n : option Z) : bool :=
  match n with
  | Some n => negb (n =? 0)
  | None => false
  end.

Definition getPRNumber (cfg : Config) : M Z :=
  match pull_request_number cfg with
  | Some n => if n =? 0 then throw NOT_A_PULL_REQUEST else ret n
  | None => throw NOT_A_PULL_REQUEST
  end.

(** *** Diff collection *)

Definition collected (f : ChangedFile) (p : string) : CollectedFile :=
  mkCollectedFile (cf_filename f) (cf_status f) (cf_additions f) (cf_deletions f) p.

(** The inner [for (const f of data)] loop of [listChangedFiles], on the
    variables [files] and [totalLines] it updates.  Its three [break]s leave
    the loop with the current values; each of them also makes the test after
    the loop leave the outer one. *)
Fixpoint collect_page (cfg : Config) (capFiles capLines perFileCap : Z)
    (data : list ChangedFile) (files : list CollectedFile) (totalLines : Z)
    : list CollectedFile * Z :=
  match data with
  | [] => (files, totalLines)
  | f :: rest =>
      let push (p : string) :=
        let totalLines' := totalLines + line_count p in
        let files' := (files ++ [collected f p])%list in
        if (Js.len files' >=? capFiles) || (totalLines' >=? capLines)
        then (files', totalLines')
        else collect_page cfg capFiles capLines perFileCap rest files' totalLines' in
      if Js.len files >=? capFiles then (files, totalLines)
      else if isBinaryOrLarge f || negb (hasRiskyExt cfg (cf_filename f))
      then collect_page cfg capFiles capLines perFileCap rest files totalLines
      else
        let p := reduce_patch (cf_patch f) in
        if negb (Js.truthy_string (Js.trim p))
        then collect_page cfg capFiles capLines perFileCap rest files totalLines
        else
          let p := trimPatchLines p perFileCap in
          let patchLines := line_count p in
          if totalLines + patchLines >? capLines then
            let remaining := Z.max 0 (capLines - totalLines) in
            if remaining =? 0 then (files, totalLines)
            else push (trimPatchLines p remaining)
          else push p
  end.

Definition per_page : Z := 100.

(** The outer [for (;;)] loop.  [fuel] bounds the number of pages fetched;
    [None] is the bound reached before the loop has left. *)
Fixpoint listChangedFiles_loop (fuel : nat) (cfg : Config)
    (prNumber capFiles capLines perFileCap : Z)
    (page : Z) (files : list CollectedFile) (totalLines : Z) (w : World)
    : option (Outcome (list CollectedFile * Z) * World) :=
  match fuel with
  | O => None
  | S fuel' =>
      match abortIfTimeUp cfg w with
      | (Thrown e, w1) => Some (Thrown e, w1)
      | (Returned _, w1) =>
          match pulls_listFiles prNumber per_page page w1 with
          | (Thrown e, w2) => Some (Thrown e, w2)
          | (Returned data, w2) =>
              if Js.len data =? 0 then Some (Returned (files, totalLines), w2)
              else
                let '(files', totalLines') :=
                  collect_page cfg capFiles capLines perFileCap data files totalLines in
                if (Js.len data <? per_page) || (Js.len files' >=? capFiles)
                   || (totalLines' >=? capLines)
                then Some (Returned (files', totalLines'), w2)
                else listChangedFiles_loop fuel' cfg prNumber capFiles capLines
                       perFileCap (page + 1) files' totalLines' w2
          end
      end
  end.

(** A page bound no listing of the platform's files can reach: a page that
    does not end the loop holds a hundred rows. *)
Definition page_bound (w : World) : nat := S (List.length (pr_files w)).

(** [listChangedFiles]: the loop started at page 1 with nothing collected.
    The loop leaves within the page bound ([listChangedFiles_loop_result]
    below), so the [None] branch is never taken. *)

Definition listChangedFiles (cfg : Config) (prNumber capFiles capLines perFileCap : Z)
    : M (list CollectedFile * Z) := fun w =>
  match listChangedFiles_loop (page_bound w) cfg prNumber capFiles capLines
          perFileCap 1 [] 0 w with
  | Some r => r
  | None => (Thrown (mkError "Unreachable" "page bound"), w)
  end.

(** *** Prompt *)

Definition loadPrompt : M string := fun w => (prompt_file w, w).

Definition FENCE : string := "```".

Definition buildUserMessage (files : list CollectedFile) : string :=
  fold_left
    (fun acc f =>
       acc ++ Js.NL ++ "=== FILE: " ++ filename f ++ " (" ++ status f ++ ", +"
           ++ Js.string_of_Z (additions f) ++ "/-" ++ Js.string_of_Z (deletions f)
           ++ ") ===" ++ Js.NL
           ++ FENCE ++ "diff" ++ Js.NL ++ patch f ++ Js.NL ++ FENCE ++ Js.NL)
    files (">>> BEGIN_PATCHES" ++ Js.NL)
  ++ Js.NL ++ "<<< END_PATCHES".

(** *** Review client *)

Definition QUOTA : string := "OPENAI_INSUFFICIENT_QUOTA".

Definition upstream_message (r : Response) : string :=
  "OpenAI HTTP " ++ Js.string_of_Z (resp_status r) ++ ": " ++ resp_text r.

(** [x?.k] *)
Definition opt_prop (v : Json.value) (k : string) : Json.value :=
  match v with
  | None | Some Json.JNull => None
  | Some x => Json.prop x k
  end.

(** [x?.[0]] *)
Definition opt_index0 (v : Json.value) : Json.value :=
  match v with
  | None | Some Json.JNull => None
  | Some x => Json.index0 x
  end.

(** [data.choices?.[0]?.message?.content] *)
Definition first_choice_content (data : Json.t) : Outcome Json.value :=
  match data with
  | Json.JNull => Thrown (TypeError "Cannot read properties of null (reading 'choices')")
  | _ => Returned (opt_prop (opt_prop (opt_index0 (Json.prop data "choices")) "message") "content")
  end.

(** [content?.trim() || ""] *)
Definition trimmed_or_empty (content : Json.value) : Outcome string :=
  match content with
  | None | Some Json.JNull => Returned EmptyString
  | Some (Json.JStr s) => Returned (Js.trim s)
  | Some _ => Thrown (TypeError "data.choices?.[0]?.message?.content?.trim is not a function")
  end.

Definition read_completion (r : Response) : Outcome string :=
  match resp_json r with
  | None => Thrown (SyntaxError "Unexpected token in JSON")
  | Some data =>
      match first_choice_content data with
      | Thrown e => Thrown e
      | Returned content => trimmed_or_empty content
      end
  end.

Definition callOpenAI (cfg : Config) (systemPrompt userContent : string) : M string :=
  abortIfTimeUp cfg ;;;
  resp <- fetch_chat_completions systemPrompt userContent ;;
  if resp_status resp =? 429 then throw (new_Error QUOTA)
  else if negb (resp_ok resp) then throw (new_Error (upstream_message resp))
  else lift (read_completion resp).

(** *** Comment publisher *)

Definition COMMENT_HEADER : string :=
  "## 🔐 Secure Code Review (AI)" ++ Js.NL ++ COMMENT_TAG.

Definition COMMENT_FOOTER : string :=
  "---" ++ Js.NL ++ "_Models can make mistakes. Verify before merging._".

Definition comment_body (content : string) : string :=
  COMMENT_HEADER ++ Js.NL ++ Js.NL ++ content ++ Js.NL ++ Js.NL ++ COMMENT_FOOTER.

(** [c.body?.includes(COMMENT_TAG)] *)
Definition is_mine (c : PRComment) : bool :=
  match body c with
  | Some b => Js.includes b COMMENT_TAG
  | None => false
  end.

Definition upsertPRComment (cfg : Config) (prNumber : Z) (content : string) : M unit :=
  abortIfTimeUp cfg ;;;
  let new_body := comment_body content in
  cs <- issues_listComments prNumber 100 ;;
  match find is_mine cs with
  | Some mine => issues_updateComment (id mine) new_body
  | None => issues_createComment prNumber new_body
  end.

(** *** Main *)

Definition NO_CHANGES : string := "No eligible code changes.".
Definition NO_OUTPUT : string := "No output from model.".
Definition QUOTA_COMMENT : string :=
  "⚠️ Could not complete review: **API quota exceeded**. Add billing or use another provider.".
Definition failure_comment (err : Error) : string :=
  "⚠️ Could not complete review: `" ++ String_of_error err ++ "`".

(** The body of the [try] block. *)
Definition review (cfg : Config) : M unit :=
  prNumber <- getPRNumber cfg ;;
  r <- listChangedFiles cfg prNumber (MAX_FILES cfg) (MAX_LINES cfg) (LINE_TRIM_PER_FILE cfg) ;;
  let files := fst r in
  if Js.len files =? 0 then upsertPRComment cfg prNumber NO_CHANGES
  else
    systemPrompt <- loadPrompt ;;
    let userMessage := buildUserMessage files in
    analysis <- callOpenAI cfg systemPrompt userMessage ;;
    gitleaks <- loadGitLeaksFindings ;;
    extras <- lift (summarizeGitLeaks_default gitleaks) ;;
    upsertPRComment cfg prNumber
      (Js.join (Js.NL ++ Js.NL)
         (filter Js.truthy_string
            [if Js.truthy_string analysis then analysis else NO_OUTPUT; extras])).

(** The body of the [catch] block. *)
Definition on_failure (cfg : Config) (err : Error) : M unit :=
  let prNumber := pull_request_number cfg in
  match prNumber with
  | Some n =>
      if Js.includes (String_of_error err) QUOTA && truthy_number prNumber
      then upsertPRComment cfg n QUOTA_COMMENT
      else if truthy_number prNumber
      then upsertPRComment cfg n (failure_comment err)
      else ret tt
  | None => ret tt
  end ;;;
  setFailed (String_of_error err).

(** [run]: an outcome [Thrown] is the rejection of the promise [run()]
    returns, which nothing handles. *)
Definition run (cfg : Config) : M unit :=
  try_catch (review cfg) (on_failure cfg).

(* ------------------------------------------------------------------ *)
(** ** Vocabulary of the properties *)
(* ------------------------------------------------------------------ *)

(** [c] occurs in [s]. *)
Fixpoint has_char (c : ascii) (s : string) : bool :=
  match s with
  | EmptyString => false
  | String a s' => Ascii.eqb a c || has_char c s'
  end.

(** Number of lines with a given prefix. *)
Definition count_prefix (p : string) (ls : list string) : nat :=
  List.length (filter (fun l => Js.startsWith l p) ls).

(** Sum of the line counts of the collected patches. *)
Definition total_lines (files : list CollectedFile) : Z :=
  fold_right (fun c acc => line_count (patch c) + acc) 0 files.

(** [c] was built from the row [f] of the file listing. *)
Definition built_from (c : CollectedFile) (f : ChangedFile) : Prop :=
  filename c = cf_filename f /\ status c = cf_status f /\
  additions c = cf_additions f /\ deletions c = cf_deletions f.

(** The row [f] passes every filter of the collector. *)
Definition eligible (cfg : Config) (f : ChangedFile) : Prop :=
  cf_status f <> "removed" /\
  set_has (riskySet cfg) (file_ext (cf_filename f)) = true /\
  exists raw, cf_patch f = Some raw /\
              filter is_hunk_line (patch_lines raw) <> [].

(** Every collected file was built from an eligible row of the listing. *)
Definition sourced (cfg : Config) (all : list ChangedFile) (c : CollectedFile) : Prop :=
  exists f, In f all /\ built_from c f /\ eligible cfg f.

(** A page fetch issued before the deadline [d]. *)
Definition listing_event (d : Z) (te : Z * Event) : Prop :=
  fst te <= d /\ exists pn pp pg, snd te = ListFiles pn pp pg.

(** The two calls that write a comment. *)
Definition is_write (ev : Event) : bool :=
  match ev with
  | UpdateComment _ _ | CreateComment _ _ => true
  | _ => false
  end.


(** A stretch of the log in which every page fetch, completion request and
    comment listing was issued no later than [d], and every comment write
    directly follows such a listing. *)
Inductive disciplined (d : Z) : list (Z * Event) -> Prop :=
| disciplined_nil : disciplined d []
| disciplined_checked t ev l :
    t <= d -> is_write ev = false -> disciplined d l ->
    disciplined d ((t, ev) :: l)
| disciplined_write t n pp t' ev l :
    t <= d -> is_write ev = true -> disciplined d l ->
    disciplined d ((t, ListComments n pp) :: (t', ev) :: l).

(** Whatever the world, [m] adds to the log a stretch satisfying [P]. *)
Definition logs {A} (P : list (Z * Event) -> Prop) (m : M A) : Prop :=
  forall w, exists l, log (snd (m w)) = (log w ++ l)%list /\ P l.


(* ------------------------------------------------------------------ *)
(** ** Sample inputs *)
(* ------------------------------------------------------------------ *)

Module Sample.

(** The defaults of the action, a generous deadline, pull request 7. *)
Definition cfg : Config :=
  mkConfig 30 1200 300 default_RISKY_EXTS 100000 (Some 7).

Definition answer (text : string) : Response :=
  mkResponse 200 EmptyString
    (Some (Json.JObj
       [("choices",
         Json.JArr [Json.JObj [("message", Json.JObj [("content", Json.JStr text)])]])])).

(** A platform with the given files and comments, where every call takes a
    millisecond and none fails. *)
Definition world (files : list ChangedFile) (cs : list PRComment) : World :=
  mkWorld 0 0 (fun _ => 1) (fun _ => None) files cs
          (answer " Looks fine. ") (Returned "You are a security reviewer.")
          ReportMissing [] [].

(** Scenario A: five context lines, two added lines, one removed line. *)
Definition app_py : ChangedFile :=
  mkChangedFile "app.py" "modified" 2 1
    (Some (Js.join Js.NL
       ["@@ -1,6 +1,7 @@"; " import os"; " import sys"; "+import json";
        " def main():"; "-    pass"; " # end"; "+    run()"; " "])).

(** Four hunk lines in an allow-listed file. *)
Definition a_js : ChangedFile :=
  mkChangedFile "a.js" "modified" 3 0
    (Some (Js.join Js.NL ["@@ -1 +1,3 @@"; "+a"; "+b"; "+c"])).

(** Three findings: a full one, one with aliases missing, one that is not an
    object. *)
Definition findings : list Json.t :=
  [Json.JObj [("File", Json.JStr "a.env"); ("RuleID", Json.JStr "aws-key");
              ("StartLine", Json.JNum 12)];
   Json.JObj [("Path", Json.JStr "b.txt")];
   Json.JNum 5].

(** A pull request that already has a hundred comments, none of them the
    bot's. *)
Definition long_thread : list PRComment :=
  map (fun i => mkComment (Z.of_nat i) (Some "LGTM")) (seq 1 100).

(** A platform on which listing the comments takes two hundred seconds. *)
Definition slow_world : World :=
  mkWorld 0 0 (fun k => if Nat.eqb k 1 then 200000 else 1) (fun _ => None) [] []
          (answer "ok") (Returned "You are a security reviewer.") ReportMissing [] [].

(** A platform on which every call takes two hundred seconds. *)
Definition late_world : World :=
  mkWorld 0 0 (fun _ => 200000) (fun _ => None) [] []
          (answer "ok") (Returned "You are a security reviewer.") ReportMissing [] [].


(** The endpoint answers 500 and the token may not read the comments: the
    third call of the run fails. *)
Definition forbidden_world (files : list ChangedFile) : World :=
  mkWorld 0 0 (fun _ => 1)
          (fun k => if Nat.eqb k 2
                    then Some (mkError "HttpError" "Resource not accessible by integration")
                    else None)
          files [] (mkResponse 500 "boom" None)
          (Returned "You are a security reviewer.") ReportMissing [] [].

(** A new file of four hundred added lines under one hunk header. *)
Definition big (name : string) : ChangedFile :=
  mkChangedFile name "added" 400 0
    (Some (Js.join Js.NL ("@@ -0,0 +1,400 @@" :: repeat "+x" 400))).

(** A shell script whose name has no dot. *)
Definition sh_script : ChangedFile :=
  mkChangedFile "sh" "added" 1 0 (Some (Js.join Js.NL ["@@ -0,0 +1 @@"; "+echo hi"])).

(** The endpoint answers 200 and a body that is not JSON. *)
Definition garbled_world : World :=
  mkWorld 0 0 (fun _ => 1) (fun _ => None) [] []
          (mkResponse 200 "not json" None)
          (Returned "You are a security reviewer.") ReportMissing [] [].

(** A no-break space and a line separator, which [trim] removes. *)
Definition nbsp : string := Unicode.encode [0xA0%N].
Definition line_separator : string := Unicode.encode [0x2028%N].

(** A platform whose endpoint pads its answer with a no-break space and a
    line separator. *)
Definition padded_world : World :=
  mkWorld 0 0 (fun _ => 1) (fun _ => None) [] []
          (answer (nbsp ++ "Looks fine." ++ nbsp ++ line_separator))
          (Returned "You are a security reviewer.") ReportMissing [] [].

(** An allow-list written with a no-break space, and a name whose extension
    is written with the Kelvin sign. *)
Definition spaced_exts : string := "js," ++ nbsp ++ "KT".
Definition kelvin_name : string := "Main." ++ Unicode.encode [0x212A%N] ++ "T".

(** A deleted file. *)
Definition gone_js : ChangedFile :=
  mkChangedFile "gone.js" "removed" 0 9 (Some (Js.join Js.NL ["@@ -1,9 +0,0 @@"; "-x"])).

End Sample.

(* ------------------------------------------------------------------ *)
(** ** Vocabulary of the further properties *)
(* ------------------------------------------------------------------ *)

(** The tests of the inner loop that let a row through to the budget. *)
Definition passes_filters (cfg : Config) (f : ChangedFile) : bool :=
  negb (isBinaryOrLarge f || negb (hasRiskyExt cfg (cf_filename f)))
  && Js.truthy_string (Js.trim (reduce_patch (cf_patch f))).

(** The patch the inner loop pushes for a row that passed the filters, at the
    running total [totalLines]; [None] is the [break] at an exhausted
    budget. *)
Definition budgeted_patch (capLines perFileCap totalLines : Z) (raw : option string)
    : option string :=
  let p := trimPatchLines (reduce_patch raw) perFileCap in
  if totalLines + line_count p >? capLines then
    if Z.max 0 (capLines - totalLines) =? 0 then None
    else Some (trimPatchLines p (Z.max 0 (capLines - totalLines)))
  else Some p.

(** The first line of a patch, kept as header when it opens a hunk. *)
Definition header_of (p : string) : string :=
  match patch_lines p with
  | l0 :: _ => if Js.startsWith l0 "@@" then l0 else EmptyString
  | [] => EmptyString
  end.


(** The lines [buildUserMessage] adds for one file. *)
Definition file_block (f : CollectedFile) : string :=
  Js.NL ++ "=== FILE: " ++ filename f ++ " (" ++ status f ++ ", +"
        ++ Js.string_of_Z (additions f) ++ "/-" ++ Js.string_of_Z (deletions f)
        ++ ") ===" ++ Js.NL
        ++ FENCE ++ "diff" ++ Js.NL ++ patch f ++ Js.NL ++ FENCE ++ Js.NL.

(** The blocks of the files, one after the other. *)
Definition file_blocks (files : list CollectedFile) : string :=
  fold_right (fun f rest => file_block f ++ rest) EmptyString files.

(** *** The base of the request URL

    [callOpenAI] computes it from the setting [OPENAI_BASE_URL], which has no
    default and is [None] when the variable is not set. *)

Definition DEFAULT_BASE_URL : string := "https://api.openai.com/v1".

(** [s.replace(/\/+$/, "")]: the run of slashes that ends the string, if any,
    is removed. *)
Fixpoint strip_trailing_slashes (s : string) : string :=
  match s with
  | EmptyString => EmptyString
  | String a s' =>
      match strip_trailing_slashes s' with
      | EmptyString => if Ascii.eqb a "/" then EmptyString else String a EmptyString
      | t => String a t
      end
  end.

(** [(OPENAI_BASE_URL && OPENAI_BASE_URL.trim())
      ? OPENAI_BASE_URL.trim().replace(/\/+$/, "") : "https://api.openai.com/v1"] *)
Definition api_base (OPENAI_BASE_URL : option string) : string :=
  match OPENAI_BASE_URL with
  | Some u =>
      if Js.truthy_string u && Js.truthy_string (Js.trim u)
      then strip_trailing_slashes (Js.trim u)
      else DEFAULT_BASE_URL
  | None => DEFAULT_BASE_URL
  end.

(** [`${base}/chat/completions`] *)
Definition completions_url (OPENAI_BASE_URL : option string) : string :=
  api_base OPENAI_BASE_URL ++ "/chat/completions".

(** The last character of [s] is a slash. *)
Fixpoint ends_with_slash (s : string) : bool :=
  match s with
  | EmptyString => false
  | String a EmptyString => Ascii.eqb a "/"
  | String _ s' => ends_with_slash s'
  end.

(** [k] slashes. *)
Fixpoint slashes (k : nat) : string :=
  match k with
  | O => EmptyString
  | S k' => String "/" (slashes k')
  end.

(** The characters a hunk line starts with. *)
Definition hunk_head (a : ascii) : Prop := a = "@"%char \/ a = "+"%char \/ a = "-"%char.


(* ------------------------------------------------------------------ *)
(** ** Properties of the host-language primitives *)
(* ------------------------------------------------------------------ *)

Section StringFacts.

Lemma split_not_nil c s : Js.split c s <> [].
Proof.
  destruct s as [|a s]; simpl; [discriminate|].
  destruct (Ascii.eqb a c); [discriminate|].
  destruct (Js.split c s); discriminate.
Qed.

Lemma split_no_sep c s : Forall (fun x => has_char c x = false) (Js.split c s).
Proof.
  induction s as [|a s IH]; simpl.
  - constructor; [reflexivity | constructor].
  - destruct (Ascii.eqb a c) eqn:E.
    + constructor; [reflexivity | exact IH].
    + destruct (Js.split c s) as [|x xs].
      * constructor; [simpl; rewrite E; reflexivity | constructor].
      * inversion IH; subst. constructor; [simpl; rewrite E; assumption | assumption].
Qed.

Lemma split_no_sep_single c x :
  has_char c x = false -> Js.split c x = [x].
Proof.
  induction x as [|a x IH]; simpl; intros H; [reflexivity|].
  apply orb_false_iff in H. destruct H as [Ha Hx].
  rewrite Ha, (IH Hx). reflexivity.
Qed.

Lemma split_app_sep c x rest :
  has_char c x = false ->
  Js.split c (x ++ String c rest) = x :: Js.split c rest.
Proof.
  induction x as [|a x IH]; simpl; intros H.
  - rewrite Ascii.eqb_refl. reflexivity.
  - apply orb_false_iff in H. destruct H as [Ha Hx].
    rewrite Ha, (IH Hx). reflexivity.
Qed.

(** Splitting what [join] glued gives the pieces back. *)
Lemma split_join c xs :
  xs <> [] ->
  Forall (fun x => has_char c x = false) xs ->
  Js.split c (Js.join (String c EmptyString) xs) = xs.
Proof.
  induction xs as [|x xs IH]; intros Hne Hall; [congruence|].
  inversion Hall as [|? ? Hx Hxs]; subst.
  destruct xs as [|y ys].
  - simpl. apply split_no_sep_single; assumption.
  - change (Js.join (String c EmptyString) (x :: y :: ys))
      with (x ++ String c (Js.join (String c EmptyString) (y :: ys))).
    rewrite split_app_sep by assumption.
    rewrite IH; [reflexivity | discriminate | assumption].
Qed.

Lemma startsWith_app t b : Js.startsWith (t ++ b) t = true.
Proof.
  induction t as [|a t IH]; simpl; [reflexivity|].
  rewrite Ascii.eqb_refl, IH. reflexivity.
Qed.

Lemma includes_app_r a b t :
  Js.includes b t = true -> Js.includes (a ++ b) t = true.
Proof.
  induction a as [|x a IH]; simpl; intros H; [exact H|].
  rewrite (IH H). apply orb_true_r.
Qed.

Lemma includes_prefix t b : Js.includes (t ++ b) t = true.
Proof.
  destruct (t ++ b) eqn:E; simpl; rewrite <- E, startsWith_app; reflexivity.
Qed.

Lemma includes_mid a t b : Js.includes (a ++ t ++ b) t = true.
Proof. apply includes_app_r, includes_prefix. Qed.

(** *** White space *)

Ltac nlia := zify; Z.to_euclidean_division_equations; lia.

Ltac props :=
  repeat rewrite ?orb_true_iff, ?orb_false_iff, ?andb_true_iff, ?andb_false_iff,
    ?N.leb_le, ?N.leb_gt, ?N.eqb_eq, ?N.eqb_neq, ?N.ltb_lt, ?N.ltb_ge in *.

Lemma white_space_cases c :
  Unicode.white_space c = true <->
  ((0x9 <= c <= 0xD) \/ c = 0x20 \/ c = 0xA0 \/ c = 0x1680 \/ (0x2000 <= c <= 0x200A)
   \/ c = 0x2028 \/ c = 0x2029 \/ c = 0x202F \/ c = 0x205F \/ c = 0x3000 \/ c = 0xFEFF)%N.
Proof.
  unfold Unicode.white_space, Unicode.in_ranges. cbn [existsb fst snd].
  props. lia.
Qed.

(** [trimStart] passes over the encoding of a white-space code point. *)
Lemma trimStart_white_space c s :
  Unicode.white_space c = true ->
  Js.trimStart (Unicode.encode1 c ++ s) = Js.trimStart s.
Proof.
  intros H. apply white_space_cases in H.
  assert (E : In c [0x9; 0xA; 0xB; 0xC; 0xD; 0x20; 0xA0; 0x1680; 0x2000; 0x2001; 0x2002;
                    0x2003; 0x2004; 0x2005; 0x2006; 0x2007; 0x2008; 0x2009; 0x200A;
                    0x2028; 0x2029; 0x202F; 0x205F; 0x3000; 0xFEFF]%N).
  { cbn [In]. lia. }
  cbn [In] in E.
  repeat (destruct E as [<- | E]; [reflexivity|]).
  destruct E.
Qed.

Lemma code_of_N b : (b < 256)%N -> Unicode.code (Ascii.ascii_of_N b) = b.
Proof. intros H. unfold Unicode.code. apply Ascii.N_ascii_embedding. exact H. Qed.

Lemma is_space_spec a :
  Js.is_space a = ((9 <=? Unicode.code a) && (Unicode.code a <=? 13)
                   || (Unicode.code a =? 32))%N.
Proof. destruct a as [[] [] [] [] [] [] [] []]; reflexivity. Qed.

Lemma trimStart_stops a s :
  Js.is_space a = false ->
  match s with
  | EmptyString => True
  | String b s2 =>
      Js.is_space2 a b = false /\
      match s2 with
      | EmptyString => True
      | String c _ => Js.is_space3 a b c = false
      end
  end ->
  Js.trimStart (String a s) = String a s.
Proof.
  intros H1 H. cbn [Js.trimStart]. rewrite H1.
  destruct s as [|b [|c s]]; [reflexivity | |].
  - destruct H as [-> _]. reflexivity.
  - destruct H as [-> ->]. reflexivity.
Qed.

(** [trimStart] stops at the encoding of a code point that is not white
    space. *)
Lemma trimStart_other c s :
  (c < 0x110000)%N ->
  Unicode.white_space c = false ->
  Js.trimStart (Unicode.encode1 c ++ s) = Unicode.encode1 c ++ s.
Proof.
  intros Hc H.
  assert (Hn : ~ Unicode.white_space c = true) by congruence.
  rewrite white_space_cases in Hn. clear H.
  unfold Unicode.encode1.
  destruct (c <? 0x80)%N eqn:E1; [|destruct (c <? 0x800)%N eqn:E2;
    [|destruct (c <? 0x10000)%N eqn:E3; [|destruct (c <? 0x110000)%N eqn:E4]]];
    props; cbn [Unicode.bytes fold_right append]; [| | | |lia];
    apply trimStart_stops;
    try (rewrite is_space_spec, code_of_N by nlia; props; nlia);
    repeat match goal with
      | |- match ?s with EmptyString => _ | String _ _ => _ end => destruct s
      | |- True => exact I
      | |- _ /\ _ => split
      | |- Js.is_space2 _ _ = false =>
          unfold Js.is_space2; rewrite ?code_of_N by nlia; props; nlia
      | |- Js.is_space3 _ _ _ = false =>
          unfold Js.is_space3; cbv zeta; rewrite ?code_of_N by nlia; props; nlia
      end.
Qed.
(** What [trimEnd] removes is blank. *)
Lemma trimEnd_split s :
  exists t, s = Js.trimEnd s ++ t /\ Js.blank t = true.
Proof.
  induction s as [|a s IH]; [exists EmptyString; split; reflexivity|].
  cbn [Js.trimEnd]. destruct (Js.blank (String a s)) eqn:E.
  - exists (String a s). split; [reflexivity | exact E].
  - destruct IH as (t & Ht & Hb). exists t. split; [|exact Hb].
    cbn [append]. rewrite <- Ht. reflexivity.
Qed.

(** A text is blank exactly when its code points are white space. *)
Lemma blank_encode l :
  Forall (fun c => (c < 0x110000)%N) l ->
  Js.blank (Unicode.encode l) = forallb Unicode.white_space l.
Proof.
  induction 1 as [|c l Hc _ IH]; [reflexivity|].
  cbn [Unicode.encode forallb]. unfold Js.blank in *.
  destruct (Unicode.white_space c) eqn:E.
  - rewrite (trimStart_white_space c _ E). exact IH.
  - rewrite (trimStart_other c _ Hc E).
    unfold Unicode.encode1.
    destruct (c <? 0x80)%N; [reflexivity|].
    destruct (c <? 0x800)%N; [reflexivity|].
    destruct (c <? 0x10000)%N; [reflexivity|].
    destruct (c <? 0x110000)%N; reflexivity.
Qed.

Lemma trimStart_hunk_head a s :
  hunk_head a -> Js.trimStart (String a s) = String a s.
Proof.
  intros [-> | [-> | ->]]; destruct s as [|b [|c s]]; reflexivity.
Qed.

Lemma trim_nonspace a s :
  hunk_head a -> Js.truthy_string (Js.trim (String a s)) = true.
Proof.
  intros H. unfold Js.trim. rewrite (trimStart_hunk_head a s H).
  cbn [Js.trimEnd]. unfold Js.blank. rewrite (trimStart_hunk_head a s H).
  reflexivity.
Qed.

End StringFacts.

(* ------------------------------------------------------------------ *)
(** ** The diff collector *)
(* ------------------------------------------------------------------ *)

Section Collector.

Lemma In_firstn {A} (x : A) n l : In x (firstn n l) -> In x l.
Proof.
  revert l; induction n as [|n IH]; intros [|y l]; simpl; try tauto.
  intros [H|H]; [left; exact H | right; apply IH; exact H].
Qed.

Lemma In_skipn {A} (x : A) n l : In x (skipn n l) -> In x l.
Proof.
  revert l; induction n as [|n IH]; intros [|y l]; simpl; try tauto.
  intros H; right; apply IH; exact H.
Qed.

Lemma In_page_of {A} (x : A) all pp page : In x (page_of all pp page) -> In x all.
Proof. unfold page_of. intros H. eapply In_skipn, In_firstn, H. Qed.

(** A hunk line starts with one of three characters, none of them white
    space. *)
Lemma is_hunk_line_head l :
  is_hunk_line l = true ->
  exists a l', l = String a l' /\ hunk_head a.
Proof.
  destruct l as [|a l']; [discriminate|].
  intros H. exists a, l'. split; [reflexivity|].
  unfold is_hunk_line in H. simpl in H. unfold hunk_head.
  destruct (Ascii.eqb a "@") eqn:E1;
    [apply Ascii.eqb_eq in E1; subst; tauto|].
  destruct (Ascii.eqb a "+") eqn:E2;
    [apply Ascii.eqb_eq in E2; subst; tauto|].
  destruct (Ascii.eqb a "-") eqn:E3;
    [apply Ascii.eqb_eq in E3; subst; tauto|].
  discriminate.
Qed.

Lemma hunk_lines_no_newline raw :
  Forall (fun x => has_char Js.nl x = false) (filter is_hunk_line (patch_lines raw)).
Proof.
  apply Forall_forall. intros x Hx. apply filter_In in Hx. destruct Hx as [Hx _].
  pose proof (split_no_sep Js.nl raw) as H.
  rewrite Forall_forall in H. apply H. exact Hx.
Qed.

(** The lines of the reduced patch are the hunk lines of the raw one. *)
Lemma reduce_patch_lines raw :
  filter is_hunk_line (patch_lines raw) <> [] ->
  patch_lines (reduce_patch (Some raw)) = filter is_hunk_line (patch_lines raw).
Proof.
  intros Hne. unfold reduce_patch, patch_lines at 1.
  apply (split_join Js.nl); [exact Hne | apply hunk_lines_no_newline].
Qed.

Lemma reduce_patch_nothing raw :
  filter is_hunk_line (patch_lines raw) = [] ->
  reduce_patch (Some raw) = EmptyString.
Proof. intros H. unfold reduce_patch. rewrite H. reflexivity. Qed.

Lemma join_head sep a x xs :
  exists rest, Js.join sep (String a x :: xs) = String a rest.
Proof. destruct xs; simpl; eexists; reflexivity. Qed.

(** The test [!patch.trim()] is the emptiness of the filtered line list. *)
Lemma reduce_patch_blank raw :
  Js.truthy_string (Js.trim (reduce_patch (Some raw))) = true <->
  filter is_hunk_line (patch_lines raw) <> [].
Proof.
  split.
  - intros H E. rewrite (reduce_patch_nothing raw E) in H. discriminate.
  - intros Hne. unfold reduce_patch.
    destruct (filter is_hunk_line (patch_lines raw)) as [|x xs] eqn:E; [congruence|].
    assert (Hx : is_hunk_line x = true).
    { assert (Hin : In x (filter is_hunk_line (patch_lines raw)))
        by (rewrite E; left; reflexivity).
      apply filter_In in Hin. tauto. }
    destruct (is_hunk_line_head x Hx) as (a & x' & -> & Ha).
    destruct (join_head Js.NL a x' xs) as [rest ->].
    apply trim_nonspace. exact Ha.
Qed.

Variable cfg : Config.
Variables capFiles capLines perFileCap : Z.
Variable all : list ChangedFile.

Local Abbreviation sourced := (sourced cfg all).

Lemma passes_filters_eligible f :
  isBinaryOrLarge f || negb (hasRiskyExt cfg (cf_filename f)) = false ->
  negb (Js.truthy_string (Js.trim (reduce_patch (cf_patch f)))) = false ->
  eligible cfg f.
Proof.
  intros H1 H2. apply orb_false_iff in H1. destruct H1 as [Hb Hr].
  unfold isBinaryOrLarge in Hb. apply orb_false_iff in Hb. destruct Hb as [Hs Hp].
  apply negb_false_iff in Hr. apply negb_false_iff in H2.
  split; [|split].
  - intros E. rewrite E in Hs. discriminate.
  - exact Hr.
  - destruct (cf_patch f) as [raw|]; [|discriminate].
    exists raw. split; [reflexivity|]. apply reduce_patch_blank. exact H2.
Qed.

Lemma sourced_push f p files :
  In f all -> eligible cfg f -> Forall sourced files ->
  Forall sourced (files ++ [collected f p]).
Proof.
  intros Hin He Hall. apply Forall_app. split; [exact Hall|].
  constructor; [|constructor].
  exists f. repeat split; try assumption; apply He.
Qed.

Lemma collect_page_sourced data :
  forall files totalLines,
    (forall f, In f data -> In f all) ->
    Forall sourced files ->
    Forall sourced
      (fst (collect_page cfg capFiles capLines perFileCap data files totalLines)).
Proof.
  induction data as [|f rest IH]; intros files totalLines Hincl Hall; [exact Hall|].
  assert (Hf : In f all) by (apply Hincl; left; reflexivity).
  assert (Hrest : forall g, In g rest -> In g all)
    by (intros g Hg; apply Hincl; right; exact Hg).
  simpl.
  destruct (Js.len files >=? capFiles); [exact Hall|].
  destruct (isBinaryOrLarge f || negb (hasRiskyExt cfg (cf_filename f))) eqn:E1;
    [apply IH; assumption|].
  destruct (negb (Js.truthy_string (Js.trim (reduce_patch (cf_patch f))))) eqn:E2;
    [apply IH; assumption|].
  pose proof (passes_filters_eligible f E1 E2) as He.
  assert (Hpush : forall p, Forall sourced (files ++ [collected f p]))
    by (intros p; apply sourced_push; assumption).
  repeat match goal with
         | |- context [if ?b then _ else _] => destruct b
         end;
    simpl; auto.
Qed.

End Collector.

Section CollectorLoop.

Variable cfg : Config.
Variables prNumber capFiles capLines perFileCap : Z.

Local Abbreviation loop := (fun fuel =>
  listChangedFiles_loop fuel cfg prNumber capFiles capLines perFileCap).

(** One turn of the outer loop, with the two calls it makes spelled out. *)
Lemma loop_step fuel page files totalLines w :
  loop (S fuel) page files totalLines w =
  if now w >? deadline cfg then Some (Thrown TIME_BUDGET_EXCEEDED, w)
  else
    let w2 := issued (ListFiles prNumber per_page page) w in
    match fault w (calls w) with
    | Some e => Some (Thrown e, w2)
    | None =>
        let data := page_of (pr_files w) per_page page in
        if Js.len data =? 0 then Some (Returned (files, totalLines), w2)
        else
          let r := collect_page cfg capFiles capLines perFileCap data files totalLines in
          if (Js.len data <? per_page) || (Js.len (fst r) >=? capFiles)
             || (snd r >=? capLines)
          then Some (Returned r, w2)
          else loop fuel (page + 1) (fst r) (snd r) w2
    end.
Proof.
  simpl. unfold abortIfTimeUp, pulls_listFiles, issue.
  destruct (now w >? deadline cfg); [reflexivity|].
  destruct (fault w (calls w)); [reflexivity|].
  simpl.
  destruct (Js.len (page_of (pr_files w) per_page page) =? 0); [reflexivity|].
  destruct (collect_page cfg capFiles capLines perFileCap
              (page_of (pr_files w) per_page page) files totalLines) as [fs t].
  reflexivity.
Qed.

(** A full page leaves a hundred fewer rows for the pages after it. *)
Lemma full_page_consumes {A} (l : list A) page :
  1 <= page ->
  (Js.len (page_of l per_page page) <? per_page) = false ->
  (List.length (skipn (Z.to_nat (per_page * (page + 1 - 1))) l) + 100
   <= List.length (skipn (Z.to_nat (per_page * (page - 1))) l))%nat.
Proof.
  unfold page_of, Js.len, per_page. intros Hp H.
  apply Z.ltb_ge in H.
  rewrite length_firstn in H. rewrite !length_skipn in *.
  lia.
Qed.

(** The loop leaves before the page bound is reached. *)
Lemma loop_terminates fuel :
  forall page files totalLines w,
    1 <= page ->
    (List.length (skipn (Z.to_nat (per_page * (page - 1))) (pr_files w)) < fuel)%nat ->
    exists r, loop fuel page files totalLines w = Some r.
Proof.
  induction fuel as [|fuel IH]; intros page files totalLines w Hp Hlen; [lia|].
  rewrite loop_step.
  destruct (now w >? deadline cfg); [eexists; reflexivity|].
  cbv zeta.
  destruct (fault w (calls w)); [eexists; reflexivity|].
  destruct (Js.len (page_of (pr_files w) per_page page) =? 0); [eexists; reflexivity|].
  destruct (Js.len (page_of (pr_files w) per_page page) <? per_page) eqn:Efull;
    [eexists; reflexivity|].
  destruct ((false || (Js.len _ >=? capFiles)) || (_ >=? capLines));
    [eexists; reflexivity|].
  apply IH; [lia|].
  simpl pr_files.
  pose proof (full_page_consumes (pr_files w) page Hp Efull). lia.
Qed.

(** The world a loop leaves behind differs from the one it started in by the
    clock, the call counter and the log, which gained page fetches issued in
    time. *)
Lemma loop_frame fuel :
  forall page files totalLines w o w',
    loop fuel page files totalLines w = Some (o, w') ->
    pr_files w' = pr_files w /\ comments w' = comments w /\
    failed w' = failed w /\ fault w' = fault w /\ latency w' = latency w /\
    completion w' = completion w /\ prompt_file w' = prompt_file w /\
    report_file w' = report_file w /\
    exists l, log w' = (log w ++ l)%list /\ Forall (listing_event (deadline cfg)) l.
Proof.
  induction fuel as [|fuel IH]; intros page files totalLines w o w' H; [discriminate|].
  rewrite loop_step in H.
  assert (Hnil : exists l, log w = (log w ++ l)%list /\ Forall (listing_event (deadline cfg)) l)
    by (exists []; rewrite app_nil_r; split; [reflexivity | constructor]).
  destruct (now w >? deadline cfg) eqn:Et;
    [inversion H; subst; repeat split; try reflexivity; exact Hnil|].
  assert (Hone : exists l, log (issued (ListFiles prNumber per_page page) w) = (log w ++ l)%list
                           /\ Forall (listing_event (deadline cfg)) l).
  { exists [(now w, ListFiles prNumber per_page page)]. split; [reflexivity|].
    constructor; [|constructor]. split; [simpl; lia | simpl; eauto]. }
  cbv zeta in H.
  destruct (fault w (calls w));
    [inversion H; subst; repeat split; try reflexivity; exact Hone|].
  destruct (Js.len (page_of (pr_files w) per_page page) =? 0);
    [inversion H; subst; repeat split; try reflexivity; exact Hone|].
  match type of H with
  | (if ?b then _ else _) = _ => destruct b
  end; [inversion H; subst; repeat split; try reflexivity; exact Hone|].
  apply IH in H. simpl in H.
  destruct H as (H1 & H2 & H3 & H4 & H5 & H6 & H7 & H8 & l & Hl & Hall).
  repeat split; try assumption.
  exists ((now w, ListFiles prNumber per_page page) :: l). split.
  - rewrite Hl, <- app_assoc. reflexivity.
  - constructor; [split; [simpl; lia | simpl; eauto] | exact Hall].
Qed.

(** What the loop returns was built from eligible rows of the listing. *)
Lemma loop_sourced fuel :
  forall page files totalLines w fs t w',
    loop fuel page files totalLines w = Some (Returned (fs, t), w') ->
    Forall (sourced cfg (pr_files w)) files ->
    Forall (sourced cfg (pr_files w)) fs.
Proof.
  induction fuel as [|fuel IH]; intros page files totalLines w fs t w' H Hall;
    [discriminate|].
  rewrite loop_step in H.
  destruct (now w >? deadline cfg); [discriminate|].
  cbv zeta in H.
  destruct (fault w (calls w)); [discriminate|].
  destruct (Js.len (page_of (pr_files w) per_page page) =? 0);
    [inversion H; subst; exact Hall|].
  pose proof (collect_page_sourced cfg capFiles capLines perFileCap (pr_files w)
                (page_of (pr_files w) per_page page) files totalLines
                (fun f Hf => In_page_of f _ _ _ Hf) Hall) as Hstep.
  destruct (collect_page cfg capFiles capLines perFileCap
              (page_of (pr_files w) per_page page) files totalLines) as [fs1 t1].
  simpl in Hstep, H.
  match type of H with
  | (if ?b then _ else _) = _ => destruct b
  end; [inversion H; subst; exact Hstep|].
  apply (IH _ _ _ _ _ _ _ H). exact Hstep.
Qed.

(** [listChangedFiles] is the loop run to its end. *)
Lemma listChangedFiles_loop_result w :
  exists r,
    listChangedFiles_loop (page_bound w) cfg prNumber capFiles capLines perFileCap
      1 [] 0 w = Some r /\
    listChangedFiles cfg prNumber capFiles capLines perFileCap w = r.
Proof.
  destruct (loop_terminates (page_bound w) 1 [] 0 w) as [r Hr].
  - lia.
  - unfold page_bound. simpl. lia.
  - exists r. split; [exact Hr|]. unfold listChangedFiles.
    cbv beta in Hr. rewrite Hr. reflexivity.
Qed.

End CollectorLoop.

Section Extension.

Lemma split_two c s :
  has_char c s = true -> exists x0 x1 xs, Js.split c s = x0 :: x1 :: xs.
Proof.
  induction s as [|a s IH]; simpl; [discriminate|].
  destruct (Ascii.eqb a c) eqn:E; simpl; intros H.
  - destruct (Js.split c s) as [|y ys] eqn:Es; [exfalso; exact (split_not_nil c s Es)|].
    eexists _, _, _. reflexivity.
  - destruct (IH H) as (x0 & x1 & xs & ->). eexists _, _, _. reflexivity.
Qed.

Lemma pop_split_cons c a s :
  has_char c s = true -> Js.pop (Js.split c (String a s)) = Js.pop (Js.split c s).
Proof.
  intros H. destruct (split_two c s H) as (x0 & x1 & xs & E).
  simpl. rewrite E. destruct (Ascii.eqb a c); reflexivity.
Qed.

Lemma has_char_app c x y : has_char c (x ++ String c y) = true.
Proof.
  induction x as [|a x IH]; simpl.
  - rewrite Ascii.eqb_refl. reflexivity.
  - rewrite IH. apply orb_true_r.
Qed.

(** [split(c).pop()] is what follows the last separator. *)
Lemma pop_split_last c x e :
  has_char c e = false -> Js.pop (Js.split c (x ++ String c e)) = Some e.
Proof.
  intros He. induction x as [|a x IH].
  - simpl. rewrite Ascii.eqb_refl, (split_no_sep_single c e He). reflexivity.
  - change (String a x ++ String c e) with (String a (x ++ String c e)).
    rewrite pop_split_cons by apply has_char_app. exact IH.
Qed.

(** [split(c).pop()] is the text after the last separator, and the whole
    text when it has no separator. *)
Lemma pop_split_spec c s :
  exists e,
    Js.pop (Js.split c s) = Some e /\ has_char c e = false /\
    (s = e \/ exists base, s = base ++ String c e).
Proof.
  induction s as [|a s IH].
  - exists EmptyString. repeat split. left. reflexivity.
  - destruct (has_char c s) eqn:Hs.
    + destruct IH as (e & Hpop & He & Hshape). exists e.
      rewrite (pop_split_cons c a s Hs). repeat split; try assumption.
      right. destruct Hshape as [-> | (base & ->)]; [congruence|].
      exists (String a base). reflexivity.
    + destruct (Ascii.eqb a c) eqn:Ea.
      * apply Ascii.eqb_eq in Ea. subst a. exists s.
        pose proof (pop_split_last c EmptyString s Hs) as Hpop.
        change (EmptyString ++ String c s) with (String c s) in Hpop.
        rewrite Hpop. repeat split; try assumption.
        right. exists EmptyString. reflexivity.
      * exists (String a s).
        assert (H : has_char c (String a s) = false) by (simpl; rewrite Ea, Hs; reflexivity).
        rewrite (split_no_sep_single c _ H). repeat split; try assumption.
        left. reflexivity.
Qed.

Lemma pop_split_unique c s e :
  has_char c e = false ->
  (s = e \/ exists base, s = base ++ String c e) ->
  Js.pop (Js.split c s) = Some e.
Proof.
  intros He [-> | (base & ->)].
  - rewrite (split_no_sep_single c e He). reflexivity.
  - apply pop_split_last. exact He.
Qed.

(** The extension the collector tests: the lower-cased name ends with a dot
    and the extension, which has no dot, or is the extension itself. *)
Lemma file_ext_spec name ext :
  file_ext name = ext <->
  has_char "." ext = false /\
  (Js.toLowerCase name = ext \/
   exists base, Js.toLowerCase name = base ++ "." ++ ext).
Proof.
  unfold file_ext. split.
  - intros <-.
    destruct (pop_split_spec "." (Js.toLowerCase name)) as (e & -> & He & Hshape).
    split; [exact He | exact Hshape].
  - intros (He & Hshape).
    rewrite (pop_split_unique "." (Js.toLowerCase name) ext He Hshape). reflexivity.
Qed.

(** The allow-list test, read on the configured text. *)
Lemma allow_list_spec cfg name :
  set_has (riskySet cfg) (file_ext name) = true <->
  exists entry ext,
    In entry (Js.split "," (RISKY_EXTS cfg)) /\
    ext = Js.toLowerCase (Js.trim entry) /\
    has_char "." ext = false /\
    (Js.toLowerCase name = ext \/
     exists base, Js.toLowerCase name = base ++ "." ++ ext).
Proof.
  unfold set_has, riskySet. rewrite existsb_exists. split.
  - intros (x & Hin & Heq). apply in_map_iff in Hin.
    destruct Hin as (entry & <- & Hentry).
    apply String.eqb_eq in Heq.
    exists entry, (Js.toLowerCase (Js.trim entry)).
    split; [exact Hentry|]. split; [reflexivity|].
    apply file_ext_spec. exact Heq.
  - intros (entry & ext & Hentry & -> & Hspec).
    exists (Js.toLowerCase (Js.trim entry)). split.
    + apply in_map_iff. exists entry. split; [reflexivity | exact Hentry].
    + apply String.eqb_eq. apply file_ext_spec. exact Hspec.
Qed.

End Extension.

(** C2, the claim refuted: a file whose name has no dot has no text after a
    final dot, yet the collector takes the whole name for its extension and
    returns the file when the allow-list has that name. *)
Lemma file_without_dot_is_collected :
  has_char "." (cf_filename Sample.sh_script) = false /\
  exists c,
    fst (listChangedFiles Sample.cfg 7 30 1200 300 (Sample.world [Sample.sh_script] []))
    = Returned ([c], 2) /\
    built_from c Sample.sh_script.
Proof.
  split; [reflexivity|].
  eexists. split; [vm_compute; reflexivity|].
  repeat split.
Qed.

(** C2, amended. Whatever [listChangedFiles] returns, each returned file was
    built from a row of the listing whose status is not "removed", whose
    patch is present and keeps at least one hunk line, and whose lower-cased
    name ends with a dot followed by an entry of the allow-list (an entry of
    the configured comma-separated text, trimmed and lower-cased, without a
    dot) or is such an entry itself: a row failing one of these tests is
    never in the output. *)
Theorem ineligible_files_never_collected :
  forall cfg prNumber capFiles capLines perFileCap w files totalLines,
    fst (listChangedFiles cfg prNumber capFiles capLines perFileCap w)
    = Returned (files, totalLines) ->
    forall c, In c files ->
      exists f raw entry ext,
        In f (pr_files w) /\ built_from c f /\
        cf_status f <> "removed" /\
        cf_patch f = Some raw /\
        filter is_hunk_line (patch_lines raw) <> [] /\
        In entry (Js.split "," (RISKY_EXTS cfg)) /\
        ext = Js.toLowerCase (Js.trim entry) /\
        has_char "." ext = false /\
        (Js.toLowerCase (cf_filename f) = ext \/
         exists base, Js.toLowerCase (cf_filename f) = base ++ "." ++ ext).
Proof.
  intros cfg prNumber capFiles capLines perFileCap w files totalLines Hrun c Hc.
  destruct (listChangedFiles_loop_result cfg prNumber capFiles capLines perFileCap w)
    as (r & Hloop & Hr).
  rewrite Hr in Hrun. destruct r as [o w']. cbn [fst] in Hrun. subst o.
  pose proof (loop_sourced cfg prNumber capFiles capLines perFileCap _ _ _ _ _ _ _ _
                Hloop (Forall_nil _)) as Hall.
  rewrite Forall_forall in Hall.
  destruct (Hall c Hc) as (f & Hin & Hb & Hs & Hext & raw & Hp & Hne).
  apply allow_list_spec in Hext.
  destruct Hext as (entry & ext & Hentry & Hext & Hdot & Hshape).
  exists f, raw, entry, ext. repeat split; try assumption; apply Hb.
Qed.

Lemma ineligible_files_never_collected_witness :
  fst (listChangedFiles Sample.cfg 7 30 1200 300
         (Sample.world [Sample.gone_js; Sample.app_py] []))
  = Returned
      (fst (collect_page Sample.cfg 30 1200 300 [Sample.gone_js; Sample.app_py] [] 0), 4)
  /\
  (forall c,
      In c (fst (collect_page Sample.cfg 30 1200 300 [Sample.gone_js; Sample.app_py] [] 0)) ->
      exists f raw entry ext,
        In f [Sample.gone_js; Sample.app_py] /\ built_from c f /\
        cf_status f <> "removed" /\
        cf_patch f = Some raw /\
        filter is_hunk_line (patch_lines raw) <> [] /\
        In entry (Js.split "," (RISKY_EXTS Sample.cfg)) /\
        ext = Js.toLowerCase (Js.trim entry) /\
        has_char "." ext = false /\
        (Js.toLowerCase (cf_filename f) = ext \/
         exists base, Js.toLowerCase (cf_filename f) = base ++ "." ++ ext)).
Proof.
  assert (H : fst (listChangedFiles Sample.cfg 7 30 1200 300
                     (Sample.world [Sample.gone_js; Sample.app_py] []))
              = Returned
                  (fst (collect_page Sample.cfg 30 1200 300
                          [Sample.gone_js; Sample.app_py] [] 0), 4))
    by (vm_compute; reflexivity).
  split; [exact H|].
  exact (ineligible_files_never_collected Sample.cfg 7 30 1200 300
           (Sample.world [Sample.gone_js; Sample.app_py] []) _ 4 H).
Defined.

Section Trimming.

Lemma Forall_firstn {A} (P : A -> Prop) n l : Forall P l -> Forall P (firstn n l).
Proof.
  intros H. apply Forall_forall. intros x Hx.
  rewrite Forall_forall in H. apply H. eapply In_firstn, Hx.
Qed.

Lemma line_count_join ls :
  ls <> [] -> Forall (fun x => has_char Js.nl x = false) ls ->
  line_count (Js.join Js.NL ls) = Js.len ls.
Proof.
  intros Hne Hall. unfold line_count, patch_lines, Js.NL.
  rewrite (split_join Js.nl ls Hne Hall). reflexivity.
Qed.

(** When [trimPatchLines] cuts, it returns one line more than the limit: the
    header it puts in front is added to the [limit] lines it slices, the first
    of which is that header again. *)
Lemma trimPatchLines_one_over p limit :
  0 <= limit < line_count p ->
  line_count (trimPatchLines p limit) = limit + 1.
Proof.
  intros [H0 Hlt]. unfold trimPatchLines.
  fold (line_count p).
  destruct (line_count p <=? limit) eqn:E; [apply Z.leb_le in E; lia|].
  pose proof (split_no_sep Js.nl p) as Hall. fold (patch_lines p) in Hall.
  rewrite line_count_join.
  - unfold Js.slice0. destruct (limit <? 0) eqn:En; [apply Z.ltb_lt in En; lia|].
    unfold Js.len. simpl List.length. rewrite length_firstn.
    unfold line_count, Js.len in Hlt. lia.
  - discriminate.
  - constructor.
    + destruct (patch_lines p) as [|l0 ls]; [reflexivity|].
      inversion Hall; subst.
      destruct (Js.startsWith l0 "@@"); [assumption | reflexivity].
    + unfold Js.slice0. destruct (limit <? 0); apply Forall_firstn; exact Hall.
Qed.

Lemma trimPatchLines_within p limit :
  line_count p <= limit -> trimPatchLines p limit = p.
Proof.
  intros H. unfold trimPatchLines. fold (line_count p).
  apply Z.leb_le in H. rewrite H. reflexivity.
Qed.

End Trimming.

Section Totals.

Variable cfg : Config.
Variables prNumber capFiles capLines perFileCap : Z.

Lemma total_lines_push files c :
  total_lines (files ++ [c]) = total_lines files + line_count (patch c).
Proof.
  unfold total_lines. induction files as [|x files IH]; simpl fold_right; [lia|].
  rewrite IH. lia.
Qed.

(** [totalLines] is the sum of the line counts of the patches in [files]. *)
Lemma collect_page_total data :
  forall files totalLines,
    totalLines = total_lines files ->
    snd (collect_page cfg capFiles capLines perFileCap data files totalLines)
    = total_lines (fst (collect_page cfg capFiles capLines perFileCap data files totalLines)).
Proof.
  induction data as [|f rest IH]; intros files totalLines Hinv; [exact Hinv|].
  assert (Hpush : forall p,
             totalLines + line_count p = total_lines (files ++ [collected f p]))
    by (intros p; rewrite total_lines_push, Hinv; reflexivity).
  simpl.
  repeat match goal with
         | |- context [if ?b then _ else _] => destruct b
         end;
    simpl; auto.
Qed.

Lemma loop_total fuel :
  forall page files totalLines w fs t w',
    listChangedFiles_loop fuel cfg prNumber capFiles capLines perFileCap
      page files totalLines w = Some (Returned (fs, t), w') ->
    totalLines = total_lines files ->
    t = total_lines fs.
Proof.
  induction fuel as [|fuel IH]; intros page files totalLines w fs t w' H Hinv;
    [discriminate|].
  rewrite loop_step in H.
  destruct (now w >? deadline cfg); [discriminate|].
  cbv zeta in H.
  destruct (fault w (calls w)); [discriminate|].
  destruct (Js.len (page_of (pr_files w) per_page page) =? 0);
    [inversion H; subst; reflexivity|].
  pose proof (collect_page_total (page_of (pr_files w) per_page page)
                files totalLines Hinv) as Hstep.
  destruct (collect_page cfg capFiles capLines perFileCap
              (page_of (pr_files w) per_page page) files totalLines) as [fs1 t1].
  simpl in Hstep, H.
  match type of H with
  | (if ?b then _ else _) = _ => destruct b
  end; [inversion H; subst; reflexivity|].
  apply (IH _ _ _ _ _ _ _ H). exact Hstep.
Qed.

(** The part of the budget invariant that holds: the [totalLines] returned is
    the sum of the line counts of the returned patches. *)
Lemma listChangedFiles_total_is_sum w files totalLines w' :
  listChangedFiles cfg prNumber capFiles capLines perFileCap w
  = (Returned (files, totalLines), w') ->
  totalLines = total_lines files.
Proof.
  intros H.
  destruct (listChangedFiles_loop_result cfg prNumber capFiles capLines perFileCap w)
    as (r & Hloop & Hr).
  rewrite H in Hr. subst r.
  apply (loop_total _ _ _ _ _ _ _ _ Hloop). reflexivity.
Qed.

End Totals.

(** C1, at inputs where a cap is exceeded, under the default caps 30 / 1200 /
    300.  One new file of 401 hunk lines comes back with 301 lines, one more
    than the per-file cap; four such files come back with 1201 lines in all,
    one more than the aggregate cap, and [totalLines] is 1201. *)
Theorem listChangedFiles_exceeds_caps :
  (exists c,
      fst (listChangedFiles Sample.cfg 7 30 1200 300
             (Sample.world [Sample.big "a.js"] []))
      = Returned ([c], 301)
      /\ line_count (patch c) = 301 /\ 300 < line_count (patch c)) /\
  (exists files,
      fst (listChangedFiles Sample.cfg 7 30 1200 300
             (Sample.world [Sample.big "a.js"; Sample.big "b.js";
                            Sample.big "c.js"; Sample.big "d.js"] []))
      = Returned (files, 1201)
      /\ total_lines files = 1201 /\ 1200 < total_lines files).
Proof.
  split.
  - eexists. split; [vm_compute; reflexivity|]. split; vm_compute; reflexivity.
  - eexists. split; [vm_compute; reflexivity|]. split; vm_compute; reflexivity.
Qed.

(** The same on a small scale: four hunk lines under a per-file cap of 2 come
    back as three, the header twice. *)
Example trimPatchLines_small :
  fst (listChangedFiles Sample.cfg 7 30 1200 2 (Sample.world [Sample.a_js] []))
  = Returned
      ([collected Sample.a_js (Js.join Js.NL ["@@ -1 +1,3 @@"; "@@ -1 +1,3 @@"; "+a"])], 3).
Proof. vm_compute. reflexivity. Qed.

Section Reduction.

Lemma is_hunk_line_prefix l :
  is_hunk_line l = true <->
  exists r, l = "@@" ++ r \/ l = "+" ++ r \/ l = "-" ++ r.
Proof.
  unfold is_hunk_line. split.
  - intros H. apply orb_true_iff in H. destruct H as [H|H];
      [apply orb_true_iff in H; destruct H as [H|H]|].
    + destruct l as [|a [|b r]]; simpl in H; try discriminate;
        try (rewrite andb_false_r in H; discriminate).
      apply andb_true_iff in H. destruct H as [Ha H].
      apply andb_true_iff in H. destruct H as [Hb _].
      apply Ascii.eqb_eq in Ha, Hb. subst. exists r. left. reflexivity.
    + destruct l as [|a r]; simpl in H; [discriminate|].
      apply andb_true_iff in H. destruct H as [Ha _].
      apply Ascii.eqb_eq in Ha. subst. exists r. right. left. reflexivity.
    + destruct l as [|a r]; simpl in H; [discriminate|].
      apply andb_true_iff in H. destruct H as [Ha _].
      apply Ascii.eqb_eq in Ha. subst. exists r. right. right. reflexivity.
  - intros [r [-> | [-> | ->]]]; reflexivity.
Qed.

(** The three prefixes exclude one another, so the kept lines are counted by
    prefix. *)
Lemma prefixes_exclusive l :
  Nat.b2n (is_hunk_line l)
  = (Nat.b2n (Js.startsWith l "@@") + Nat.b2n (Js.startsWith l "+")
     + Nat.b2n (Js.startsWith l "-"))%nat.
Proof.
  unfold is_hunk_line.
  destruct l as [|a [|b r]]; [reflexivity| |]; simpl;
    destruct (Ascii.eqb a "@") eqn:E1; destruct (Ascii.eqb a "+") eqn:E2;
    destruct (Ascii.eqb a "-") eqn:E3;
    try (apply Ascii.eqb_eq in E1; subst a);
    try (apply Ascii.eqb_eq in E2; subst a);
    try (apply Ascii.eqb_eq in E3; subst a);
    try discriminate; simpl; try reflexivity;
    destruct (Ascii.eqb b "@"); reflexivity.
Qed.

Lemma hunk_count ls :
  List.length (filter is_hunk_line ls)
  = (count_prefix "@@" ls + count_prefix "+" ls + count_prefix "-" ls)%nat.
Proof.
  unfold count_prefix. induction ls as [|l ls IH]; [reflexivity|].
  cbn [filter].
  pose proof (prefixes_exclusive l) as Hx.
  destruct (is_hunk_line l), (Js.startsWith l "@@"), (Js.startsWith l "+"),
    (Js.startsWith l "-"); simpl in Hx; try discriminate;
    cbn [List.length]; rewrite IH; lia.
Qed.

Lemma filter_filter_sub {A} (f g : A -> bool) ls :
  (forall x, g x = true -> f x = true) ->
  filter g (filter f ls) = filter g ls.
Proof.
  intros H. induction ls as [|x ls IH]; [reflexivity|].
  simpl. destruct (f x) eqn:Ef; simpl.
  - rewrite IH. reflexivity.
  - destruct (g x) eqn:Eg; [rewrite (H x Eg) in Ef; discriminate | exact IH].
Qed.

Lemma count_prefix_kept p ls :
  (forall l, Js.startsWith l p = true -> is_hunk_line l = true) ->
  count_prefix p (filter is_hunk_line ls) = count_prefix p ls.
Proof.
  intros H. unfold count_prefix. rewrite filter_filter_sub; [reflexivity | exact H].
Qed.

Lemma filter_negb_none {A} (f : A -> bool) ls :
  filter (fun x => negb (f x)) (filter f ls) = [].
Proof.
  induction ls as [|x ls IH]; [reflexivity|].
  simpl. destruct (f x) eqn:E; simpl; [rewrite E; simpl|]; exact IH.
Qed.

End Reduction.

(** C7. The reduction keeps exactly the lines that start with "@@", "+" or
    "-", in their order, and drops every other line.  Scenario A: for a single
    modified file in the allow-list whose patch has two added lines, one
    removed line and [h] hunk headers among its lines (context lines in any
    number), under the caps 30 / 1200 / 300 the collector returns one file
    whose patch consists of those lines: two "+", one "-", the [h] headers and
    no context line. *)
Theorem reduction_keeps_hunk_lines :
  (forall l, is_hunk_line l = true <->
             exists r, l = "@@" ++ r \/ l = "+" ++ r \/ l = "-" ++ r) /\
  (forall raw,
      filter is_hunk_line (patch_lines raw) <> [] ->
      patch_lines (reduce_patch (Some raw)) = filter is_hunk_line (patch_lines raw)) /\
  (forall raw,
      filter is_hunk_line (patch_lines raw) = [] ->
      reduce_patch (Some raw) = EmptyString) /\
  (forall cfg prNumber w f raw h,
      pr_files w = [f] ->
      cf_status f = "modified" ->
      hasRiskyExt cfg (cf_filename f) = true ->
      cf_patch f = Some raw ->
      count_prefix "+" (patch_lines raw) = 2%nat ->
      count_prefix "-" (patch_lines raw) = 1%nat ->
      count_prefix "@@" (patch_lines raw) = h ->
      (h <= 297)%nat ->
      now w <= deadline cfg ->
      fault w (calls w) = None ->
      exists p,
        fst (listChangedFiles cfg prNumber 30 1200 300 w)
        = Returned ([collected f p], 3 + Z.of_nat h) /\
        patch_lines p = filter is_hunk_line (patch_lines raw) /\
        count_prefix "+" (patch_lines p) = 2%nat /\
        count_prefix "-" (patch_lines p) = 1%nat /\
        count_prefix "@@" (patch_lines p) = h /\
        filter (fun l => negb (is_hunk_line l)) (patch_lines p) = [] /\
        List.length (patch_lines p) = (3 + h)%nat).
Proof.
  split; [exact is_hunk_line_prefix|].
  split; [exact reduce_patch_lines|].
  split; [exact reduce_patch_nothing|].
  intros cfg prNumber w f raw h Hfiles Hstatus Hext Hpatch Hplus Hminus Hhead Hh Hnow Hfault.
  pose proof (hunk_count (patch_lines raw)) as Hcount.
  rewrite Hplus, Hminus, Hhead in Hcount.
  assert (Hne : filter is_hunk_line (patch_lines raw) <> []).
  { intros E. rewrite E in Hcount. simpl in Hcount. lia. }
  pose proof (reduce_patch_lines raw Hne) as Hlines.
  assert (Hlc : line_count (reduce_patch (Some raw)) = 3 + Z.of_nat h).
  { unfold line_count, Js.len. rewrite Hlines, Hcount. lia. }
  exists (reduce_patch (Some raw)).
  split.
  - destruct (listChangedFiles_loop_result cfg prNumber 30 1200 300 w) as (r & Hloop & Hr).
    rewrite Hr. clear Hr.
    unfold page_bound in Hloop. rewrite Hfiles in Hloop. simpl List.length in Hloop.
    rewrite loop_step in Hloop.
    assert (Et : (now w >? deadline cfg) = false) by (rewrite Z.gtb_ltb; apply Z.ltb_ge; lia).
    rewrite Et, Hfault, Hfiles in Hloop.
    change (page_of [f] per_page 1) with [f] in Hloop.
    cbv zeta in Hloop.
    change (Js.len [f] =? 0) with false in Hloop.
    change (Js.len [f] <? per_page) with true in Hloop.
    cbn [orb] in Hloop.
    inversion Hloop; subst r; clear Hloop.
    cbn [fst].
    simpl collect_page.
    change (Js.len [] >=? 30) with false. cbv iota.
    unfold isBinaryOrLarge. rewrite Hstatus, Hpatch, Hext.
    change (String.eqb "modified" "removed") with false. cbn [orb negb].
    pose proof (proj2 (reduce_patch_blank raw) Hne) as Htrim. rewrite Htrim. cbn [negb].
    rewrite (trimPatchLines_within (reduce_patch (Some raw)) 300) by lia.
    rewrite Hlc.
    destruct (3 + Z.of_nat h >? 1200) eqn:E1;
      [rewrite Z.gtb_ltb in E1; apply Z.ltb_lt in E1; lia|].
    destruct (3 + Z.of_nat h >=? 1200); reflexivity.
  - rewrite Hlines.
    split; [reflexivity|].
    split; [rewrite count_prefix_kept; [exact Hplus | intros l Hl; unfold is_hunk_line; rewrite Hl; apply orb_true_iff; left; apply orb_true_r]|].
    split; [rewrite count_prefix_kept; [exact Hminus | intros l Hl; unfold is_hunk_line; rewrite Hl; apply orb_true_r]|].
    split; [rewrite count_prefix_kept; [exact Hhead | intros l Hl; unfold is_hunk_line; rewrite Hl; reflexivity]|].
    split; [apply filter_negb_none|].
    rewrite Hcount. lia.
Qed.

Lemma reduction_keeps_hunk_lines_witness :
  (count_prefix "+" (patch_lines (reduce_patch (cf_patch Sample.app_py))) = 2%nat /\
   List.length (filter (fun l => negb (is_hunk_line l))
                  (patch_lines match cf_patch Sample.app_py with
                               | Some raw => raw | None => EmptyString end)) = 5%nat) /\
  exists p,
    fst (listChangedFiles Sample.cfg 7 30 1200 300 (Sample.world [Sample.app_py] []))
    = Returned ([collected Sample.app_py p], 3 + Z.of_nat 1) /\
    patch_lines p
    = filter is_hunk_line
        (patch_lines (Js.join Js.NL
           ["@@ -1,6 +1,7 @@"; " import os"; " import sys"; "+import json";
            " def main():"; "-    pass"; " # end"; "+    run()"; " "])) /\
    count_prefix "+" (patch_lines p) = 2%nat /\
    count_prefix "-" (patch_lines p) = 1%nat /\
    count_prefix "@@" (patch_lines p) = 1%nat /\
    filter (fun l => negb (is_hunk_line l)) (patch_lines p) = [] /\
    List.length (patch_lines p) = (3 + 1)%nat.
Proof.
  split; [split; vm_compute; reflexivity|].
  apply (proj2 (proj2 (proj2 reduction_keeps_hunk_lines))
           Sample.cfg 7 (Sample.world [Sample.app_py] []) Sample.app_py _ 1%nat).
  - reflexivity.
  - reflexivity.
  - vm_compute. reflexivity.
  - reflexivity.
  - vm_compute. reflexivity.
  - vm_compute. reflexivity.
  - vm_compute. reflexivity.
  - lia.
  - simpl. lia.
  - reflexivity.
Defined.

(* ------------------------------------------------------------------ *)
(** ** The findings summary *)
(* ------------------------------------------------------------------ *)

(** An exception of the callback is a TypeError. *)
Lemma render_finding_throws f e :
  render_finding f = Thrown e -> exists msg, e = TypeError msg.
Proof.
  unfold render_finding, NO_PRIMITIVE.
  destruct (finding_file f), (finding_line f), (finding_rule f);
    destruct f; intros H; inversion H; eexists; reflexivity.
Qed.


(** A finding that is [null], or one of whose fields has no text, makes the
    callback throw. *)
Lemma render_finding_bad f :
  f = Json.JNull \/ finding_file f = None \/ finding_line f = None
  \/ finding_rule f = None ->
  exists msg, render_finding f = Thrown (TypeError msg).
Proof.
  intros H. destruct (render_finding f) as [y|e] eqn:E.
  - exfalso. unfold render_finding in E.
    destruct H as [-> | H]; [discriminate|].
    destruct (finding_file f), (finding_line f), (finding_rule f);
      destruct f; try discriminate;
      destruct H as [H | [H | H]]; discriminate.
  - destruct (render_finding_throws f e E) as [msg ->]. exists msg. reflexivity.
Qed.


Lemma map_render_bad fs :
  (exists f, In f fs /\
             (f = Json.JNull \/ finding_file f = None \/ finding_line f = None
              \/ finding_rule f = None)) ->
  exists msg, map_throwing render_finding fs = Thrown (TypeError msg).
Proof.
  induction fs as [|f fs IH]; intros (g & Hin & Hbad); [destruct Hin|].
  cbn [map_throwing]. destruct (render_finding f) as [y|e] eqn:Ef.
  - destruct Hin as [-> | Hin].
    + destruct (render_finding_bad g Hbad) as [msg H]. congruence.
    + destruct IH as [msg ->]; [exists g; split; assumption|]. exists msg. reflexivity.
  - destruct (render_finding_throws f e Ef) as [msg ->]. exists msg. reflexivity.
Qed.





(* ------------------------------------------------------------------ *)
(** ** The review client *)
(* ------------------------------------------------------------------ *)

Section ReviewClient.

Variable cfg : Config.
Variables systemPrompt userContent : string.

Lemma in_time w : now w <= deadline cfg -> (now w >? deadline cfg) = false.
Proof. intros H. rewrite Z.gtb_ltb. apply Z.ltb_ge. lia. Qed.

Lemma past_deadline w : deadline cfg < now w -> (now w >? deadline cfg) = true.
Proof. intros H. rewrite Z.gtb_ltb. apply Z.ltb_lt. lia. Qed.

(** What [callOpenAI] does once the deadline test has passed and the request
    got an answer. *)
Lemma callOpenAI_answered w :
  now w <= deadline cfg ->
  fault w (calls w) = None ->
  callOpenAI cfg systemPrompt userContent w =
  (if resp_status (completion w) =? 429 then Thrown (new_Error QUOTA)
   else if negb (resp_ok (completion w))
        then Thrown (new_Error (upstream_message (completion w)))
        else read_completion (completion w),
   issued (ChatCompletion systemPrompt userContent) w).
Proof.
  intros Ht Hf.
  unfold callOpenAI, bind, abortIfTimeUp, fetch_chat_completions, issue.
  rewrite (in_time w Ht), Hf.
  change (completion (issued (ChatCompletion systemPrompt userContent) w))
    with (completion w).
  destruct (resp_status (completion w) =? 429); [reflexivity|].
  destruct (negb (resp_ok (completion w))); reflexivity.
Qed.

Lemma callOpenAI_too_late w :
  deadline cfg < now w ->
  callOpenAI cfg systemPrompt userContent w = (Thrown TIME_BUDGET_EXCEEDED, w).
Proof.
  intros Ht. unfold callOpenAI, bind, abortIfTimeUp.
  rewrite (past_deadline w Ht). reflexivity.
Qed.

Lemma read_completion_not_Error r msg : read_completion r <> Thrown (new_Error msg).
Proof.
  unfold read_completion.
  destruct (resp_json r) as [data|]; [|discriminate].
  destruct data; simpl; try discriminate;
    match goal with
    | |- trimmed_or_empty ?c <> _ => destruct c as [[]|]; discriminate
    end.
Qed.

End ReviewClient.

(** C5, the claim refuted: a success status with a body that is not JSON
    makes [callOpenAI] throw a SyntaxError instead of returning a text. *)
Lemma callOpenAI_throws_on_unparsable_success :
  resp_status (completion Sample.garbled_world) = 200 /\
  exists msg,
    fst (callOpenAI Sample.cfg "policy" "diff" Sample.garbled_world)
    = Thrown (SyntaxError msg).
Proof. split; [reflexivity|]. eexists. vm_compute. reflexivity. Qed.

(** C5, amended. Once the deadline test has passed and the endpoint has
    answered, [callOpenAI] throws the quota error exactly when the status is
    429 and throws the upstream error carrying the status and the body
    exactly when the status is another one outside 200-299.  On a status
    within 200-299 it throws a SyntaxError when the body is not JSON and a
    TypeError when the body is [null]; otherwise it reads
    [choices?.[0]?.message?.content] and returns the trimmed content when
    that is a string, the empty string when it is [null] or missing, and
    throws a TypeError when it is anything else.  The log gains the one
    request and nothing else. *)
Theorem callOpenAI_maps_status :
  forall cfg systemPrompt userContent w,
    now w <= deadline cfg ->
    fault w (calls w) = None ->
    let result := fst (callOpenAI cfg systemPrompt userContent w) in
    let r := completion w in
    (result = Thrown (new_Error "OPENAI_INSUFFICIENT_QUOTA") <-> resp_status r = 429) /\
    (result
     = Thrown (new_Error ("OpenAI HTTP " ++ Js.string_of_Z (resp_status r)
                          ++ ": " ++ resp_text r))
     <-> resp_status r <> 429 /\ (resp_status r < 200 \/ 299 < resp_status r)) /\
    (200 <= resp_status r <= 299 ->
     match resp_json r with
     | None => exists msg, result = Thrown (SyntaxError msg)
     | Some Json.JNull => exists msg, result = Thrown (TypeError msg)
     | Some data =>
         match
           opt_prop (opt_prop (opt_index0 (Json.prop data "choices")) "message") "content"
         with
         | None | Some Json.JNull => result = Returned EmptyString
         | Some (Json.JStr s) => result = Returned (Js.trim s)
         | Some _ => exists msg, result = Thrown (TypeError msg)
         end
     end) /\
    log (snd (callOpenAI cfg systemPrompt userContent w))
    = (log w ++ [(now w, ChatCompletion systemPrompt userContent)])%list.
Proof.
  intros cfg systemPrompt userContent w Ht Hf result r.
  unfold result.
  rewrite (callOpenAI_answered cfg systemPrompt userContent w Ht Hf).
  cbn [fst snd]. fold r.
  fold (upstream_message r).
  assert (Hok : resp_ok r = false <-> resp_status r < 200 \/ 299 < resp_status r).
  { unfold resp_ok. rewrite andb_false_iff, Z.leb_gt, Z.leb_gt. reflexivity. }
  split; [|split; [|split]].
  - split.
    + intros H. destruct (resp_status r =? 429) eqn:E; [apply Z.eqb_eq; exact E|].
      destruct (negb (resp_ok r)).
      * unfold upstream_message in H. simpl in H. discriminate.
      * exfalso. exact (read_completion_not_Error r _ H).
    + intros H. rewrite H. reflexivity.
  - split.
    + intros H. destruct (resp_status r =? 429) eqn:E.
      * unfold upstream_message, QUOTA in H. simpl in H. discriminate.
      * apply Z.eqb_neq in E. split; [exact E|].
        destruct (resp_ok r); [|apply Hok; reflexivity].
        exfalso. exact (read_completion_not_Error r _ H).
    + intros [Hs Hno]. apply Z.eqb_neq in Hs. apply Hok in Hno.
      rewrite Hs, Hno. reflexivity.
  - intros Hrange.
    assert (Hs : (resp_status r =? 429) = false) by (apply Z.eqb_neq; lia).
    assert (Hyes : resp_ok r = true).
    { destruct (resp_ok r); [reflexivity|].
      destruct (proj1 Hok eq_refl); lia. }
    rewrite Hs, Hyes. cbn [negb]. unfold read_completion.
    destruct (resp_json r) as [data|]; [|eexists; reflexivity].
    destruct data; cbn [first_choice_content]; try (eexists; reflexivity);
      match goal with
      | |- context [trimmed_or_empty ?c] =>
          destruct c as [[]|]; cbn [trimmed_or_empty];
            try reflexivity; eexists; reflexivity
      end.
  - reflexivity.
Qed.

Lemma callOpenAI_maps_status_witness :
  (now Sample.padded_world <= deadline Sample.cfg /\
   fault Sample.padded_world (calls Sample.padded_world) = None /\
   200 <= resp_status (completion Sample.padded_world) <= 299) /\
  fst (callOpenAI Sample.cfg "policy" "diff" Sample.padded_world) = Returned "Looks fine.".
Proof.
  assert (H0 : now Sample.padded_world <= deadline Sample.cfg) by (simpl; lia).
  assert (H1 : fault Sample.padded_world (calls Sample.padded_world) = None)
    by reflexivity.
  assert (H2 : 200 <= resp_status (completion Sample.padded_world) <= 299)
    by (simpl; lia).
  split; [repeat split; try assumption; apply H2|].
  pose proof (proj1 (proj2 (proj2
                (callOpenAI_maps_status Sample.cfg "policy" "diff" Sample.padded_world
                   H0 H1))) H2) as H.
  cbv zeta in H.
  change (fst (callOpenAI Sample.cfg "policy" "diff" Sample.padded_world)
          = Returned (Js.trim (Sample.nbsp ++ "Looks fine." ++ Sample.nbsp
                               ++ Sample.line_separator))) in H.
  rewrite H. vm_compute. reflexivity.
Defined.

(* ------------------------------------------------------------------ *)
(** ** The comment publisher *)
(* ------------------------------------------------------------------ *)

Section Publisher.

Variable cfg : Config.

(** [upsertPRComment], call by call. *)
Lemma upsert_eq prNumber content w :
  upsertPRComment cfg prNumber content w =
  if now w >? deadline cfg then (Thrown TIME_BUDGET_EXCEEDED, w)
  else
    let w1 := issued (ListComments prNumber 100) w in
    match fault w (calls w) with
    | Some e => (Thrown e, w1)
    | None =>
        match find is_mine (page_of (comments w) 100 1) with
        | Some mine =>
            let w2 := issued (UpdateComment (id mine) (comment_body content)) w1 in
            match fault w (S (calls w)) with
            | Some e => (Thrown e, w2)
            | None =>
                if existsb (has_id (id mine)) (comments w)
                then (Returned tt,
                      set_comments w2
                        (map (replace_body (id mine) (comment_body content)) (comments w)))
                else (Thrown (mkError "HttpError" "Not Found"), w2)
            end
        | None =>
            let w2 := issued (CreateComment prNumber (comment_body content)) w1 in
            match fault w (S (calls w)) with
            | Some e => (Thrown e, w2)
            | None =>
                (Returned tt,
                 set_comments w2
                   (comments w
                    ++ [mkComment (fresh_id (comments w)) (Some (comment_body content))])%list)
            end
        end
    end.
Proof.
  unfold upsertPRComment, bind, abortIfTimeUp, issues_listComments, issue.
  destruct (now w >? deadline cfg); [reflexivity|].
  destruct (fault w (calls w)); [reflexivity|].
  change (comments (issued (ListComments prNumber 100) w)) with (comments w).
  destruct (find is_mine (page_of (comments w) 100 1)) as [mine|].
  - unfold issues_updateComment, issue.
    change (fault (issued (ListComments prNumber 100) w)
              (calls (issued (ListComments prNumber 100) w)))
      with (fault w (S (calls w))).
    destruct (fault w (S (calls w))); [reflexivity|].
    change (comments (issued (UpdateComment (id mine) (comment_body content))
                        (issued (ListComments prNumber 100) w)))
      with (comments w).
    destruct (existsb (has_id (id mine)) (comments w)); reflexivity.
  - unfold issues_createComment, issue.
    change (fault (issued (ListComments prNumber 100) w)
              (calls (issued (ListComments prNumber 100) w)))
      with (fault w (S (calls w))).
    destruct (fault w (S (calls w))); reflexivity.
Qed.

Lemma is_mine_comment_body i content :
  is_mine (mkComment i (Some (comment_body content))) = true.
Proof. reflexivity. Qed.

Lemma fresh_id_above cs c : In c cs -> id c < fresh_id cs.
Proof.
  unfold fresh_id. induction cs as [|x cs IH]; [intros []|].
  cbn [fold_right]. intros [->|H]; [lia|]. specialize (IH H). lia.
Qed.

Lemma find_none_of_filter {A} (f : A -> bool) l :
  filter f l = [] -> forall x, In x l -> f x = false.
Proof.
  intros H x Hx. destruct (f x) eqn:E; [|reflexivity].
  assert (Hin : In x (filter f l)) by (apply filter_In; split; assumption).
  rewrite H in Hin. destruct Hin.
Qed.

Lemma find_none {A} (f : A -> bool) l :
  (forall x, In x l -> f x = false) -> find f l = None.
Proof.
  induction l as [|a l IH]; intros H; [reflexivity|].
  simpl. rewrite (H a (or_introl eq_refl)). apply IH.
  intros x Hx. apply H. right. exact Hx.
Qed.

Lemma find_app_skip {A} (f : A -> bool) l l' :
  (forall x, In x l -> f x = false) -> find f (l ++ l') = find f l'.
Proof.
  induction l as [|a l IH]; intros H; [reflexivity|].
  simpl. rewrite (H a (or_introl eq_refl)). apply IH.
  intros x Hx. apply H. right. exact Hx.
Qed.

Lemma map_fixed {A} (g : A -> A) l : (forall x, In x l -> g x = x) -> map g l = l.
Proof.
  induction l as [|a l IH]; intros H; [reflexivity|].
  simpl. rewrite (H a (or_introl eq_refl)), IH; [reflexivity|].
  intros x Hx. apply H. right. exact Hx.
Qed.

Lemma first_page_all {A} (l : list A) :
  (List.length l <= 100)%nat -> page_of l 100 1 = l.
Proof.
  intros H. unfold page_of.
  change (Z.to_nat (100 * (1 - 1))) with 0%nat.
  change (skipn 0 l) with l.
  apply firstn_all2. rewrite Z2Nat.inj_pos. exact H.
Qed.

End Publisher.

(** C3. Two runs do not always leave one marker-tagged comment: on a pull
    request that already has a hundred comments, the comment the first run
    creates is outside the one page of a hundred that the second run lists,
    so the second run creates another, and two comments carry the marker. *)
Lemma upsert_twice_duplicates_on_long_thread :
  fst (upsertPRComment Sample.cfg 7 "first" (Sample.world [] Sample.long_thread))
  = Returned tt /\
  fst (upsertPRComment Sample.cfg 7 "second"
         (snd (upsertPRComment Sample.cfg 7 "first" (Sample.world [] Sample.long_thread))))
  = Returned tt /\
  map id
    (filter is_mine
       (comments
          (snd (upsertPRComment Sample.cfg 7 "second"
                  (snd (upsertPRComment Sample.cfg 7 "first"
                          (Sample.world [] Sample.long_thread)))))))
  = [101; 102].
Proof. vm_compute. repeat split; reflexivity. Qed.

(** X18.  The body is the header, the marker, a blank line, the
    content and the footer.  A successful [upsertPRComment] either found, in
    the first page of a hundred comments, a first comment carrying the marker
    and replaced its body in place, the number of comments unchanged, or found
    none and appended one new comment.  On a pull request with fewer than a
    hundred comments, none of which carries the marker, two successful runs
    leave exactly one comment with the marker, and its body is the second
    run's. *)
Theorem upsert_keeps_one_comment :
  (forall content,
      comment_body content
      = "## 🔐 Secure Code Review (AI)" ++ Js.NL ++ COMMENT_TAG ++ Js.NL ++ Js.NL
        ++ content ++ Js.NL ++ Js.NL ++ "---" ++ Js.NL
        ++ "_Models can make mistakes. Verify before merging._") /\
  (forall cfg prNumber content w w',
      upsertPRComment cfg prNumber content w = (Returned tt, w') ->
      match find is_mine (page_of (comments w) 100 1) with
      | Some mine =>
          comments w' = map (replace_body (id mine) (comment_body content)) (comments w)
          /\ List.length (comments w') = List.length (comments w)
      | None =>
          comments w'
          = (comments w
             ++ [mkComment (fresh_id (comments w)) (Some (comment_body content))])%list
      end) /\
  (forall cfg prNumber content1 content2 w w1 w2,
      (List.length (comments w) < 100)%nat ->
      filter is_mine (comments w) = [] ->
      upsertPRComment cfg prNumber content1 w = (Returned tt, w1) ->
      upsertPRComment cfg prNumber content2 w1 = (Returned tt, w2) ->
      comments w2
      = (comments w
         ++ [mkComment (fresh_id (comments w)) (Some (comment_body content2))])%list
      /\ filter is_mine (comments w2)
         = [mkComment (fresh_id (comments w)) (Some (comment_body content2))]).
Proof.
  assert (Hstep : forall cfg prNumber content w w',
      upsertPRComment cfg prNumber content w = (Returned tt, w') ->
      match find is_mine (page_of (comments w) 100 1) with
      | Some mine =>
          comments w' = map (replace_body (id mine) (comment_body content)) (comments w)
          /\ List.length (comments w') = List.length (comments w)
      | None =>
          comments w'
          = (comments w
             ++ [mkComment (fresh_id (comments w)) (Some (comment_body content))])%list
      end).
  { intros cfg prNumber content w w' H. rewrite upsert_eq in H.
    destruct (now w >? deadline cfg); [discriminate|].
    cbv zeta in H.
    destruct (fault w (calls w)); [discriminate|].
    destruct (find is_mine (page_of (comments w) 100 1)) as [mine|].
    - destruct (fault w (S (calls w))); [discriminate|].
      destruct (existsb (has_id (id mine)) (comments w)); [|discriminate].
      inversion H; subst w'. simpl comments.
      split; [reflexivity | apply length_map].
    - destruct (fault w (S (calls w))); [discriminate|].
      inversion H; subst w'. reflexivity. }
  split; [|split; [exact Hstep|]].
  - intros content. reflexivity.
  - intros cfg prNumber content1 content2 w w1 w2 Hlen Hnone H1 H2.
    pose proof (find_none_of_filter is_mine (comments w) Hnone) as Hnot.
    apply Hstep in H1. apply Hstep in H2.
    rewrite first_page_all in H1 by lia.
    rewrite (find_none is_mine _ Hnot) in H1.
    rewrite H1 in H2.
    rewrite first_page_all in H2 by (rewrite length_app; simpl; lia).
    rewrite (find_app_skip is_mine _ _ Hnot) in H2.
    cbn [find] in H2. rewrite is_mine_comment_body in H2.
    cbn [id] in H2. destruct H2 as [H2 _].
    assert (Hfinal : comments w2
                     = (comments w
                        ++ [mkComment (fresh_id (comments w))
                              (Some (comment_body content2))])%list).
    { rewrite H2, map_app. f_equal.
      - apply map_fixed. intros c Hc. unfold replace_body, has_id.
        pose proof (fresh_id_above _ _ Hc) as Hlt.
        destruct (id c =? fresh_id (comments w)) eqn:E; [apply Z.eqb_eq in E; lia|].
        reflexivity.
      - cbn [map]. unfold replace_body, has_id. cbn [id].
        rewrite Z.eqb_refl. reflexivity. }
    split; [exact Hfinal|].
    rewrite Hfinal, filter_app, Hnone. cbn [filter app].
    rewrite is_mine_comment_body. reflexivity.
Qed.

Lemma upsert_keeps_one_comment_witness :
  ((List.length (comments (Sample.world [] [mkComment 4 (Some "LGTM")])) < 100)%nat /\
   filter is_mine (comments (Sample.world [] [mkComment 4 (Some "LGTM")])) = [] /\
   fst (upsertPRComment Sample.cfg 7 "first" (Sample.world [] [mkComment 4 (Some "LGTM")]))
   = Returned tt /\
   fst (upsertPRComment Sample.cfg 7 "second"
          (snd (upsertPRComment Sample.cfg 7 "first"
                  (Sample.world [] [mkComment 4 (Some "LGTM")]))))
   = Returned tt) /\
  filter is_mine
    (comments
       (snd (upsertPRComment Sample.cfg 7 "second"
               (snd (upsertPRComment Sample.cfg 7 "first"
                       (Sample.world [] [mkComment 4 (Some "LGTM")]))))))
  = [mkComment 5 (Some (comment_body "second"))].
Proof.
  split; [repeat split; try reflexivity; simpl; lia|].
  refine (proj2 (proj2 (proj2 upsert_keeps_one_comment)
            Sample.cfg 7 "first" "second"
            (Sample.world [] [mkComment 4 (Some "LGTM")])
            (snd (upsertPRComment Sample.cfg 7 "first"
                    (Sample.world [] [mkComment 4 (Some "LGTM")])))
            (snd (upsertPRComment Sample.cfg 7 "second"
                    (snd (upsertPRComment Sample.cfg 7 "first"
                            (Sample.world [] [mkComment 4 (Some "LGTM")])))))
            _ _ _ _)).
  - simpl. lia.
  - reflexivity.
  - vm_compute. reflexivity.
  - vm_compute. reflexivity.
Defined.

(* ------------------------------------------------------------------ *)
(** ** The log of external calls *)
(* ------------------------------------------------------------------ *)

Section Logs.

Variable P : list (Z * Event) -> Prop.
Hypothesis P_nil : P [].
Hypothesis P_app : forall l1 l2, P l1 -> P l2 -> P (l1 ++ l2).

Lemma logs_silent {A} (m : M A) :
  (forall w, log (snd (m w)) = log w) -> logs P m.
Proof.
  intros H w. exists []. rewrite app_nil_r. split; [apply H | exact P_nil].
Qed.

Lemma logs_ret {A} (a : A) : logs P (ret a).
Proof. apply logs_silent. reflexivity. Qed.

Lemma logs_throw {A} e : logs P (@throw A e).
Proof. apply logs_silent. reflexivity. Qed.

Lemma logs_lift {A} (o : Outcome A) : logs P (lift o).
Proof. apply logs_silent. reflexivity. Qed.

Lemma logs_setFailed msg : logs P (setFailed msg).
Proof. apply logs_silent. reflexivity. Qed.

Lemma logs_loadPrompt : logs P loadPrompt.
Proof. apply logs_silent. reflexivity. Qed.

Lemma logs_loadGitLeaksFindings : logs P loadGitLeaksFindings.
Proof. apply logs_silent. reflexivity. Qed.

Lemma logs_getPRNumber cfg : logs P (getPRNumber cfg).
Proof.
  unfold getPRNumber. destruct (pull_request_number cfg) as [n|];
    [destruct (n =? 0)|]; auto using logs_ret, logs_throw.
Qed.

Lemma logs_bind {A B} (m : M A) (k : A -> M B) :
  logs P m -> (forall a, logs P (k a)) -> logs P (bind m k).
Proof.
  intros Hm Hk w. unfold bind.
  destruct (Hm w) as (l1 & E1 & P1).
  destruct (m w) as [[a|e] w1]; simpl in E1.
  - destruct (Hk a w1) as (l2 & E2 & P2).
    exists (l1 ++ l2)%list. rewrite E2, E1, app_assoc. split; [reflexivity | auto].
  - exists l1. split; assumption.
Qed.

Lemma logs_try_catch {A} (m : M A) (h : Error -> M A) :
  logs P m -> (forall e, logs P (h e)) -> logs P (try_catch m h).
Proof.
  intros Hm Hh w. unfold try_catch.
  destruct (Hm w) as (l1 & E1 & P1).
  destruct (m w) as [[a|e] w1]; simpl in E1.
  - exists l1. split; assumption.
  - destruct (Hh e w1) as (l2 & E2 & P2).
    exists (l1 ++ l2)%list. rewrite E2, E1, app_assoc. split; [reflexivity | auto].
Qed.

End Logs.

Section Discipline.

Variable cfg : Config.
Local Abbreviation d := (deadline cfg).

Lemma disciplined_app l1 l2 :
  disciplined d l1 -> disciplined d l2 -> disciplined d (l1 ++ l2).
Proof.
  intros H1 H2. induction H1; simpl; [exact H2| |];
    constructor; assumption.
Qed.


(** In a disciplined stretch nothing but a comment write is issued late. *)
Lemma disciplined_in_time l :
  disciplined d l ->
  Forall (fun te => is_write (snd te) = false -> fst te <= d) l.
Proof.
  induction 1 as [|t ev l Ht Hev _ IH|t n pp t' ev l Ht Hev _ IH].
  - constructor.
  - constructor; [intros _; exact Ht | exact IH].
  - constructor; [intros _; exact Ht|].
    constructor; [simpl; rewrite Hev; discriminate | exact IH].
Qed.

(** The calls of one [upsertPRComment]: none, the listing alone, or the
    listing and one write. *)
Lemma upsert_log prNumber content w :
  exists l,
    log (snd (upsertPRComment cfg prNumber content w)) = (log w ++ l)%list /\
    (l = [] \/
     (now w <= d /\
      (l = [(now w, ListComments prNumber 100)] \/
       exists t' ev, is_write ev = true /\
                     l = [(now w, ListComments prNumber 100); (t', ev)]))).
Proof.
  rewrite upsert_eq.
  destruct (now w >? d) eqn:Et.
  { exists []. rewrite app_nil_r. split; [reflexivity | left; reflexivity]. }
  assert (Hin : now w <= d) by (rewrite Z.gtb_ltb in Et; apply Z.ltb_ge in Et; lia).
  cbv zeta.
  destruct (fault w (calls w)).
  { eexists. split; [reflexivity|]. right. split; [exact Hin | left; reflexivity]. }
  assert (Hw : forall ev, is_write ev = true ->
             exists l,
               log (issued ev (issued (ListComments prNumber 100) w)) = (log w ++ l)%list /\
               (l = [] \/
                (now w <= d /\
                 (l = [(now w, ListComments prNumber 100)] \/
                  exists t' ev, is_write ev = true /\
                                l = [(now w, ListComments prNumber 100); (t', ev)])))).
  { intros ev Hev.
    exists [(now w, ListComments prNumber 100); (now w + latency w (calls w), ev)].
    split.
    - unfold issued. cbn [log now]. rewrite <- app_assoc. reflexivity.
    - right. split; [exact Hin|]. right. eexists _, ev. split; [exact Hev | reflexivity]. }
  destruct (find is_mine (page_of (comments w) 100 1)) as [mine|].
  - destruct (fault w (S (calls w))); [apply Hw; reflexivity|].
    destruct (existsb (has_id (id mine)) (comments w)); apply Hw; reflexivity.
  - destruct (fault w (S (calls w))); apply Hw; reflexivity.
Qed.

Lemma upsert_disciplined prNumber content :
  logs (disciplined d) (upsertPRComment cfg prNumber content).
Proof.
  intros w. destruct (upsert_log prNumber content w) as (l & E & H).
  exists l. split; [exact E|].
  destruct H as [->|[Hin [->|(t' & ev & Hev & ->)]]].
  - constructor.
  - apply disciplined_checked; [exact Hin | reflexivity | constructor].
  - apply disciplined_write; [exact Hin | exact Hev | constructor].
Qed.


Lemma callOpenAI_disciplined systemPrompt userContent :
  logs (disciplined d) (callOpenAI cfg systemPrompt userContent).
Proof.
  intros w. destruct (Z_lt_le_dec d (now w)) as [Hlate|Hin].
  - rewrite (callOpenAI_too_late cfg systemPrompt userContent w Hlate).
    exists []. rewrite app_nil_r. split; [reflexivity | constructor].
  - exists [(now w, ChatCompletion systemPrompt userContent)]. split.
    + unfold callOpenAI, bind, abortIfTimeUp, fetch_chat_completions, issue.
      rewrite (in_time cfg w Hin).
      destruct (fault w (calls w)); [reflexivity|].
      destruct (resp_status _ =? 429); [reflexivity|].
      destruct (negb _); reflexivity.
    + apply disciplined_checked; [exact Hin | reflexivity | constructor].
Qed.

Lemma listChangedFiles_log prNumber capFiles capLines perFileCap w :
  exists l,
    log (snd (listChangedFiles cfg prNumber capFiles capLines perFileCap w))
    = (log w ++ l)%list /\
    Forall (listing_event d) l.
Proof.
  destruct (listChangedFiles_loop_result cfg prNumber capFiles capLines perFileCap w)
    as ([o w'] & Hloop & ->).
  apply loop_frame in Hloop. cbn [snd]. apply Hloop.
Qed.

Lemma listings_disciplined l : Forall (listing_event d) l -> disciplined d l.
Proof.
  induction 1 as [|[t ev] l [Ht (pn & pp & pg & Hev)] _ IH]; [constructor|].
  simpl in Ht, Hev. subst ev.
  apply disciplined_checked; [exact Ht | reflexivity | exact IH].
Qed.


Lemma listChangedFiles_disciplined prNumber capFiles capLines perFileCap :
  logs (disciplined d) (listChangedFiles cfg prNumber capFiles capLines perFileCap).
Proof.
  intros w.
  destruct (listChangedFiles_log prNumber capFiles capLines perFileCap w) as (l & E & H).
  exists l. split; [exact E | apply listings_disciplined; exact H].
Qed.

Lemma on_failure_logs (P : list (Z * Event) -> Prop) err :
  P [] -> (forall l1 l2, P l1 -> P l2 -> P (l1 ++ l2)%list) ->
  (forall n content, logs P (upsertPRComment cfg n content)) ->
  logs P (on_failure cfg err).
Proof.
  intros P_nil P_app Hup. unfold on_failure.
  apply logs_bind; try assumption; [|intros; apply logs_setFailed; assumption].
  destruct (pull_request_number cfg) as [n|]; [|apply logs_ret; assumption].
  destruct (Js.includes (String_of_error err) QUOTA && truthy_number (Some n));
    [apply Hup|].
  destruct (truthy_number (Some n)); [apply Hup | apply logs_ret; assumption].
Qed.

Lemma review_disciplined : logs (disciplined d) (review cfg).
Proof.
  pose proof (disciplined_nil d) as Hnil.
  pose proof disciplined_app as Happ.
  unfold review.
  apply logs_bind; auto using logs_getPRNumber. intros prNumber.
  apply logs_bind; auto using listChangedFiles_disciplined. intros r.
  destruct (Js.len (fst r) =? 0); [apply upsert_disciplined|].
  apply logs_bind; auto using logs_loadPrompt. intros systemPrompt.
  apply logs_bind; auto using callOpenAI_disciplined. intros analysis.
  apply logs_bind; auto using logs_loadGitLeaksFindings. intros gitleaks.
  apply logs_bind; auto using logs_lift. intros extras.
  apply upsert_disciplined.
Qed.

Lemma run_disciplined : logs (disciplined d) (run cfg).
Proof.
  apply logs_try_catch;
    [exact disciplined_app | exact review_disciplined |].
  intros e. apply on_failure_logs;
    [constructor | exact disciplined_app | exact upsert_disciplined].
Qed.

End Discipline.

(** C6, on a slow platform.  The run lists the files at time 0, passes the
    deadline test at time 1 and lists the comments, which takes two hundred
    seconds; the comment is then created at time 200001, past the deadline of
    100000, with no test in between. *)
Lemma comment_write_issued_after_deadline :
  log (snd (run Sample.cfg Sample.slow_world))
  = [(0, ListFiles 7 100 1);
     (1, ListComments 7 100);
     (200001, CreateComment 7 (comment_body NO_CHANGES))]
  /\ deadline Sample.cfg < 200001.
Proof. split; [vm_compute; reflexivity | reflexivity]. Qed.

(** C6, amended.  Whatever the world, the stretch of log a run adds is
    disciplined: every page fetch, completion request and comment listing is
    issued at a time not past the deadline, the deadline test sitting directly
    before it; a comment write is issued directly after such a listing,
    without a test of its own. *)
Theorem external_calls_checked_before_issue :
  forall cfg w,
  exists l,
    log (snd (run cfg w)) = (log w ++ l)%list /\
    disciplined (deadline cfg) l /\
    Forall (fun te => is_write (snd te) = false -> fst te <= deadline cfg) l.
Proof.
  intros cfg w. destruct (run_disciplined cfg w) as (l & E & H).
  exists l. split; [exact E|]. split; [exact H|].
  apply disciplined_in_time. exact H.
Qed.

Lemma external_calls_checked_before_issue_witness :
  exists l,
    log (snd (run Sample.cfg Sample.slow_world))
    = (log Sample.slow_world ++ l)%list /\
    disciplined (deadline Sample.cfg) l /\
    Forall (fun te => is_write (snd te) = false -> fst te <= deadline Sample.cfg) l.
Proof. exact (external_calls_checked_before_issue Sample.cfg Sample.slow_world). Defined.

(* ------------------------------------------------------------------ *)
(** ** The run *)
(* ------------------------------------------------------------------ *)

Section Run.

Variable cfg : Config.


Lemma getPRNumber_present n w :
  pull_request_number cfg = Some n -> n <> 0 ->
  getPRNumber cfg w = (Returned n, w).
Proof.
  intros H Hn. unfold getPRNumber. rewrite H.
  apply Z.eqb_neq in Hn. rewrite Hn. reflexivity.
Qed.


(** The [catch] block with a pull request at hand. *)
Lemma on_failure_present n err w :
  pull_request_number cfg = Some n -> n <> 0 ->
  on_failure cfg err w =
  bind (if Js.includes (String_of_error err) QUOTA
        then upsertPRComment cfg n QUOTA_COMMENT
        else upsertPRComment cfg n (failure_comment err))
       (fun _ => setFailed (String_of_error err)) w.
Proof.
  intros H Hn. unfold on_failure. rewrite H.
  unfold truthy_number. apply Z.eqb_neq in Hn. rewrite Hn. cbn [negb].
  rewrite andb_true_r. reflexivity.
Qed.

End Run.





(** C4, at inputs where the handler's own comment fails.  When the file
    listing outlasts the time budget, the publication of the result throws at
    the deadline test, the handler's publication throws at the same test, and
    the exception leaves [run]: no comment call is issued and
    [core.setFailed] is never reached.  Likewise when the endpoint answers 500
    and the comments cannot be listed: the error of the listing leaves [run]
    and failure is not signalled. *)
Theorem failure_not_signalled_when_comment_fails :
  (fst (run Sample.cfg Sample.late_world) = Thrown TIME_BUDGET_EXCEEDED /\
   failed (snd (run Sample.cfg Sample.late_world)) = [] /\
   log (snd (run Sample.cfg Sample.late_world)) = [(0, ListFiles 7 100 1)]) /\
  (fst (run Sample.cfg (Sample.forbidden_world [Sample.a_js]))
   = Thrown (mkError "HttpError" "Resource not accessible by integration") /\
   failed (snd (run Sample.cfg (Sample.forbidden_world [Sample.a_js]))) = [] /\
   map snd (log (snd (run Sample.cfg (Sample.forbidden_world [Sample.a_js]))))
   = [ListFiles 7 100 1;
      ChatCompletion "You are a security reviewer." (buildUserMessage
        (fst (collect_page Sample.cfg 30 1200 300 [Sample.a_js] [] 0)));
      ListComments 7 100]).
Proof. vm_compute. repeat split; reflexivity. Qed.

(** What does hold of the handler: once its comment is published, failure is
    signalled with the printed error. *)
Lemma failure_signalled_after_comment cfg n err w w1 w2 :
  pull_request_number cfg = Some n -> n <> 0 ->
  review cfg w = (Thrown err, w1) ->
  (if Js.includes (String_of_error err) QUOTA
   then upsertPRComment cfg n QUOTA_COMMENT
   else upsertPRComment cfg n (failure_comment err)) w1 = (Returned tt, w2) ->
  fst (run cfg w) = Returned tt /\
  failed (snd (run cfg w)) = (failed w2 ++ [String_of_error err])%list.
Proof.
  intros Hpr Hn Hrev Hup. unfold run, try_catch. rewrite Hrev.
  rewrite (on_failure_present cfg n err w1 Hpr Hn).
  unfold bind. rewrite Hup. split; reflexivity.
Qed.

(* ------------------------------------------------------------------ *)
(** ** Further properties of the diff collector *)
(* ------------------------------------------------------------------ *)

Section CollectorSteps.

Variable cfg : Config.
Variables capFiles capLines perFileCap : Z.

(** One turn of the inner loop. *)
Lemma collect_page_cons f rest files totalLines :
  collect_page cfg capFiles capLines perFileCap (f :: rest) files totalLines =
  if Js.len files >=? capFiles then (files, totalLines)
  else if negb (passes_filters cfg f)
  then collect_page cfg capFiles capLines perFileCap rest files totalLines
  else
    match budgeted_patch capLines perFileCap totalLines (cf_patch f) with
    | None => (files, totalLines)
    | Some p =>
        if (Js.len (files ++ [collected f p])%list >=? capFiles)
           || (totalLines + line_count p >=? capLines)
        then ((files ++ [collected f p])%list, totalLines + line_count p)
        else collect_page cfg capFiles capLines perFileCap rest
               (files ++ [collected f p])%list (totalLines + line_count p)
    end.
Proof.
  unfold passes_filters, budgeted_patch. cbn [collect_page].
  destruct (Js.len files >=? capFiles); [reflexivity|].
  destruct (isBinaryOrLarge f || negb (hasRiskyExt cfg (cf_filename f)));
    [reflexivity|].
  cbn [negb andb].
  destruct (Js.truthy_string (Js.trim (reduce_patch (cf_patch f))));
    [|reflexivity].
  cbn [negb].
  destruct (totalLines
            + line_count (trimPatchLines (reduce_patch (cf_patch f)) perFileCap)
            >? capLines); [|reflexivity].
  destruct (Z.max 0 (capLines - totalLines) =? 0); reflexivity.
Qed.

(** A property of [files] and [totalLines] that every push keeps is kept by
    the inner loop. *)
Lemma collect_page_invariant (I : list CollectedFile -> Z -> Prop) :
  (forall f p files totalLines,
      I files totalLines ->
      (Js.len files >=? capFiles) = false ->
      passes_filters cfg f = true ->
      budgeted_patch capLines perFileCap totalLines (cf_patch f) = Some p ->
      I (files ++ [collected f p])%list (totalLines + line_count p)) ->
  forall data files totalLines,
    I files totalLines ->
    I (fst (collect_page cfg capFiles capLines perFileCap data files totalLines))
      (snd (collect_page cfg capFiles capLines perFileCap data files totalLines)).
Proof.
  intros Hpush. induction data as [|f rest IH]; intros files totalLines HI; [exact HI|].
  rewrite collect_page_cons.
  destruct (Js.len files >=? capFiles) eqn:Ecap; [exact HI|].
  destruct (passes_filters cfg f) eqn:Epass; cbn [negb]; [|apply IH; exact HI].
  destruct (budgeted_patch capLines perFileCap totalLines (cf_patch f)) as [p|] eqn:Eb;
    [|exact HI].
  pose proof (Hpush f p files totalLines HI Ecap Epass Eb) as HI'.
  destruct ((Js.len (files ++ [collected f p])%list >=? capFiles)
            || (totalLines + line_count p >=? capLines)); [exact HI'|].
  apply IH. exact HI'.
Qed.

Variable prNumber : Z.

(** ... and by the outer loop. *)
Lemma loop_invariant (I : list CollectedFile -> Z -> Prop) :
  (forall f p files totalLines,
      I files totalLines ->
      (Js.len files >=? capFiles) = false ->
      passes_filters cfg f = true ->
      budgeted_patch capLines perFileCap totalLines (cf_patch f) = Some p ->
      I (files ++ [collected f p])%list (totalLines + line_count p)) ->
  forall fuel page files totalLines w fs t w',
    listChangedFiles_loop fuel cfg prNumber capFiles capLines perFileCap
      page files totalLines w = Some (Returned (fs, t), w') ->
    I files totalLines -> I fs t.
Proof.
  intros Hpush.
  induction fuel as [|fuel IH]; intros page files totalLines w fs t w' H HI;
    [discriminate|].
  rewrite loop_step in H.
  destruct (now w >? deadline cfg); [discriminate|].
  cbv zeta in H.
  destruct (fault w (calls w)); [discriminate|].
  destruct (Js.len (page_of (pr_files w) per_page page) =? 0);
    [inversion H; subst; exact HI|].
  pose proof (collect_page_invariant I Hpush (page_of (pr_files w) per_page page)
                files totalLines HI) as Hstep.
  destruct (collect_page cfg capFiles capLines perFileCap
              (page_of (pr_files w) per_page page) files totalLines) as [fs1 t1].
  cbn [fst snd] in Hstep, H.
  match type of H with
  | (if ?b then _ else _) = _ => destruct b
  end; [inversion H; subst; exact Hstep|].
  apply (IH _ _ _ _ _ _ _ H). exact Hstep.
Qed.

Lemma listChangedFiles_invariant (I : list CollectedFile -> Z -> Prop) :
  (forall f p files totalLines,
      I files totalLines ->
      (Js.len files >=? capFiles) = false ->
      passes_filters cfg f = true ->
      budgeted_patch capLines perFileCap totalLines (cf_patch f) = Some p ->
      I (files ++ [collected f p])%list (totalLines + line_count p)) ->
  I [] 0 ->
  forall w files totalLines w',
    listChangedFiles cfg prNumber capFiles capLines perFileCap w
    = (Returned (files, totalLines), w') ->
    I files totalLines.
Proof.
  intros Hpush H0 w files totalLines w' H.
  destruct (listChangedFiles_loop_result cfg prNumber capFiles capLines perFileCap w)
    as (r & Hloop & Hr).
  rewrite H in Hr. subst r.
  exact (loop_invariant I Hpush _ _ _ _ _ _ _ _ Hloop H0).
Qed.

End CollectorSteps.

Section Budget.

Lemma line_count_trim_le p limit :
  0 <= limit -> line_count (trimPatchLines p limit) <= limit + 1.
Proof.
  intros H0. destruct (Z_le_gt_dec (line_count p) limit) as [Hle|Hgt].
  - rewrite trimPatchLines_within by exact Hle. lia.
  - rewrite trimPatchLines_one_over by lia. lia.
Qed.

Lemma line_count_trim_shrinks p limit :
  0 <= limit -> line_count (trimPatchLines p limit) <= line_count p.
Proof.
  intros H0. destruct (Z_le_gt_dec (line_count p) limit) as [Hle|Hgt].
  - rewrite trimPatchLines_within by exact Hle. lia.
  - rewrite trimPatchLines_one_over by lia. lia.
Qed.

Lemma budgeted_patch_bounds capLines perFileCap totalLines raw p :
  0 <= perFileCap ->
  budgeted_patch capLines perFileCap totalLines raw = Some p ->
  line_count p <= perFileCap + 1 /\ totalLines + line_count p <= capLines + 1.
Proof.
  intros HP. unfold budgeted_patch.
  pose proof (line_count_trim_le (reduce_patch raw) perFileCap HP) as Hfile.
  destruct (totalLines + line_count (trimPatchLines (reduce_patch raw) perFileCap)
            >? capLines) eqn:Eover.
  - destruct (Z.max 0 (capLines - totalLines) =? 0) eqn:Erem; [discriminate|].
    apply Z.eqb_neq in Erem. intros H. inversion H; subst p; clear H.
    assert (Hrem : 0 <= Z.max 0 (capLines - totalLines)) by lia.
    pose proof (line_count_trim_le (trimPatchLines (reduce_patch raw) perFileCap)
                  _ Hrem) as H1.
    pose proof (line_count_trim_shrinks (trimPatchLines (reduce_patch raw) perFileCap)
                  _ Hrem) as H2.
    lia.
  - intros H. inversion H; subst p. rewrite Z.gtb_ltb in Eover.
    apply Z.ltb_ge in Eover. lia.
Qed.

End Budget.

(** X1. [listChangedFiles] never returns more files than the file cap: the
    number of returned files is at most [capFiles], and none is returned when
    the cap is zero or negative. *)
Theorem listChangedFiles_at_most_capFiles :
  forall cfg prNumber capFiles capLines perFileCap w files totalLines w',
    listChangedFiles cfg prNumber capFiles capLines perFileCap w
    = (Returned (files, totalLines), w') ->
    Js.len files <= Z.max 0 capFiles.
Proof.
  intros cfg prNumber capFiles capLines perFileCap w files totalLines w' H.
  apply (listChangedFiles_invariant cfg capFiles capLines perFileCap prNumber
           (fun fs _ => Js.len fs <= Z.max 0 capFiles)) with (w := w) (w' := w')
           (totalLines := totalLines).
  - intros f p fs t HI Hcap _ _.
    rewrite Z.geb_leb in Hcap. apply Z.leb_gt in Hcap.
    unfold Js.len in *. rewrite length_app. simpl List.length. lia.
  - unfold Js.len. simpl. lia.
  - exact H.
Qed.

Lemma listChangedFiles_at_most_capFiles_witness :
  Js.len (fst (collect_page Sample.cfg 2 1200 300
                 [Sample.big "a.js"; Sample.big "b.js"; Sample.big "c.js"] [] 0))
  <= Z.max 0 2.
Proof.
  apply (listChangedFiles_at_most_capFiles Sample.cfg 7 2 1200 300
           (Sample.world [Sample.big "a.js"; Sample.big "b.js"; Sample.big "c.js"] [])
           _ 602
           (issued (ListFiles 7 100 1)
              (Sample.world [Sample.big "a.js"; Sample.big "b.js"; Sample.big "c.js"] []))).
  vm_compute. reflexivity.
Defined.

(** X2. With non-negative caps, every patch [listChangedFiles] returns has at
    most [perFileCap + 1] lines, the returned [totalLines] is at most
    [capLines + 1], and [totalLines] is the sum of the line counts of the
    returned patches. *)
Theorem listChangedFiles_overshoot_at_most_one :
  forall cfg prNumber capFiles capLines perFileCap w files totalLines w',
    0 <= perFileCap ->
    0 <= capLines ->
    listChangedFiles cfg prNumber capFiles capLines perFileCap w
    = (Returned (files, totalLines), w') ->
    Forall (fun c => line_count (patch c) <= perFileCap + 1) files /\
    totalLines <= capLines + 1 /\
    totalLines = total_lines files.
Proof.
  intros cfg prNumber capFiles capLines perFileCap w files totalLines w' HP HL H.
  split; [|split].
  - apply (listChangedFiles_invariant cfg capFiles capLines perFileCap prNumber
             (fun fs _ => Forall (fun c => line_count (patch c) <= perFileCap + 1) fs))
      with (w := w) (w' := w') (totalLines := totalLines).
    + intros f p fs t HI _ _ Hb. apply Forall_app. split; [exact HI|].
      constructor; [|constructor]. cbn [patch collected].
      apply (budgeted_patch_bounds capLines perFileCap t (cf_patch f) p HP Hb).
    + constructor.
    + exact H.
  - apply (listChangedFiles_invariant cfg capFiles capLines perFileCap prNumber
             (fun _ t => t <= capLines + 1))
      with (w := w) (w' := w') (files := files).
    + intros f p fs t _ _ _ Hb.
      apply (budgeted_patch_bounds capLines perFileCap t (cf_patch f) p HP Hb).
    + lia.
    + exact H.
  - exact (listChangedFiles_total_is_sum cfg prNumber capFiles capLines perFileCap
             w files totalLines w' H).
Qed.

Lemma listChangedFiles_overshoot_at_most_one_witness :
  (0 <= 300 /\ 0 <= 1200) /\
  Forall (fun c => line_count (patch c) <= 300 + 1)
    (fst (collect_page Sample.cfg 30 1200 300 [Sample.big "a.js"] [] 0)) /\
  301 <= 1200 + 1 /\
  301 = total_lines (fst (collect_page Sample.cfg 30 1200 300 [Sample.big "a.js"] [] 0)).
Proof.
  assert (HP : 0 <= 300) by lia.
  assert (HL : 0 <= 1200) by lia.
  split; [split; assumption|].
  apply (listChangedFiles_overshoot_at_most_one Sample.cfg 7 30 1200 300
           (Sample.world [Sample.big "a.js"] []) _ 301
           (issued (ListFiles 7 100 1) (Sample.world [Sample.big "a.js"] []))
           HP HL).
  vm_compute. reflexivity.
Defined.

(** X3. When [trimPatchLines] cuts (the patch has more than [limit >= 0]
    lines) the lines of its result are the header, that is the first line of
    the patch when it starts with "@@" and the empty line otherwise, followed
    by the first [limit] lines of the patch in their order; a patch of at most
    [limit] lines is returned unchanged. *)
Theorem trimPatchLines_lines :
  forall p limit,
    (line_count p <= limit -> trimPatchLines p limit = p) /\
    (0 <= limit < line_count p ->
     patch_lines (trimPatchLines p limit)
     = header_of p :: firstn (Z.to_nat limit) (patch_lines p)).
Proof.
  intros p limit. split; [apply trimPatchLines_within|].
  intros [H0 Hlt]. unfold trimPatchLines. fold (line_count p).
  destruct (line_count p <=? limit) eqn:E; [apply Z.leb_le in E; lia|].
  pose proof (split_no_sep Js.nl p) as Hall. fold (patch_lines p) in Hall.
  unfold Js.slice0. destruct (limit <? 0) eqn:En; [apply Z.ltb_lt in En; lia|].
  assert (Hh : (if Js.startsWith
                     match patch_lines p with l0 :: _ => l0 | [] => EmptyString end "@@"
                then match patch_lines p with l0 :: _ => l0 | [] => EmptyString end
                else EmptyString) = header_of p).
  { unfold header_of. destruct (patch_lines p); reflexivity. }
  rewrite Hh. unfold patch_lines at 1, Js.NL.
  apply (split_join Js.nl); [discriminate|].
  constructor.
  - unfold header_of. destruct (patch_lines p) as [|l0 ls]; [reflexivity|].
    inversion Hall; subst. destruct (Js.startsWith l0 "@@"); [assumption | reflexivity].
  - apply Forall_firstn. exact Hall.
Qed.

Lemma trimPatchLines_lines_witness :
  (0 <= 2 < line_count (Js.join Js.NL ["@@ -1 +1,3 @@"; "+a"; "+b"; "+c"])) /\
  patch_lines (trimPatchLines (Js.join Js.NL ["@@ -1 +1,3 @@"; "+a"; "+b"; "+c"]) 2)
  = header_of (Js.join Js.NL ["@@ -1 +1,3 @@"; "+a"; "+b"; "+c"])
    :: firstn (Z.to_nat 2) (patch_lines (Js.join Js.NL ["@@ -1 +1,3 @@"; "+a"; "+b"; "+c"])).
Proof.
  assert (H : 0 <= 2 < line_count (Js.join Js.NL ["@@ -1 +1,3 @@"; "+a"; "+b"; "+c"]))
    by (vm_compute; split; [discriminate | reflexivity]).
  split; [exact H|].
  exact (proj2 (trimPatchLines_lines _ 2) H).
Defined.

Section ListingOrder.

Variable cfg : Config.
Variables capFiles capLines perFileCap : Z.

Local Abbreviation pf := (passes_filters cfg).

Lemma filter_snoc_out {A} (g : A -> bool) pre x :
  g x = false -> filter g (pre ++ [x]) = filter g pre.
Proof. intros H. rewrite filter_app. simpl. rewrite H. apply app_nil_r. Qed.

Lemma filter_snoc_in {A} (g : A -> bool) pre x :
  g x = true -> filter g (pre ++ [x]) = (filter g pre ++ [x])%list.
Proof. intros H. rewrite filter_app. simpl. rewrite H. reflexivity. Qed.

Lemma Forall2_prefix_of_app {A B} (R : A -> B -> Prop) xs ys zs :
  Forall2 R xs (firstn (List.length xs) ys) ->
  Forall2 R xs (firstn (List.length xs) (ys ++ zs)).
Proof.
  intros H. pose proof (Forall2_length H) as Hlen.
  rewrite length_firstn in Hlen.
  rewrite firstn_app.
  replace (List.length xs - List.length ys)%nat with 0%nat by lia.
  simpl. rewrite app_nil_r. exact H.
Qed.

Lemma Forall2_whole_prefix {A B} (R : A -> B -> Prop) xs ys :
  Forall2 R xs ys -> Forall2 R xs (firstn (List.length xs) ys).
Proof.
  intros H. rewrite (Forall2_length H), firstn_all. exact H.
Qed.

(** The inner loop either went through the whole page, having pushed every
    row that passes the filters, or stopped at a cap with a prefix of them. *)
Lemma collect_page_prefix data :
  forall files totalLines pre,
    Forall2 built_from files (filter pf pre) ->
    let r := collect_page cfg capFiles capLines perFileCap data files totalLines in
    Forall2 built_from (fst r) (filter pf (pre ++ data)) \/
    (((Js.len (fst r) >=? capFiles) || (snd r >=? capLines)) = true /\
     Forall2 built_from (fst r)
       (firstn (List.length (fst r)) (filter pf (pre ++ data)))).
Proof.
  induction data as [|f rest IH]; intros files totalLines pre Hinv; cbv zeta.
  { left. rewrite app_nil_r. exact Hinv. }
  assert (Hstop : Forall2 built_from files
                    (firstn (List.length files) (filter pf (pre ++ f :: rest)))).
  { rewrite filter_app. apply Forall2_prefix_of_app, Forall2_whole_prefix, Hinv. }
  rewrite collect_page_cons.
  destruct (Js.len files >=? capFiles) eqn:Ecap.
  { right. cbn [fst snd]. rewrite Ecap. split; [reflexivity | exact Hstop]. }
  replace (pre ++ f :: rest)%list with ((pre ++ [f]) ++ rest)%list
    by (rewrite <- app_assoc; reflexivity).
  destruct (pf f) eqn:Epass; cbn [negb].
  2:{ apply IH. rewrite filter_snoc_out by exact Epass. exact Hinv. }
  destruct (budgeted_patch capLines perFileCap totalLines (cf_patch f)) as [p|] eqn:Eb.
  2:{ right. cbn [fst snd].
      assert (Hfull : (totalLines >=? capLines) = true).
      { unfold budgeted_patch in Eb.
        destruct (totalLines + line_count _ >? capLines); [|discriminate].
        destruct (Z.max 0 (capLines - totalLines) =? 0) eqn:Erem; [|discriminate].
        apply Z.eqb_eq in Erem. rewrite Z.geb_leb. apply Z.leb_le. lia. }
      rewrite Hfull, orb_true_r. split; [reflexivity|].
      rewrite <- app_assoc. exact Hstop. }
  assert (Hinv' : Forall2 built_from (files ++ [collected f p]) (filter pf (pre ++ [f]))).
  { rewrite filter_snoc_in by exact Epass. apply Forall2_app; [exact Hinv|].
    constructor; [|constructor]. repeat split. }
  destruct ((Js.len (files ++ [collected f p]) >=? capFiles)
            || (totalLines + line_count p >=? capLines)) eqn:Estop.
  - right. cbn [fst snd]. split; [exact Estop|].
    rewrite filter_app. apply Forall2_prefix_of_app, Forall2_whole_prefix, Hinv'.
  - apply IH. exact Hinv'.
Qed.

Lemma firstn_plus {A} (a b : nat) (l : list A) :
  firstn (a + b) l = (firstn a l ++ firstn b (skipn a l))%list.
Proof.
  revert l. induction a as [|a IH]; intros l; [reflexivity|].
  destruct l as [|x l]; [simpl; rewrite firstn_nil; reflexivity|].
  simpl. rewrite IH. reflexivity.
Qed.

Lemma prefix_of_prefix {A B} (R : A -> B -> Prop) (g : B -> bool) xs n all :
  Forall2 R xs (firstn (List.length xs) (filter g (firstn n all))) ->
  Forall2 R xs (firstn (List.length xs) (filter g all)).
Proof.
  intros H. rewrite <- (firstn_skipn n all) at 1. rewrite filter_app.
  apply Forall2_prefix_of_app. exact H.
Qed.

Variable prNumber : Z.

Lemma loop_prefix fuel :
  forall page files totalLines w fs t w',
    1 <= page ->
    listChangedFiles_loop fuel cfg prNumber capFiles capLines perFileCap
      page files totalLines w = Some (Returned (fs, t), w') ->
    Forall2 built_from files
      (filter pf (firstn (Z.to_nat (per_page * (page - 1))) (pr_files w))) ->
    Forall2 built_from fs (firstn (List.length fs) (filter pf (pr_files w))) /\
    (List.length fs = List.length (filter pf (pr_files w)) \/
     ((Js.len fs >=? capFiles) || (t >=? capLines)) = true).
Proof.
  induction fuel as [|fuel IH]; intros page files totalLines w fs t w' Hp H Hinv;
    [discriminate|].
  rewrite loop_step in H.
  destruct (now w >? deadline cfg); [discriminate|].
  cbv zeta in H.
  destruct (fault w (calls w)); [discriminate|].
  set (off := Z.to_nat (per_page * (page - 1))) in *.
  assert (Hdata : page_of (pr_files w) per_page page
                  = firstn 100 (skipn off (pr_files w))) by reflexivity.
  assert (Hnext : (firstn off (pr_files w) ++ page_of (pr_files w) per_page page)%list
                  = firstn (off + 100) (pr_files w))
    by (rewrite firstn_plus, Hdata; reflexivity).
  destruct (Js.len (page_of (pr_files w) per_page page) =? 0) eqn:Eempty.
  { inversion H; subst fs t w'; clear H.
    apply Z.eqb_eq in Eempty. unfold Js.len in Eempty.
    rewrite Hdata, length_firstn, length_skipn in Eempty.
    assert (Hall : firstn off (pr_files w) = pr_files w) by (apply firstn_all2; lia).
    rewrite Hall in Hinv. split.
    - apply Forall2_whole_prefix. exact Hinv.
    - left. exact (Forall2_length Hinv). }
  pose proof (collect_page_prefix (page_of (pr_files w) per_page page)
                files totalLines (firstn off (pr_files w)) Hinv) as Hstep.
  cbv zeta in Hstep. rewrite Hnext in Hstep.
  destruct (collect_page cfg capFiles capLines perFileCap
              (page_of (pr_files w) per_page page) files totalLines) as [fs1 t1].
  cbn [fst snd] in Hstep, H.
  destruct (Js.len (page_of (pr_files w) per_page page) <? per_page) eqn:Eshort.
  { cbn [orb] in H. inversion H; subst fs t w'; clear H.
    apply Z.ltb_lt in Eshort. rewrite Hdata in Eshort.
    unfold Js.len, per_page in Eshort.
    rewrite length_firstn, length_skipn in Eshort.
    assert (Hall : firstn (off + 100) (pr_files w) = pr_files w)
      by (apply firstn_all2; lia).
    rewrite Hall in Hstep.
    destruct Hstep as [Hfull|[Hcap Hpre]].
    - split; [apply Forall2_whole_prefix; exact Hfull|].
      left. exact (Forall2_length Hfull).
    - split; [exact Hpre | right; exact Hcap]. }
  cbn [orb] in H.
  destruct ((Js.len fs1 >=? capFiles) || (t1 >=? capLines)) eqn:Ecap.
  { inversion H; subst fs t w'; clear H. split; [|right; exact Ecap].
    destruct Hstep as [Hfull|[_ Hpre]].
    - apply (prefix_of_prefix _ _ _ (off + 100)), Forall2_whole_prefix, Hfull.
    - apply (prefix_of_prefix _ _ _ (off + 100)), Hpre. }
  destruct Hstep as [Hfull|[Hcap _]]; [|discriminate].
  assert (Hp' : 1 <= page + 1) by lia.
  pose proof (IH _ _ _ _ _ _ _ Hp' H) as HIH.
  cbn [pr_files issued] in HIH. apply HIH.
  replace (Z.to_nat (per_page * (page + 1 - 1))) with (off + 100)%nat
    by (unfold off, per_page; lia).
  exact Hfull.
Qed.

End ListingOrder.

(** The returned files against the rows that pass the filters. *)
Lemma listChangedFiles_prefix :
  forall cfg prNumber capFiles capLines perFileCap w files totalLines w',
    listChangedFiles cfg prNumber capFiles capLines perFileCap w
    = (Returned (files, totalLines), w') ->
    Forall2 built_from files
      (firstn (List.length files) (filter (passes_filters cfg) (pr_files w))) /\
    (List.length files = List.length (filter (passes_filters cfg) (pr_files w)) \/
     capFiles <= Js.len files \/ capLines <= totalLines).
Proof.
  intros cfg prNumber capFiles capLines perFileCap w files totalLines w' H.
  destruct (listChangedFiles_loop_result cfg prNumber capFiles capLines perFileCap w)
    as (r & Hloop & Hr).
  rewrite H in Hr. subst r.
  assert (H1 : 1 <= 1) by lia.
  destruct (loop_prefix cfg capFiles capLines perFileCap prNumber _ _ _ _ _ _ _ _
              H1 Hloop) as [Hpre Hend].
  { simpl. constructor. }
  split; [exact Hpre|].
  destruct Hend as [Hall|Hcap]; [left; exact Hall|].
  apply orb_true_iff in Hcap. destruct Hcap as [Hc|Hc];
    rewrite Z.geb_leb in Hc; apply Z.leb_le in Hc; auto.
Qed.

(** X4. The files [listChangedFiles] returns are, in the platform's listing
    order, the first rows that pass the filters (status not "removed", patch
    present, allow-listed extension, at least one hunk line): a prefix of
    them, each returned file carrying the name, status and counts of its row.
    The prefix is all of them unless the file cap or the line cap was
    reached. *)
Theorem listChangedFiles_prefix_of_eligible :
  forall cfg prNumber capFiles capLines perFileCap w files totalLines w',
    listChangedFiles cfg prNumber capFiles capLines perFileCap w
    = (Returned (files, totalLines), w') ->
    Forall2 built_from files
      (firstn (List.length files) (filter (passes_filters cfg) (pr_files w))) /\
    (List.length files = List.length (filter (passes_filters cfg) (pr_files w)) \/
     capFiles <= Js.len files \/ capLines <= totalLines).
Proof. exact listChangedFiles_prefix. Qed.

Lemma listChangedFiles_prefix_of_eligible_witness :
  Forall2 built_from
    (fst (collect_page Sample.cfg 1 1200 300
            [Sample.gone_js; Sample.app_py; Sample.a_js] [] 0))
    (firstn
       (List.length
          (fst (collect_page Sample.cfg 1 1200 300
                  [Sample.gone_js; Sample.app_py; Sample.a_js] [] 0)))
       (filter (passes_filters Sample.cfg)
          (pr_files (Sample.world [Sample.gone_js; Sample.app_py; Sample.a_js] [])))) /\
  (List.length
     (fst (collect_page Sample.cfg 1 1200 300
             [Sample.gone_js; Sample.app_py; Sample.a_js] [] 0))
   = List.length
       (filter (passes_filters Sample.cfg)
          (pr_files (Sample.world [Sample.gone_js; Sample.app_py; Sample.a_js] []))) \/
   1 <= Js.len (fst (collect_page Sample.cfg 1 1200 300
                       [Sample.gone_js; Sample.app_py; Sample.a_js] [] 0)) \/
   1200 <= 4).
Proof.
  apply (listChangedFiles_prefix_of_eligible Sample.cfg 7 1 1200 300
           (Sample.world [Sample.gone_js; Sample.app_py; Sample.a_js] []) _ 4
           (issued (ListFiles 7 100 1)
              (Sample.world [Sample.gone_js; Sample.app_py; Sample.a_js] []))).
  vm_compute. reflexivity.
Defined.

(** X5. [listChangedFiles] returns no file when no listed row passes the
    filters; and with a positive file cap and a positive line cap it returns
    no file only then: a listing with a row that passes always yields a
    non-empty result. *)
Theorem listChangedFiles_empty_iff_none_eligible :
  forall cfg prNumber capFiles capLines perFileCap w files totalLines w',
    listChangedFiles cfg prNumber capFiles capLines perFileCap w
    = (Returned (files, totalLines), w') ->
    (filter (passes_filters cfg) (pr_files w) = [] -> files = []) /\
    (0 < capFiles -> 0 < capLines ->
     files = [] -> filter (passes_filters cfg) (pr_files w) = []).
Proof.
  intros cfg prNumber capFiles capLines perFileCap w files totalLines w' H.
  destruct (listChangedFiles_prefix _ _ _ _ _ _ _ _ _ H) as [Hpre Hend].
  pose proof (listChangedFiles_total_is_sum _ _ _ _ _ _ _ _ _ H) as Hsum.
  split.
  - intros Hnone. rewrite Hnone, firstn_nil in Hpre. inversion Hpre. reflexivity.
  - intros HF HL Hempty. subst files. cbn in Hend, Hsum.
    destruct Hend as [Hall|[Hc|Hc]]; [|unfold Js.len in Hc; simpl in Hc; lia | lia].
    destruct (filter (passes_filters cfg) (pr_files w)); [reflexivity | discriminate].
Qed.

Lemma listChangedFiles_empty_iff_none_eligible_witness :
  (0 < 30 /\ 0 < 1200 /\
   fst (collect_page Sample.cfg 30 1200 300 [Sample.gone_js] [] 0) = []) /\
  filter (passes_filters Sample.cfg) (pr_files (Sample.world [Sample.gone_js] [])) = [].
Proof.
  assert (HF : 0 < 30) by lia.
  assert (HL : 0 < 1200) by lia.
  assert (HE : fst (collect_page Sample.cfg 30 1200 300 [Sample.gone_js] [] 0) = [])
    by reflexivity.
  split; [repeat split; assumption|].
  refine (proj2 (listChangedFiles_empty_iff_none_eligible Sample.cfg 7 30 1200 300
                   (Sample.world [Sample.gone_js] []) _ 0
                   (issued (ListFiles 7 100 1) (Sample.world [Sample.gone_js] []))
                   _) HF HL HE).
  vm_compute. reflexivity.
Defined.

Section Pages.

Variable cfg : Config.
Variables prNumber capFiles capLines perFileCap : Z.

Lemma pages_shift (page : Z) k :
  map (fun i => ListFiles prNumber per_page (page + Z.of_nat i)) (seq 0 (S k))
  = ListFiles prNumber per_page page
    :: map (fun i => ListFiles prNumber per_page (page + 1 + Z.of_nat i)) (seq 0 k).
Proof.
  cbn [seq map]. rewrite Z.add_0_r. f_equal.
  rewrite <- seq_shift, map_map. apply map_ext. intros i. f_equal. lia.
Qed.

(** The loop fetches the pages from [page] on, one after the other, and reads
    only. *)
Lemma loop_pages fuel :
  forall page files totalLines w o w',
    1 <= page ->
    listChangedFiles_loop fuel cfg prNumber capFiles capLines perFileCap
      page files totalLines w = Some (o, w') ->
    exists l k,
      log w' = (log w ++ l)%list /\
      map snd l
      = map (fun i => ListFiles prNumber per_page (page + Z.of_nat i)) (seq 0 k) /\
      (100 * k
       <= List.length (skipn (Z.to_nat (per_page * (page - 1))) (pr_files w)) + 100)%nat.
Proof.
  induction fuel as [|fuel IH]; intros page files totalLines w o w' Hp H; [discriminate|].
  rewrite loop_step in H.
  destruct (now w >? deadline cfg).
  { inversion H; subst. exists [], 0%nat. rewrite app_nil_r.
    split; [reflexivity|]. split; [reflexivity | lia]. }
  cbv zeta in H.
  assert (Hone : exists l k,
             log (issued (ListFiles prNumber per_page page) w) = (log w ++ l)%list /\
             map snd l
             = map (fun i => ListFiles prNumber per_page (page + Z.of_nat i)) (seq 0 k) /\
             (100 * k
              <= List.length (skipn (Z.to_nat (per_page * (page - 1))) (pr_files w))
                 + 100)%nat).
  { exists [(now w, ListFiles prNumber per_page page)], 1%nat.
    split; [reflexivity|]. split; [|lia].
    cbn [seq map snd]. rewrite Z.add_0_r. reflexivity. }
  destruct (fault w (calls w)); [inversion H; subst; exact Hone|].
  destruct (Js.len (page_of (pr_files w) per_page page) =? 0);
    [inversion H; subst; exact Hone|].
  destruct (Js.len (page_of (pr_files w) per_page page) <? per_page) eqn:Efull;
    [inversion H; subst; exact Hone|].
  cbn [orb] in H.
  match type of H with
  | (if ?b then _ else _) = _ => destruct b
  end; [inversion H; subst; exact Hone|].
  assert (Hp' : 1 <= page + 1) by lia.
  destruct (IH _ _ _ _ _ _ Hp' H) as (l & k & Hl & Hev & Hk).
  cbn [pr_files issued log] in Hl, Hk.
  exists ((now w, ListFiles prNumber per_page page) :: l), (S k).
  split; [rewrite Hl, <- app_assoc; reflexivity|].
  split; [rewrite pages_shift; cbn [map snd]; rewrite Hev; reflexivity|].
  pose proof (full_page_consumes (pr_files w) page Hp Efull). lia.
Qed.

End Pages.

(** X6. Whatever it ends with, [listChangedFiles] issues nothing but page
    fetches: pages 1, 2, ..., k of a hundred rows, each once and in this
    order, where [k] is at most one more than the number of full pages the
    listing has; the comments and the failure signal are left as they were. *)
Theorem listChangedFiles_fetches_consecutive_pages :
  forall cfg prNumber capFiles capLines perFileCap w,
  exists l k,
    log (snd (listChangedFiles cfg prNumber capFiles capLines perFileCap w))
    = (log w ++ l)%list /\
    map snd l = map (fun i => ListFiles prNumber 100 (1 + Z.of_nat i)) (seq 0 k) /\
    (100 * k <= List.length (pr_files w) + 100)%nat /\
    comments (snd (listChangedFiles cfg prNumber capFiles capLines perFileCap w))
    = comments w /\
    failed (snd (listChangedFiles cfg prNumber capFiles capLines perFileCap w))
    = failed w.
Proof.
  intros cfg prNumber capFiles capLines perFileCap w.
  destruct (listChangedFiles_loop_result cfg prNumber capFiles capLines perFileCap w)
    as ([o w'] & Hloop & ->).
  assert (H1 : 1 <= 1) by lia.
  destruct (loop_pages cfg prNumber capFiles capLines perFileCap _ _ _ _ _ _ _ H1 Hloop)
    as (l & k & Hl & Hev & Hk).
  apply loop_frame in Hloop.
  exists l, k. cbn [snd].
  split; [exact Hl|]. split; [exact Hev|]. split; [exact Hk|].
  split; apply Hloop.
Qed.

(* ------------------------------------------------------------------ *)
(** ** Further properties of the run *)
(* ------------------------------------------------------------------ *)

(** X7. On an event without a pull request number (absent or zero) the run
    issues no external call and writes no comment: it returns after
    signalling failure once, with the text "Error: This action must run on
    pull_request events.". *)
Theorem run_without_pull_request :
  forall cfg w,
    truthy_number (pull_request_number cfg) = false ->
    fst (run cfg w) = Returned tt /\
    failed (snd (run cfg w))
    = (failed w ++ ["Error: This action must run on pull_request events."])%list /\
    log (snd (run cfg w)) = log w /\
    comments (snd (run cfg w)) = comments w /\
    now (snd (run cfg w)) = now w.
Proof.
  intros cfg w H. unfold run, try_catch, review, bind, getPRNumber, on_failure.
  destruct (pull_request_number cfg) as [n|].
  - unfold truthy_number in H. apply negb_false_iff in H. rewrite H.
    unfold throw. cbn [truthy_number]. rewrite H. cbn [negb].
    rewrite andb_false_r. repeat split.
  - unfold throw, ret. repeat split.
Qed.

Lemma run_without_pull_request_witness :
  truthy_number (pull_request_number (mkConfig 30 1200 300 default_RISKY_EXTS 100000 None))
  = false /\
  failed (snd (run (mkConfig 30 1200 300 default_RISKY_EXTS 100000 None)
                 (Sample.world [Sample.a_js] [])))
  = ["Error: This action must run on pull_request events."].
Proof.
  assert (H : truthy_number
                (pull_request_number (mkConfig 30 1200 300 default_RISKY_EXTS 100000 None))
              = false) by reflexivity.
  split; [exact H|].
  exact (proj1 (proj2 (run_without_pull_request
                         (mkConfig 30 1200 300 default_RISKY_EXTS 100000 None)
                         (Sample.world [Sample.a_js] []) H))).
Defined.

Section Late.

Variable cfg : Config.

Lemma upsert_too_late prNumber content w :
  deadline cfg < now w ->
  upsertPRComment cfg prNumber content w = (Thrown TIME_BUDGET_EXCEEDED, w).
Proof.
  intros H. rewrite upsert_eq, (past_deadline cfg w H). reflexivity.
Qed.

Lemma listChangedFiles_too_late prNumber capFiles capLines perFileCap w :
  deadline cfg < now w ->
  listChangedFiles cfg prNumber capFiles capLines perFileCap w
  = (Thrown TIME_BUDGET_EXCEEDED, w).
Proof.
  intros H. unfold listChangedFiles, page_bound.
  rewrite loop_step, (past_deadline cfg w H). reflexivity.
Qed.

End Late.

(** X8. With a pull request at hand, when the [try] block fails at a moment
    past the deadline, whatever the error, the handler's comment throws at its
    own deadline test: the run ends with TIME_BUDGET_EXCEEDED thrown, in the
    world the failure left, so without any comment call and without the
    failure signal.  In particular a run started past the deadline changes
    nothing at all. *)
Theorem run_past_deadline_throws :
  forall cfg n,
    pull_request_number cfg = Some n -> n <> 0 ->
    (forall w err w1,
        review cfg w = (Thrown err, w1) ->
        deadline cfg < now w1 ->
        run cfg w = (Thrown TIME_BUDGET_EXCEEDED, w1)) /\
    (forall w,
        deadline cfg < now w ->
        run cfg w = (Thrown TIME_BUDGET_EXCEEDED, w)).
Proof.
  intros cfg n Hpr Hn.
  assert (Hhandler : forall w err w1,
             review cfg w = (Thrown err, w1) ->
             deadline cfg < now w1 ->
             run cfg w = (Thrown TIME_BUDGET_EXCEEDED, w1)).
  { intros w err w1 Hrev Hlate. unfold run, try_catch. rewrite Hrev.
    rewrite (on_failure_present cfg n err w1 Hpr Hn). unfold bind.
    destruct (Js.includes (String_of_error err) QUOTA);
      rewrite (upsert_too_late cfg n _ w1 Hlate); reflexivity. }
  split; [exact Hhandler|].
  intros w Hlate. apply (Hhandler w TIME_BUDGET_EXCEEDED w); [|exact Hlate].
  unfold review, bind. rewrite (getPRNumber_present cfg n w Hpr Hn).
  rewrite (listChangedFiles_too_late cfg n _ _ _ w Hlate). reflexivity.
Qed.

Lemma run_past_deadline_throws_witness :
  (pull_request_number Sample.cfg = Some 7 /\ 7 <> 0 /\
   deadline Sample.cfg
   < now (mkWorld 100001 0 (fun _ => 1) (fun _ => None) [Sample.a_js] []
            (Sample.answer "ok") (Returned "policy") ReportMissing [] [])) /\
  run Sample.cfg
    (mkWorld 100001 0 (fun _ => 1) (fun _ => None) [Sample.a_js] []
       (Sample.answer "ok") (Returned "policy") ReportMissing [] [])
  = (Thrown TIME_BUDGET_EXCEEDED,
     mkWorld 100001 0 (fun _ => 1) (fun _ => None) [Sample.a_js] []
       (Sample.answer "ok") (Returned "policy") ReportMissing [] []).
Proof.
  assert (Hn : 7 <> 0) by discriminate.
  assert (Hl : deadline Sample.cfg
               < now (mkWorld 100001 0 (fun _ => 1) (fun _ => None) [Sample.a_js] []
                        (Sample.answer "ok") (Returned "policy") ReportMissing [] []))
    by (simpl; lia).
  split; [repeat split; assumption|].
  exact (proj2 (run_past_deadline_throws Sample.cfg 7 eq_refl Hn) _ Hl).
Defined.




(* ------------------------------------------------------------------ *)
(** ** Further properties of the comment publisher *)
(* ------------------------------------------------------------------ *)

Section Upsert.

Variable cfg : Config.

(** What a successful [upsertPRComment] did to the thread. *)
Lemma upsert_returned prNumber content w w' :
  upsertPRComment cfg prNumber content w = (Returned tt, w') ->
  match find is_mine (page_of (comments w) 100 1) with
  | Some mine =>
      comments w' = map (replace_body (id mine) (comment_body content)) (comments w)
  | None =>
      comments w'
      = (comments w ++ [mkComment (fresh_id (comments w)) (Some (comment_body content))])%list
  end.
Proof.
  intros H. rewrite upsert_eq in H.
  destruct (now w >? deadline cfg); [discriminate|].
  cbv zeta in H.
  destruct (fault w (calls w)); [discriminate|].
  destruct (find is_mine (page_of (comments w) 100 1)) as [mine|].
  - destruct (fault w (S (calls w))); [discriminate|].
    destruct (existsb (has_id (id mine)) (comments w)); [|discriminate].
    inversion H; subst w'. reflexivity.
  - destruct (fault w (S (calls w))); [discriminate|].
    inversion H; subst w'. reflexivity.
Qed.

Lemma same_id_same_comment (cs : list PRComment) x y :
  NoDup (map id cs) -> In x cs -> In y cs -> id x = id y -> x = y.
Proof.
  induction cs as [|c cs IH]; intros Hnd Hx Hy Hid; [destruct Hx|].
  inversion Hnd as [|? ? Hnotin Hnd']; subst.
  destruct Hx as [->|Hx], Hy as [->|Hy]; auto.
  - exfalso. apply Hnotin. rewrite Hid. apply in_map. exact Hy.
  - exfalso. apply Hnotin. rewrite <- Hid. apply in_map. exact Hx.
Qed.

Lemma page_of_map {A B} (g : A -> B) l pp page :
  page_of (map g l) pp page = map g (page_of l pp page).
Proof. unfold page_of. rewrite skipn_map, firstn_map. reflexivity. Qed.

Lemma replace_body_twice i b1 b2 c :
  replace_body i b2 (replace_body i b1 c) = replace_body i b2 c.
Proof.
  unfold replace_body, has_id. destruct (id c =? i) eqn:E; cbn [id]; rewrite E; reflexivity.
Qed.

Lemma id_replace_body i b c : id (replace_body i b c) = id c.
Proof. unfold replace_body. destruct (has_id i c); reflexivity. Qed.

Lemma is_mine_replaced i content c :
  has_id i c = true -> is_mine (replace_body i (comment_body content) c) = true.
Proof. intros H. unfold replace_body. rewrite H. apply is_mine_comment_body. Qed.

Lemma replace_body_other i b c : has_id i c = false -> replace_body i b c = c.
Proof. intros H. unfold replace_body. rewrite H. reflexivity. Qed.

Lemma find_after_replace content l mine :
  find is_mine l = Some mine ->
  exists m',
    find is_mine (map (replace_body (id mine) (comment_body content)) l) = Some m' /\
    id m' = id mine.
Proof.
  induction l as [|x l IH]; intros H; [discriminate|].
  cbn [find map] in *.
  destruct (has_id (id mine) x) eqn:Eid.
  - rewrite (is_mine_replaced _ content x Eid). eexists. split; [reflexivity|].
    rewrite id_replace_body. unfold has_id in Eid. apply Z.eqb_eq in Eid. exact Eid.
  - rewrite (replace_body_other _ _ x Eid).
    destruct (is_mine x) eqn:Ex.
    + inversion H; subst x. unfold has_id in Eid. rewrite Z.eqb_refl in Eid. discriminate.
    + apply IH. exact H.
Qed.

End Upsert.

(** X10. A successful [upsertPRComment] leaves every comment that does not
    carry the marker where it was and as it was, when the comments of the
    thread have distinct ids. *)
Theorem upsert_spares_unmarked_comments :
  forall cfg prNumber content w w',
    upsertPRComment cfg prNumber content w = (Returned tt, w') ->
    NoDup (map id (comments w)) ->
    forall i c,
      nth_error (comments w) i = Some c ->
      is_mine c = false ->
      nth_error (comments w') i = Some c.
Proof.
  intros cfg prNumber content w w' H Hnd i c Hi Hc.
  apply upsert_returned in H.
  destruct (find is_mine (page_of (comments w) 100 1)) as [mine|] eqn:Efind.
  - apply find_some in Efind. destruct Efind as [Hin Hmine].
    apply In_page_of in Hin.
    rewrite H, nth_error_map, Hi. cbn [option_map]. f_equal.
    unfold replace_body, has_id. destruct (id c =? id mine) eqn:E; [|reflexivity].
    apply Z.eqb_eq in E.
    assert (c = mine)
      by (apply (same_id_same_comment (comments w)); auto; eapply nth_error_In, Hi).
    subst c. congruence.
  - rewrite H, nth_error_app1; [exact Hi|].
    apply nth_error_Some. congruence.
Qed.

Lemma upsert_spares_unmarked_comments_witness :
  (fst (upsertPRComment Sample.cfg 7 "second"
          (Sample.world [] [mkComment 4 (Some "LGTM");
                            mkComment 9 (Some (comment_body "first"))]))
   = Returned tt /\
   NoDup (map id [mkComment 4 (Some "LGTM"); mkComment 9 (Some (comment_body "first"))]) /\
   is_mine (mkComment 4 (Some "LGTM")) = false) /\
  nth_error
    (comments
       (snd (upsertPRComment Sample.cfg 7 "second"
               (Sample.world [] [mkComment 4 (Some "LGTM");
                                 mkComment 9 (Some (comment_body "first"))]))))
    0
  = Some (mkComment 4 (Some "LGTM")).
Proof.
  assert (Hnd : NoDup (map id [mkComment 4 (Some "LGTM");
                               mkComment 9 (Some (comment_body "first"))])).
  { simpl. constructor; [simpl; intros [H|[]]; discriminate|].
    constructor; [intros []|constructor]. }
  split; [split; [vm_compute; reflexivity | split; [exact Hnd | reflexivity]]|].
  apply (upsert_spares_unmarked_comments Sample.cfg 7 "second"
           (Sample.world [] [mkComment 4 (Some "LGTM");
                             mkComment 9 (Some (comment_body "first"))])
           (snd (upsertPRComment Sample.cfg 7 "second"
                   (Sample.world [] [mkComment 4 (Some "LGTM");
                                     mkComment 9 (Some (comment_body "first"))])))).
  - vm_compute. reflexivity.
  - exact Hnd.
  - reflexivity.
  - reflexivity.
Defined.

(** X11. When the first page of comments already holds one with the marker,
    two successful publications leave the thread as the second one alone
    would: the same comments in the same places, the body of the found
    comment replaced by the second body. *)
Theorem upsert_last_write_wins :
  forall cfg prNumber content1 content2 w w1 w2 mine,
    find is_mine (page_of (comments w) 100 1) = Some mine ->
    upsertPRComment cfg prNumber content1 w = (Returned tt, w1) ->
    upsertPRComment cfg prNumber content2 w1 = (Returned tt, w2) ->
    comments w2 = map (replace_body (id mine) (comment_body content2)) (comments w) /\
    List.length (comments w2) = List.length (comments w).
Proof.
  intros cfg prNumber content1 content2 w w1 w2 mine Hfind H1 H2.
  apply upsert_returned in H1. apply upsert_returned in H2.
  rewrite Hfind in H1. rewrite H1, page_of_map in H2.
  destruct (find_after_replace content1 _ mine Hfind) as (m' & Hm' & Hid).
  rewrite Hm', Hid, map_map in H2.
  assert (Heq : comments w2
                = map (replace_body (id mine) (comment_body content2)) (comments w)).
  { rewrite H2. apply map_ext. intros c. apply replace_body_twice. }
  split; [exact Heq | rewrite Heq; apply length_map].
Qed.

Lemma upsert_last_write_wins_witness :
  find is_mine
    (page_of (comments (Sample.world [] [mkComment 4 (Some "LGTM");
                                          mkComment 9 (Some (comment_body "zero"))]))
       100 1)
  = Some (mkComment 9 (Some (comment_body "zero"))) /\
  comments
    (snd (upsertPRComment Sample.cfg 7 "second"
            (snd (upsertPRComment Sample.cfg 7 "first"
                    (Sample.world [] [mkComment 4 (Some "LGTM");
                                      mkComment 9 (Some (comment_body "zero"))])))))
  = map (replace_body 9 (comment_body "second"))
      [mkComment 4 (Some "LGTM"); mkComment 9 (Some (comment_body "zero"))].
Proof.
  split; [reflexivity|].
  refine (proj1 (upsert_last_write_wins Sample.cfg 7 "first" "second"
                   (Sample.world [] [mkComment 4 (Some "LGTM");
                                     mkComment 9 (Some (comment_body "zero"))])
                   (snd (upsertPRComment Sample.cfg 7 "first"
                           (Sample.world [] [mkComment 4 (Some "LGTM");
                                             mkComment 9 (Some (comment_body "zero"))])))
                   _ (mkComment 9 (Some (comment_body "zero"))) eq_refl _ _)).
  - vm_compute. reflexivity.
  - vm_compute. reflexivity.
Defined.

(* ------------------------------------------------------------------ *)
(** ** Further properties of the prompt and of the review client *)
(* ------------------------------------------------------------------ *)

Section Message.

Lemma str_app_assoc (a b c : string) : (a ++ b) ++ c = a ++ b ++ c.
Proof. induction a as [|x a IH]; simpl; [|rewrite IH]; reflexivity. Qed.

Lemma accumulate_blocks files :
  forall init,
    fold_left
      (fun acc f =>
         acc ++ Js.NL ++ "=== FILE: " ++ filename f ++ " (" ++ status f ++ ", +"
             ++ Js.string_of_Z (additions f) ++ "/-" ++ Js.string_of_Z (deletions f)
             ++ ") ===" ++ Js.NL
             ++ FENCE ++ "diff" ++ Js.NL ++ patch f ++ Js.NL ++ FENCE ++ Js.NL)
      files init
    = init ++ file_blocks files.
Proof.
  induction files as [|f files IH]; intros init.
  - simpl. induction init as [|x init IHi]; simpl; [|rewrite <- IHi]; reflexivity.
  - cbn [fold_left file_blocks fold_right]. rewrite IH.
    fold (file_block f). fold (file_blocks files). apply str_app_assoc.
Qed.

Lemma file_blocks_app l1 l2 :
  file_blocks (l1 ++ l2) = file_blocks l1 ++ file_blocks l2.
Proof.
  induction l1 as [|f l1 IH]; [reflexivity|].
  cbn [app file_blocks fold_right]. fold (file_blocks (l1 ++ l2)). fold (file_blocks l1).
  rewrite IH, str_app_assoc. reflexivity.
Qed.

End Message.

(** X12. The user message is the opening marker line, the blocks of the
    collected files in their order, each made of the header line with name,
    status and counts and of the fenced patch, and the closing marker; so the
    block of every collected file occurs in the message. *)
Theorem buildUserMessage_blocks :
  forall files,
    buildUserMessage files
    = ">>> BEGIN_PATCHES" ++ Js.NL ++ file_blocks files ++ Js.NL ++ "<<< END_PATCHES" /\
    (forall f, In f files ->
               Js.includes (buildUserMessage files) (file_block f) = true).
Proof.
  intros files.
  assert (Heq : buildUserMessage files
                = ">>> BEGIN_PATCHES" ++ Js.NL ++ file_blocks files
                  ++ Js.NL ++ "<<< END_PATCHES").
  { unfold buildUserMessage. rewrite accumulate_blocks.
    rewrite !str_app_assoc. reflexivity. }
  split; [exact Heq|].
  intros f Hf. rewrite Heq.
  destruct (in_split f files Hf) as (l1 & l2 & ->).
  rewrite file_blocks_app. cbn [file_blocks fold_right]. fold (file_blocks l2).
  rewrite !str_app_assoc.
  do 3 apply includes_app_r. apply includes_prefix.
Qed.

Lemma buildUserMessage_blocks_witness :
  In (collected Sample.a_js "+a") [collected Sample.app_py "-b"; collected Sample.a_js "+a"] /\
  Js.includes
    (buildUserMessage [collected Sample.app_py "-b"; collected Sample.a_js "+a"])
    (file_block (collected Sample.a_js "+a")) = true.
Proof.
  assert (H : In (collected Sample.a_js "+a")
                [collected Sample.app_py "-b"; collected Sample.a_js "+a"])
    by (right; left; reflexivity).
  split; [exact H|].
  exact (proj2 (buildUserMessage_blocks _) _ H).
Defined.

Section BaseUrl.

Lemma strip_no_trailing_slash s : ends_with_slash (strip_trailing_slashes s) = false.
Proof.
  induction s as [|a s IH]; [reflexivity|].
  cbn [strip_trailing_slashes].
  destruct (strip_trailing_slashes s) as [|b t].
  - destruct (Ascii.eqb a "/") eqn:E; [reflexivity|]. simpl. exact E.
  - exact IH.
Qed.

Lemma strip_then_slashes s :
  exists k, s = strip_trailing_slashes s ++ slashes k.
Proof.
  induction s as [|a s IH]; [exists 0%nat; reflexivity|].
  destruct IH as [k Hk]. cbn [strip_trailing_slashes].
  destruct (strip_trailing_slashes s) as [|b t].
  - simpl in Hk. destruct (Ascii.eqb a "/") eqn:E.
    + apply Ascii.eqb_eq in E. subst a. exists (S k). simpl. rewrite <- Hk. reflexivity.
    + exists k. simpl. rewrite <- Hk. reflexivity.
  - exists k. simpl. simpl in Hk. rewrite <- Hk. reflexivity.
Qed.

Lemma strip_slashes_only k : strip_trailing_slashes (slashes k) = EmptyString.
Proof. induction k as [|k IH]; [reflexivity|]. simpl. rewrite IH. reflexivity. Qed.

Lemma trimStart_slash s : Js.trimStart (String "/" s) = String "/" s.
Proof. destruct s as [|b [|c s]]; reflexivity. Qed.

Lemma trimEnd_slashes k : Js.trimEnd (slashes k) = slashes k.
Proof.
  induction k as [|k IH]; [reflexivity|].
  cbn [slashes Js.trimEnd]. unfold Js.blank. rewrite trimStart_slash, IH. reflexivity.
Qed.

Lemma trim_slashes k : Js.trim (slashes k) = slashes k.
Proof.
  unfold Js.trim.
  replace (Js.trimStart (slashes k)) with (slashes k)
    by (destruct k; [reflexivity | symmetry; apply trimStart_slash]).
  apply trimEnd_slashes.
Qed.

End BaseUrl.

(** X13. The base of the request URL never ends with a slash.  When
    [OPENAI_BASE_URL] is set to something that is not blank, the base is the
    trimmed setting without the slashes that end it (so a setting made of
    slashes only gives the empty base); when it is not set, empty or blank,
    the base is "https://api.openai.com/v1". *)
Theorem api_base_has_no_trailing_slash :
  forall setting,
    ends_with_slash (api_base setting) = false /\
    (forall u, setting = Some u -> Js.trim u <> EmptyString ->
               api_base setting = strip_trailing_slashes (Js.trim u) /\
               exists k, Js.trim u = api_base setting ++ slashes k) /\
    (forall k, (0 < k)%nat -> api_base (Some (slashes k)) = EmptyString) /\
    ((setting = None \/ exists u, setting = Some u /\ Js.trim u = EmptyString) ->
     api_base setting = DEFAULT_BASE_URL).
Proof.
  intros setting. split; [|split; [|split]].
  - unfold api_base. destruct setting as [u|]; [|reflexivity].
    destruct (Js.truthy_string u && Js.truthy_string (Js.trim u));
      [apply strip_no_trailing_slash | reflexivity].
  - intros u -> Hu. unfold api_base.
    assert (Ht : Js.truthy_string (Js.trim u) = true)
      by (destruct (Js.trim u); [congruence | reflexivity]).
    assert (Hu' : Js.truthy_string u = true)
      by (destruct u; [exfalso; apply Hu; reflexivity | reflexivity]).
    rewrite Ht, Hu'. cbn [andb]. split; [reflexivity|].
    apply strip_then_slashes.
  - intros k Hk. unfold api_base.
    rewrite trim_slashes. destruct k as [|k]; [lia|].
    cbn [slashes Js.truthy_string andb]. apply (strip_slashes_only (S k)).
  - intros [->|(u & -> & Hu)]; [reflexivity|].
    unfold api_base. rewrite Hu. cbn [Js.truthy_string]. rewrite andb_false_r.
    reflexivity.
Qed.

Lemma api_base_has_no_trailing_slash_witness :
  (Js.trim (Sample.nbsp ++ "https://openrouter.ai/api/v1//" ++ Sample.line_separator)
   <> EmptyString /\
   Js.trim Sample.nbsp = EmptyString) /\
  api_base (Some (Sample.nbsp ++ "https://openrouter.ai/api/v1//" ++ Sample.line_separator))
  = "https://openrouter.ai/api/v1" /\
  completions_url
    (Some (Sample.nbsp ++ "https://openrouter.ai/api/v1//" ++ Sample.line_separator))
  = "https://openrouter.ai/api/v1/chat/completions" /\
  api_base (Some Sample.nbsp) = "https://api.openai.com/v1".
Proof.
  assert (H : Js.trim (Sample.nbsp ++ "https://openrouter.ai/api/v1//"
                       ++ Sample.line_separator) <> EmptyString)
    by (vm_compute; discriminate).
  assert (H' : Js.trim Sample.nbsp = EmptyString) by (vm_compute; reflexivity).
  split; [split; [exact H | exact H']|].
  pose proof (proj1 (proj1 (proj2 (api_base_has_no_trailing_slash
                                     (Some (Sample.nbsp ++ "https://openrouter.ai/api/v1//"
                                            ++ Sample.line_separator))))
                       _ eq_refl H)) as Hb.
  split; [rewrite Hb; vm_compute; reflexivity|].
  split; [unfold completions_url; rewrite Hb; vm_compute; reflexivity|].
  apply (proj2 (proj2 (proj2 (api_base_has_no_trailing_slash (Some Sample.nbsp))))).
  right. exists Sample.nbsp. split; [reflexivity | exact H'].
Defined.

(* ------------------------------------------------------------------ *)
(** ** Further properties of the findings summary and of the allow-list *)
(* ------------------------------------------------------------------ *)

Lemma map_render_null fs :
  In Json.JNull fs ->
  exists msg, map_throwing render_finding fs = Thrown (TypeError msg).
Proof.
  intros H. apply map_render_bad. exists Json.JNull. split; [exact H|].
  left. reflexivity.
Qed.

(** X14. A [null] among the findings that would be shown makes
    [summarizeGitLeaks] throw a TypeError instead of returning a summary; a
    [null] beyond the display limit does no harm. *)
Theorem summarizeGitLeaks_null_finding_throws :
  forall findings limit,
    In Json.JNull (Js.slice0 findings limit) ->
    exists msg, summarizeGitLeaks findings limit = Thrown (TypeError msg).
Proof.
  intros findings limit H. unfold summarizeGitLeaks.
  destruct (Js.len findings =? 0) eqn:E.
  - apply Z.eqb_eq in E. destruct findings; [|unfold Js.len in E; simpl in E; lia].
    unfold Js.slice0 in H. destruct (limit <? 0); rewrite firstn_nil in H; destruct H.
  - destruct (map_render_null _ H) as [msg ->]. exists msg. reflexivity.
Qed.

Lemma summarizeGitLeaks_null_finding_throws_witness :
  In Json.JNull (Js.slice0 [Json.JObj [("File", Json.JStr "a.env")]; Json.JNull] 10) /\
  (exists msg,
      summarizeGitLeaks [Json.JObj [("File", Json.JStr "a.env")]; Json.JNull] 10
      = Thrown (TypeError msg)) /\
  summarizeGitLeaks [Json.JObj [("File", Json.JStr "a.env")]; Json.JNull] 1
  = Returned (GITLEAKS_HEADING ++ Js.NL ++ "- `a.env` line ?: **rule**"
              ++ Js.NL ++ ELLIPSIS ++ "and 1 more.").
Proof.
  assert (H : In Json.JNull
                (Js.slice0 [Json.JObj [("File", Json.JStr "a.env")]; Json.JNull] 10))
    by (right; left; reflexivity).
  split; [exact H|].
  split; [exact (summarizeGitLeaks_null_finding_throws _ 10 H)|].
  vm_compute. reflexivity.
Defined.

(** X15. [hasRiskyExt] accepts a file name exactly when some comma-separated
    entry of [RISKY_EXTS], trimmed and lower-cased, has no dot and ends the
    lower-cased name after a dot, or is the whole lower-cased name. *)
Theorem hasRiskyExt_matches_entry :
  forall cfg name,
    hasRiskyExt cfg name = true <->
    exists entry ext,
      In entry (Js.split "," (RISKY_EXTS cfg)) /\
      ext = Js.toLowerCase (Js.trim entry) /\
      has_char "." ext = false /\
      (Js.toLowerCase name = ext \/
       exists base, Js.toLowerCase name = base ++ "." ++ ext).
Proof. intros cfg name. unfold hasRiskyExt. apply allow_list_spec. Qed.

Lemma hasRiskyExt_matches_entry_witness :
  hasRiskyExt (mkConfig 30 1200 300 Sample.spaced_exts 0 None) Sample.kelvin_name = true /\
  hasRiskyExt (mkConfig 30 1200 300 Sample.spaced_exts 0 None) "kt" = true /\
  hasRiskyExt (mkConfig 30 1200 300 Sample.spaced_exts 0 None) "Main.kts" = false.
Proof.
  split; [|split].
  - apply (proj2 (hasRiskyExt_matches_entry
                    (mkConfig 30 1200 300 Sample.spaced_exts 0 None) Sample.kelvin_name)).
    exists (Sample.nbsp ++ "KT"), "kt".
    split; [right; left; reflexivity|].
    split; [vm_compute; reflexivity|].
    split; [reflexivity|].
    right. exists "main". vm_compute. reflexivity.
  - apply (proj2 (hasRiskyExt_matches_entry
                    (mkConfig 30 1200 300 Sample.spaced_exts 0 None) "kt")).
    exists (Sample.nbsp ++ "KT"), "kt".
    split; [right; left; reflexivity|].
    split; [vm_compute; reflexivity|].
    split; [reflexivity|].
    left. vm_compute. reflexivity.
  - vm_compute. reflexivity.
Defined.

(** X16. Reading the findings report never fails and changes nothing.  It
    yields findings only when the report parsed to an array, or to an object
    whose [findings] property is an array; a missing or unreadable report, and
    a report of any other shape, count as no findings, and then the summary is
    empty. *)
Theorem loadGitLeaksFindings_shapes :
  forall w,
  exists l,
    loadGitLeaksFindings w = (Returned l, w) /\
    (l <> [] ->
     report_file w = ReportParsed (Json.JArr l) \/
     exists props, report_file w = ReportParsed (Json.JObj props) /\
                   Json.assoc "findings" props = Some (Json.JArr l)) /\
    (l = [] -> summarizeGitLeaks_default l = Returned EmptyString).
Proof.
  intros w. unfold loadGitLeaksFindings.
  assert (Hempty : forall l : list Json.t,
             l = [] -> summarizeGitLeaks_default l = Returned EmptyString)
    by (intros l ->; reflexivity).
  destruct (report_file w) as [| |data] eqn:Er.
  - exists []. split; [reflexivity|]. split; [congruence | apply Hempty].
  - exists []. split; [reflexivity|]. split; [congruence | apply Hempty].
  - destruct data as [|b|n|s|l|props];
      try (exists []; split; [reflexivity|]; split; [congruence | apply Hempty]).
    + exists l. split; [reflexivity|]. split; [left; reflexivity | apply Hempty].
    + cbn [findings_field Json.prop].
      destruct (Json.assoc "findings" props) as [[|b|n|s|l|ps]|] eqn:Ea;
        try (exists []; split; [reflexivity|]; split; [congruence | apply Hempty]).
      exists l. split; [reflexivity|].
      split; [intros _; right; exists props; split; [reflexivity | exact Ea] | apply Hempty].
Qed.

Section HunkLinesOnly.

Lemma trimPatchLines_lines_from p limit l :
  In l (patch_lines (trimPatchLines p limit)) ->
  l = EmptyString \/ In l (patch_lines p).
Proof.
  unfold trimPatchLines. fold (line_count p).
  destruct (line_count p <=? limit); [intros H; right; exact H|].
  pose proof (split_no_sep Js.nl p) as Hall. fold (patch_lines p) in Hall.
  set (first := match patch_lines p with l0 :: _ => l0 | [] => EmptyString end).
  assert (Hfirst : first = EmptyString \/ In first (patch_lines p))
    by (unfold first; destruct (patch_lines p); [left | right; left]; reflexivity).
  assert (Hslice : forall x, In x (Js.slice0 (patch_lines p) limit) -> In x (patch_lines p))
    by (intros x; unfold Js.slice0; destruct (limit <? 0); apply In_firstn).
  unfold patch_lines at 1, Js.NL. rewrite split_join.
  - intros [<-|H]; [|right; apply Hslice; exact H].
    destruct (Js.startsWith first "@@"); [exact Hfirst | left; reflexivity].
  - discriminate.
  - constructor.
    + destruct (Js.startsWith first "@@"); [|reflexivity].
      destruct Hfirst as [->|Hin]; [reflexivity|].
      rewrite Forall_forall in Hall. apply Hall. exact Hin.
    + apply Forall_forall. intros x Hx. rewrite Forall_forall in Hall.
      apply Hall, Hslice, Hx.
Qed.

Lemma budgeted_patch_hunk_lines cfg capLines perFileCap totalLines f p :
  passes_filters cfg f = true ->
  budgeted_patch capLines perFileCap totalLines (cf_patch f) = Some p ->
  Forall (fun l => l = EmptyString \/ is_hunk_line l = true) (patch_lines p).
Proof.
  intros Hpass Hb. unfold passes_filters in Hpass.
  apply andb_true_iff in Hpass. destruct Hpass as [Hq Htrim].
  apply negb_true_iff, orb_false_iff in Hq. destruct Hq as [Hbin _].
  unfold isBinaryOrLarge in Hbin. apply orb_false_iff in Hbin. destruct Hbin as [_ Hp].
  destruct (cf_patch f) as [raw|] eqn:Eraw; [|discriminate].
  pose proof (reduce_patch_lines raw (proj1 (reduce_patch_blank raw) Htrim)) as Hlines.
  assert (Hred : forall l, In l (patch_lines (reduce_patch (Some raw))) ->
                           is_hunk_line l = true).
  { intros l Hl. rewrite Hlines in Hl. apply filter_In in Hl. tauto. }
  assert (H1 : forall l, In l (patch_lines (trimPatchLines (reduce_patch (Some raw))
                                             perFileCap)) ->
                         l = EmptyString \/ is_hunk_line l = true).
  { intros l Hl. apply trimPatchLines_lines_from in Hl.
    destruct Hl as [->|Hl]; [left; reflexivity | right; apply Hred; exact Hl]. }
  apply Forall_forall. intros l Hl. unfold budgeted_patch in Hb.
  destruct (totalLines + line_count _ >? capLines).
  - destruct (Z.max 0 (capLines - totalLines) =? 0); [discriminate|].
    inversion Hb; subst p. apply trimPatchLines_lines_from in Hl.
    destruct Hl as [->|Hl]; [left; reflexivity | apply H1; exact Hl].
  - inversion Hb; subst p. apply H1. exact Hl.
Qed.

End HunkLinesOnly.

(** X17. Whatever the caps, every line of every patch [listChangedFiles]
    returns starts with "@@", "+" or "-", or is the empty line trimming puts
    in front: no context line of a diff is passed on. *)
Theorem listChangedFiles_returns_hunk_lines_only :
  forall cfg prNumber capFiles capLines perFileCap w files totalLines w',
    listChangedFiles cfg prNumber capFiles capLines perFileCap w
    = (Returned (files, totalLines), w') ->
    Forall (fun c =>
              Forall (fun l => l = EmptyString \/ is_hunk_line l = true)
                (patch_lines (patch c)))
      files.
Proof.
  intros cfg prNumber capFiles capLines perFileCap w files totalLines w' H.
  apply (listChangedFiles_invariant cfg capFiles capLines perFileCap prNumber
           (fun fs _ =>
              Forall (fun c =>
                        Forall (fun l => l = EmptyString \/ is_hunk_line l = true)
                          (patch_lines (patch c))) fs))
    with (w := w) (w' := w') (totalLines := totalLines).
  - intros f p fs t HI _ Hpass Hb. apply Forall_app. split; [exact HI|].
    constructor; [|constructor]. cbn [patch collected].
    exact (budgeted_patch_hunk_lines cfg capLines perFileCap t f p Hpass Hb).
  - constructor.
  - exact H.
Qed.

Lemma listChangedFiles_returns_hunk_lines_only_witness :
  Forall (fun c =>
            Forall (fun l => l = EmptyString \/ is_hunk_line l = true)
              (patch_lines (patch c)))
    (fst (collect_page Sample.cfg 30 1200 300 [Sample.app_py] [] 0)).
Proof.
  apply (listChangedFiles_returns_hunk_lines_only Sample.cfg 7 30 1200 300
           (Sample.world [Sample.app_py] []) _ 4
           (issued (ListFiles 7 100 1) (Sample.world [Sample.app_py] []))).
  vm_compute. reflexivity.
Defined.

Lemma listChangedFiles_fetches_consecutive_pages_witness :
  exists l k,
    log (snd (listChangedFiles Sample.cfg 7 30 1200 300
                (Sample.world (repeat Sample.gone_js 250) [])))
    = (log (Sample.world (repeat Sample.gone_js 250) []) ++ l)%list /\
    map snd l = map (fun i => ListFiles 7 100 (1 + Z.of_nat i)) (seq 0 k) /\
    (100 * k <= List.length (pr_files (Sample.world (repeat Sample.gone_js 250) [])) + 100)%nat /\
    comments (snd (listChangedFiles Sample.cfg 7 30 1200 300
                     (Sample.world (repeat Sample.gone_js 250) [])))
    = comments (Sample.world (repeat Sample.gone_js 250) []) /\
    failed (snd (listChangedFiles Sample.cfg 7 30 1200 300
                   (Sample.world (repeat Sample.gone_js 250) [])))
    = failed (Sample.world (repeat Sample.gone_js 250) []).
Proof.
  exact (listChangedFiles_fetches_consecutive_pages Sample.cfg 7 30 1200 300
           (Sample.world (repeat Sample.gone_js 250) [])).
Defined.

Example three_pages_for_250_rows :
  map snd (log (snd (listChangedFiles Sample.cfg 7 30 1200 300
                       (Sample.world (repeat Sample.gone_js 250) []))))
  = [ListFiles 7 100 1; ListFiles 7 100 2; ListFiles 7 100 3].
Proof. vm_compute. reflexivity. Qed.

Lemma loadGitLeaksFindings_shapes_witness :
  exists l,
    loadGitLeaksFindings
      (mkWorld 0 0 (fun _ => 1) (fun _ => None) [] [] (Sample.answer "ok")
         (Returned "policy")
         (ReportParsed (Json.JObj [("findings", Json.JArr Sample.findings)])) [] [])
    = (Returned l,
       mkWorld 0 0 (fun _ => 1) (fun _ => None) [] [] (Sample.answer "ok")
         (Returned "policy")
         (ReportParsed (Json.JObj [("findings", Json.JArr Sample.findings)])) [] []) /\
    (l <> [] ->
     report_file
       (mkWorld 0 0 (fun _ => 1) (fun _ => None) [] [] (Sample.answer "ok")
          (Returned "policy")
          (ReportParsed (Json.JObj [("findings", Json.JArr Sample.findings)])) [] [])
     = ReportParsed (Json.JArr l) \/
     exists props,
       report_file
         (mkWorld 0 0 (fun _ => 1) (fun _ => None) [] [] (Sample.answer "ok")
            (Returned "policy")
            (ReportParsed (Json.JObj [("findings", Json.JArr Sample.findings)])) [] [])
       = ReportParsed (Json.JObj props) /\
       Json.assoc "findings" props = Some (Json.JArr l)) /\
    (l = [] -> summarizeGitLeaks_default l = Returned EmptyString).
Proof.
  exact (loadGitLeaksFindings_shapes
           (mkWorld 0 0 (fun _ => 1) (fun _ => None) [] [] (Sample.answer "ok")
              (Returned "policy")
              (ReportParsed (Json.JObj [("findings", Json.JArr Sample.findings)])) [] [])).
Defined.
